(** * pptviewer: the LibreOffice conversion pipeline and its editor glue

    A shallow embedding of [src/libreoffice-converter.ts],
    [src/ppt-editor-provider.ts] and [src/extension.ts].

    The TypeScript code is asynchronous: it spawns child processes, registers
    callbacks on them, arms timers and awaits promises.  The embedding keeps
    that shape:

    - the host (platform, temp root, what each spawned child will do) is a
      record [Host]; the mutable part (file system, number of processes
      spawned so far, what the program did) is a record [World] threaded
      through every function by a small state-and-rejection monad [Async];
    - a child process is a timeline of stamped events (stderr data, files it
      writes, 'error', 'close'); the timer armed next to it is merged into
      that timeline at its delay, which gives the order in which Node
      dispatches the callbacks;
    - a promise is settled by the first [resolve]/[reject] that reaches it and
      ignores every later one; the callbacks that run after their promise has
      settled are still run, and what they do is kept apart in
      [detached].

    What is taken from Node rather than from the repository: [child.kill()]
    delivers its signal exactly when the child has neither exited nor failed
    to start, and does not fail; 'error' is the spawn failure (the code
    reads it that way: "Failed to start LibreOffice"); [spawn], [mkdirSync]
    and [console.log] do not throw; strings are sequences of 8-bit code
    units; [path] is the POSIX flavour.  The file system changes only by what
    the program and its children write. *)

From stdpp Require Import gmap strings list sorting pretty.
From Stdlib Require Import ZArith Ascii String Lia.

Open Scope string_scope.
Open Scope list_scope.
Open Scope Z_scope.

(** ** JavaScript strings *)

Definition chars (s : string) : list ascii := list_ascii_of_string s.
Definition unchars (l : list ascii) : string := string_of_list_ascii l.

(** [s.startsWith(p)] *)
Definition startsWith (s p : string) : bool := String.prefix p s.

(** [s.endsWith(p)] *)
Definition endsWith (s p : string) : bool :=
  String.prefix (unchars (rev (chars p))) (unchars (rev (chars s))).

(** [s.toLowerCase()] on code units below 128 *)
Definition lower_char (c : ascii) : ascii :=
  let n := N_of_ascii c in
  if ((65 <=? n) && (n <=? 90))%N then ascii_of_N (n + 32) else c.

Definition toLowerCase (s : string) : string := unchars (List.map lower_char (chars s)).

(** The order of [Array.prototype.sort()] without a comparator: code unit by
    code unit. *)
Definition str_le (a b : string) : Prop := String.leb a b = true.

(** ** Node's [path] module (POSIX) *)

Module path.

Definition is_slash (c : ascii) : bool := Ascii.eqb c "/".
Definition is_dot (c : ascii) : bool := Ascii.eqb c ".".

Fixpoint drop_while (f : ascii -> bool) (l : list ascii) : list ascii :=
  match l with
  | [] => []
  | c :: l' => if f c then drop_while f l' else l
  end.

Fixpoint take_until (f : ascii -> bool) (l : list ascii) : list ascii :=
  match l with
  | [] => []
  | c :: l' => if f c then [] else c :: take_until f l'
  end.

(** The last component of a path, read from the right: trailing separators
    are skipped, then everything up to the next separator is kept.  The
    result is in reading order. *)
Definition last_component (p : string) : list ascii :=
  rev (take_until is_slash (drop_while is_slash (rev (chars p)))).

(** [path.extname(p)]: from the last dot of the last component to its end;
    empty when there is no dot, when the only dot is the first character,
    and for the component [..]. *)
Definition extname (p : string) : string :=
  let c := last_component p in
  let r := rev c in
  let after := take_until is_dot r in
  if forallb (fun x => negb (is_dot x)) c then ""
  else
    match drop_while (fun x => negb (is_dot x)) r with
    | [] => ""
    | _dot :: before =>
        match before with
        | [] => ""
        | _ => if String.eqb (unchars c) ".." then ""
               else unchars ("."%char :: rev after)
        end
    end.

(** [path.basename(p, suffix)]: the last component, without [suffix] when
    the component ends with it and is longer than it. *)
Definition basename (p suffix : string) : string :=
  let c := unchars (last_component p) in
  if String.eqb suffix "" then c
  else if String.eqb suffix p then ""
  else if endsWith c suffix && negb (String.eqb c suffix)
       then String.substring 0 (String.length c - String.length suffix) c
       else c.

(** [path.join(a, b)] on operands that need no normalisation: [a] is a
    directory without trailing separator, [b] a single file name. *)
Definition join (a b : string) : string := a +:+ "/" +:+ b.

End path.

(** ** The file system *)

Record entry := { is_dir : bool; mtime : Z }.

Module fs.

(** A file system is a finite map from absolute paths to entries;
    [mtime] is [Date.valueOf()], in milliseconds. *)
Abbreviation t := (gmap string entry).

(** [None] stands for the ENOENT exception. *)
Definition statSync (d : t) (p : string) : option entry := d !! p.

Definition existsSync (d : t) (p : string) : bool :=
  match statSync d p with Some _ => true | None => false end.

Definition mkdirSync (d : t) (p : string) (now : Z) : t :=
  <[p := {| is_dir := true; mtime := now |}]> d.

Definition writeFile (d : t) (p : string) (mt : Z) : t :=
  <[p := {| is_dir := false; mtime := mt |}]> d.

(** The name of [k] inside directory [dir], when [k] is directly in it. *)
Definition child_name (dir k : string) : option string :=
  let pre := dir +:+ "/" in
  if String.prefix pre k then
    let n := String.substring (String.length pre) (String.length k - String.length pre) k in
    if String.eqb n "" then None
    else if forallb (fun c => negb (path.is_slash c)) (chars n) then Some n
    else None
  else None.

(** [None] stands for an exception (ENOENT, ENOTDIR). *)
Definition readdirSync (d : t) (dir : string) : option (list string) :=
  match statSync d dir with
  | Some e =>
      if is_dir e then Some (omap (fun kv => child_name dir kv.1) (map_to_list d))
      else None
  | None => None
  end.

End fs.

(** ** Child processes, as Node reports them *)

(** What a spawned child does, as seen from the parent: chunks on its standard
    error, files it writes, the 'error' event, and the 'close' event with
    its exit code ([None] is JavaScript's [null]: ended by a signal). *)
Inductive child_event :=
| Stderr (data : string)
| Writes (file : string) (mt : Z)
| Error (msg : string)
| Close (code : option Z).

(** Events stamped with the milliseconds elapsed since the spawn, in the order
    of their dispatch. *)
Definition timeline := list (Z * child_event).

(** What the event loop hands to the callbacks registered next to a child:
    the child's events, and the one timer armed by [setTimeout]. *)
Inductive occurrence :=
| Ev (e : child_event)
| TimerDue.

(** The timer is never cleared, so it is dispatched on every run: after the
    events stamped before its delay, before the others.  An event stamped at
    the delay itself comes after the timer, as in an iteration of the event
    loop, which runs the due timers before the I/O callbacks. *)
Fixpoint schedule (delay : Z) (tl : timeline) : list occurrence :=
  match tl with
  | [] => [TimerDue]
  | (t, e) :: tl' =>
      if t <? delay then Ev e :: schedule delay tl'
      else TimerDue :: List.map (fun x => Ev x.2) tl
  end.

(** ** What the program does *)

(** Messages posted to the webview. *)
Inductive message :=
| LibreOfficeNotInstalled
| LoadPDF (pdfUri : string)
| ErrorText (text : string).

Inductive event :=
| Spawn (pid : nat) (cmd : string) (args : list string)
| Kill (pid : nat) (delivered : bool)
| OnError (pid : nat) (msg : string)
| OnClose (pid : nat) (code : option Z)
| Mkdir (dir : string)
| PostMessage (m : message)
| ShowErrorMessage (text : string)
| WithProgress (title : string)
| ExecuteCommand (cmd : string) (args : list string).

(** The two conversions share their failure kinds. *)
Inductive conversion := ToPdf | ToImages.

(** The [Error] objects the converter rejects with, by kind; [message_of]
    gives the text each one carries in the source.  [ReadError] and
    [StatError] are the exceptions of [readdirSync] and [statSync]; their
    text is Node's, given here in its ENOENT form. *)
Inductive error :=
| NotInstalled
| SpawnFailure (k : conversion) (msg : string)
| NonZeroExit (k : conversion) (code : option Z) (stderr : string)
| OutputMissing
| Timeout (k : conversion)
| NoOutputFiles
| ReadError (dir : string)
| StatError (file : string).

Definition show_code (code : option Z) : string :=
  match code with
  | Some z => pretty z
  | None => "null"
  end.

Definition message_of (e : error) : string :=
  match e with
  | NotInstalled =>
      "LibreOffice is not installed or not found in PATH. Please install LibreOffice to use this extension."
  | SpawnFailure ToPdf msg => "Failed to start LibreOffice: " +:+ msg
  | SpawnFailure ToImages msg => "Failed to start LibreOffice for image conversion: " +:+ msg
  | NonZeroExit ToPdf code err =>
      "LibreOffice conversion failed with code " +:+ show_code code +:+ ". Error: " +:+ err
  | NonZeroExit ToImages code err =>
      "LibreOffice image conversion failed with code " +:+ show_code code +:+ ". Error: " +:+ err
  | OutputMissing => "PDF file was not created. LibreOffice may have encountered an error."
  | Timeout ToPdf => "Conversion timeout. The PowerPoint file may be too large or complex."
  | Timeout ToImages => "Image conversion timeout."
  | NoOutputFiles => "No PNG files were created from PDF."
  | ReadError dir =>
      "Error reading converted images: Error: ENOENT: no such file or directory, scandir '" +:+ dir +:+ "'"
  | StatError file => "ENOENT: no such file or directory, stat '" +:+ file +:+ "'"
  end.

(** ** Host and world *)

Record Host := {
  platform : string;
  tmpdir : string;
  now : Z;
  child_of : nat -> timeline;
  asWebviewUri : string -> string
}.

Record World := {
  files : fs.t;
  spawned : nat;
  log : list event;
  detached : list event
}.

(** ** Promises *)

Inductive promise (A : Type) :=
| Pending
| Fulfilled (a : A)
| Rejected (e : error).

Arguments Pending {A}.
Arguments Fulfilled {A} a.
Arguments Rejected {A} e.

Definition is_pending {A} (p : promise A) : bool :=
  match p with Pending => true | _ => false end.

(** The state an executor and its callbacks share: the promise they settle,
    the [errorOutput] variable, whether the child is still running, the file
    system, and what has been done and observed so far. *)
Record stage (A : Type) := {
  state : promise A;
  errorOutput : string;
  running : bool;
  disk : fs.t;
  seen : list event
}.

Arguments state {A} s.
Arguments errorOutput {A} s.
Arguments running {A} s.
Arguments disk {A} s.
Arguments seen {A} s.

Definition set_state {A} (p : promise A) (s : stage A) : stage A :=
  {| state := p; errorOutput := errorOutput s; running := running s;
     disk := disk s; seen := seen s |}.

Definition set_errorOutput {A} (x : string) (s : stage A) : stage A :=
  {| state := state s; errorOutput := x; running := running s;
     disk := disk s; seen := seen s |}.

Definition set_disk {A} (d : fs.t) (s : stage A) : stage A :=
  {| state := state s; errorOutput := errorOutput s; running := running s;
     disk := d; seen := seen s |}.

Definition stopped {A} (e : event) (s : stage A) : stage A :=
  {| state := state s; errorOutput := errorOutput s; running := false;
     disk := disk s; seen := seen s ++ [e] |}.

Definition forget_seen {A} (s : stage A) : stage A :=
  {| state := state s; errorOutput := errorOutput s; running := running s;
     disk := disk s; seen := [] |}.

(** [resolve] and [reject] settle a pending promise and do nothing to a
    settled one. *)
Definition settle {A} (p : promise A) (s : stage A) : stage A :=
  match state s with
  | Pending => set_state p s
  | _ => s
  end.

Definition resolve {A} (a : A) : stage A -> stage A := settle (Fulfilled a).
Definition reject {A} (e : error) : stage A -> stage A := settle (Rejected e).

(** [process.kill()]: the signal reaches the child only while it runs. *)
Definition kill {A} (pid : nat) (s : stage A) : stage A :=
  stopped (Kill pid (running s)) s.

(** What an occurrence does before any callback of the program runs. *)
Definition arrive {A} (pid : nat) (o : occurrence) (s : stage A) : stage A :=
  match o with
  | Ev (Writes f mt) => set_disk (fs.writeFile (disk s) f mt) s
  | Ev (Error msg) => stopped (OnError pid msg) s
  | Ev (Close code) => stopped (OnClose pid code) s
  | Ev (Stderr _) => s
  | TimerDue => s
  end.

Definition callbacks (A : Type) := occurrence -> stage A -> stage A.

Definition dispatch {A} (pid : nat) (cb : callbacks A) (o : occurrence) (s : stage A) : stage A :=
  cb o (arrive pid o s).

(** Run the schedule up to the occurrence that settles the promise; the
    occurrences left over are returned. *)
Fixpoint run_until_settled {A} (step : occurrence -> stage A -> stage A)
    (os : list occurrence) (s : stage A) : stage A * list occurrence :=
  match os with
  | [] => (s, [])
  | o :: os' =>
      let s' := step o s in
      if is_pending (state s') then run_until_settled step os' s' else (s', os')
  end.

(** The occurrences left over are dispatched all the same. *)
Definition run_rest {A} (step : occurrence -> stage A -> stage A)
    (os : list occurrence) (s : stage A) : stage A :=
  fold_left (fun s o => step o s) os s.

(** The stage right after [spawn]: nothing settled, nothing heard, the child
    running. *)
Definition first_stage {A} (d : fs.t) (e : event) : stage A :=
  {| state := Pending; errorOutput := ""; running := true; disk := d; seen := [e] |}.

(** A spawned child with its callbacks and its timer: the stage when the
    promise settles, and the stage once every callback has run (its [seen]
    holds what happened after the settlement only). *)
Definition child_run {A} (h : Host) (w : World) (cmd : string) (args : list string)
    (delay : Z) (cb : nat -> callbacks A) : stage A * stage A :=
  let pid := spawned w in
  let s0 := first_stage (files w) (Spawn pid cmd args) in
  let r := run_until_settled (dispatch pid (cb pid)) (schedule delay (child_of h pid)) s0 in
  (r.1, run_rest (dispatch pid (cb pid)) r.2 (forget_seen r.1)).

(** ** Asynchronous functions *)

Definition Async (A : Type) := World -> promise A * World.

Definition ret {A} (a : A) : Async A := fun w => (Fulfilled a, w).
Definition throw {A} (e : error) : Async A := fun w => (Rejected e, w).

(** [await]: the continuation runs when the promise is fulfilled; a rejection
    is rethrown; a promise that never settles suspends for good. *)
Definition bind {A B} (m : Async A) (k : A -> Async B) : Async B :=
  fun w =>
    match m w with
    | (Fulfilled a, w') => k a w'
    | (Rejected e, w') => (Rejected e, w')
    | (Pending, w') => (Pending, w')
    end.

Notation "x <- m ;; k" := (bind m (fun x => k))
  (at level 100, m at next level, right associativity).
Notation "m ;;; k" := (bind m (fun _ => k))
  (at level 100, right associativity).

Definition reads {A} (f : fs.t -> A) : Async A := fun w => (Fulfilled (f (files w)), w).

Definition emit (e : event) : Async unit :=
  fun w => (Fulfilled tt,
            {| files := files w; spawned := spawned w; log := log w ++ [e];
               detached := detached w |}).

Definition emit_detached (e : event) : Async unit :=
  fun w => (Fulfilled tt,
            {| files := files w; spawned := spawned w; log := log w;
               detached := detached w ++ [e] |}).

(** [new Promise(executor)] where the executor spawns a child, registers
    [cb] on it and arms a timer of [delay] milliseconds. *)
Definition spawn {A} (h : Host) (cmd : string) (args : list string) (delay : Z)
    (cb : nat -> callbacks A) : Async A :=
  fun w =>
    let r := child_run h w cmd args delay cb in
    (state r.1,
     {| files := disk r.1; spawned := S (spawned w);
        log := log w ++ seen r.1; detached := detached w ++ seen r.2 |}).

(** [try { body } catch (error) { handler(error) }] *)
Definition try_catch {A} (body : Async A) (handler : error -> Async A) : Async A :=
  fun w =>
    match body w with
    | (Rejected e, w') => handler e w'
    | r => r
    end.

Definition mkdirSync (h : Host) (dir : string) : Async unit :=
  fun w => (Fulfilled tt,
            {| files := fs.mkdirSync (files w) dir (now h); spawned := spawned w;
               log := log w ++ [Mkdir dir]; detached := detached w |}).

Definition statSync (file : string) : Async entry :=
  fun w =>
    match fs.statSync (files w) file with
    | Some e => (Fulfilled e, w)
    | None => (Rejected (StatError file), w)
    end.

(** A call that is not awaited: what it does happens, its result is dropped. *)
Definition not_awaited {A} (m : Async A) : Async unit :=
  fun w => (Fulfilled tt, (m w).2).

(** ** [libreoffice-converter.ts] *)

Definition possiblePaths : list string :=
  [ "C:\Program Files\LibreOffice\program\soffice.exe";
    "C:\Program Files (x86)\LibreOffice\program\soffice.exe" ].

(** The [for] loop over [possiblePaths] with its early [return]. *)
Fixpoint first_existing (d : fs.t) (candidates : list string) (fallback : string) : string :=
  match candidates with
  | [] => fallback
  | possiblePath :: others =>
      if fs.existsSync d possiblePath then possiblePath
      else first_existing d others fallback
  end.

Definition getLibreOfficePath (platform : string) (d : fs.t) : string :=
  if String.eqb platform "darwin" then
    "/Applications/LibreOffice.app/Contents/MacOS/soffice"
  else if String.eqb platform "win32" then
    first_existing d possiblePaths "soffice.exe"
  else
    "libreoffice".

(** [code === 0] *)
Definition code_is_zero (code : option Z) : bool :=
  match code with
  | Some 0 => true
  | _ => false
  end.

Definition probe_callbacks (pid : nat) : callbacks bool :=
  fun o s =>
    match o with
    | Ev (Error _) => resolve false s
    | Ev (Close code) => resolve (code_is_zero code) s
    | TimerDue => resolve false (kill pid s)
    | Ev (Stderr _) => s
    | Ev (Writes _ _) => s
    end.

Definition checkLibreOfficeInstallation (h : Host) : Async bool :=
  libreOfficePath <- reads (getLibreOfficePath (platform h)) ;;
  spawn h libreOfficePath ["--version"] 5000 probe_callbacks.

Definition pdf_callbacks (pdfPath : string) (pid : nat) : callbacks string :=
  fun o s =>
    match o with
    | Ev (Stderr data) => set_errorOutput (errorOutput s +:+ data) s
    | Ev (Error msg) => reject (SpawnFailure ToPdf msg) s
    | Ev (Close code) =>
        if code_is_zero code then
          if fs.existsSync (disk s) pdfPath then resolve pdfPath s
          else reject OutputMissing s
        else reject (NonZeroExit ToPdf code (errorOutput s)) s
    | TimerDue => reject (Timeout ToPdf) (kill pid s)
    | Ev (Writes _ _) => s
    end.

Definition tempDir_of (h : Host) : string := path.join (tmpdir h) "muty-pptviewer".

Definition fileName_of (pptPath : string) : string :=
  path.basename pptPath (path.extname pptPath).

Definition pdfPath_of (h : Host) (pptPath : string) : string :=
  path.join (tempDir_of h) (fileName_of pptPath +:+ ".pdf").

Definition pdf_args (h : Host) (pptPath : string) : list string :=
  ["--headless"; "--convert-to"; "pdf"; "--outdir"; tempDir_of h; pptPath].

(** The [new Promise] that [convertToPDF] returns on a cache miss. *)
Definition pdf_conversion (h : Host) (pptPath : string) : Async string :=
  libreOfficePath <- reads (getLibreOfficePath (platform h)) ;;
  spawn h libreOfficePath (pdf_args h pptPath) 30000 (pdf_callbacks (pdfPath_of h pptPath)).

Definition convertToPDF (h : Host) (pptPath : string) : Async string :=
  isInstalled <- checkLibreOfficeInstallation h ;;
  if negb isInstalled then throw NotInstalled
  else
    let tempDir := tempDir_of h in
    dirExists <- reads (fun d => fs.existsSync d tempDir) ;;
    (if negb dirExists then mkdirSync h tempDir else ret tt) ;;;
    let pdfPath := pdfPath_of h pptPath in
    cached <- (pdfExists <- reads (fun d => fs.existsSync d pdfPath) ;;
               if pdfExists then
                 pptStats <- statSync pptPath ;;
                 pdfStats <- statSync pdfPath ;;
                 ret (mtime pdfStats >? mtime pptStats)
               else ret false) ;;
    if cached then ret pdfPath
    else pdf_conversion h pptPath.

#[global] Instance str_le_dec : RelDecision str_le.
Proof. intros a b. unfold str_le. apply _. Defined.

(** [imageFiles.sort()] *)
Definition sort_strings (l : list string) : list string := merge_sort str_le l.

Definition is_image_of (fileName file : string) : bool :=
  startsWith file fileName && endsWith file ".png".

Definition image_callbacks (tempDir fileName : string) (pid : nat) : callbacks (list string) :=
  fun o s =>
    match o with
    | Ev (Stderr data) => set_errorOutput (errorOutput s +:+ data) s
    | Ev (Error msg) => reject (SpawnFailure ToImages msg) s
    | Ev (Close code) =>
        if code_is_zero code then
          match fs.readdirSync (disk s) tempDir with
          | Some listing =>
              let imageFiles :=
                List.map (path.join tempDir) (List.filter (is_image_of fileName) listing) in
              if (0 <? List.length imageFiles)%nat then resolve (sort_strings imageFiles) s
              else reject NoOutputFiles s
          | None => reject (ReadError tempDir) s
          end
        else reject (NonZeroExit ToImages code (errorOutput s)) s
    | TimerDue => reject (Timeout ToImages) (kill pid s)
    | Ev (Writes _ _) => s
    end.

Definition image_args (h : Host) (pdfPath : string) : list string :=
  ["--headless"; "--convert-to"; "png"; "--outdir"; tempDir_of h; pdfPath].

(** The [new Promise] that [convertToImages] returns. *)
Definition image_conversion (h : Host) (pptPath pdfPath : string) : Async (list string) :=
  let tempDir := tempDir_of h in
  let fileName := fileName_of pptPath in
  libreOfficePath <- reads (getLibreOfficePath (platform h)) ;;
  spawn h libreOfficePath (image_args h pdfPath) 30000 (image_callbacks tempDir fileName).

Definition convertToImages (h : Host) (pptPath : string) : Async (list string) :=
  pdfPath <- convertToPDF h pptPath ;;
  image_conversion h pptPath pdfPath.

(** ** [ppt-editor-provider.ts] *)

Definition _loadPDF (h : Host) (pdfPath : string) : Async unit :=
  pdfExists <- reads (fun d => fs.existsSync d pdfPath) ;;
  if negb pdfExists then
    emit (PostMessage (ErrorText "PDF file was not created successfully."))
  else
    emit (PostMessage (LoadPDF (asWebviewUri h pdfPath))).

Definition _loadPPT (h : Host) (pptPath : string) : Async unit :=
  try_catch
    (isInstalled <- checkLibreOfficeInstallation h ;;
     if negb isInstalled then emit (PostMessage LibreOfficeNotInstalled)
     else
       emit (WithProgress "Converting PowerPoint to PDF...") ;;;
       pdfPath <- convertToPDF h pptPath ;;
       _loadPDF h pdfPath)
    (fun error =>
       let text := "Failed to convert PowerPoint file: Error: " +:+ message_of error in
       emit (ShowErrorMessage text) ;;;
       emit (PostMessage (ErrorText text))).

(** The timer of [_handleFileSelection] runs apart from the awaited flow. *)
Definition _handleFileSelection : Async unit :=
  emit_detached (ExecuteCommand "workbench.files.action.focusFilesExplorer" []).

(** Messages received from the webview; [Unknown] is any other command. *)
Inductive inbound :=
| Ready
| RetryLibreOfficeCheck
| WebviewError (text : string)
| Unknown (command : string).

(** The listener [resolveCustomEditor] registers on the webview;
    [fsPath] is [document.uri.fsPath]. *)
Definition onDidReceiveMessage (h : Host) (fsPath : string) (m : inbound) : Async unit :=
  match m with
  | Ready =>
      not_awaited (_loadPPT h fsPath) ;;;
      _handleFileSelection
  | RetryLibreOfficeCheck =>
      not_awaited (_loadPPT h fsPath)
  | WebviewError text =>
      emit (ShowErrorMessage ("PPT Preview Error: " +:+ text))
  | Unknown _ => ret tt
  end.

(** ** [extension.ts] *)

(** The handler of the command [muty-pptviewer.openPPT]; the argument is the
    [fsPath] of the URI, [None] when the command is run without one. *)
Definition openPPTCommand (uri : option string) : list event :=
  match uri with
  | None => [ShowErrorMessage "Please select a PowerPoint file to preview."]
  | Some fsPath =>
      let ext := toLowerCase (path.extname fsPath) in
      if negb (String.eqb ext ".pptx") && negb (String.eqb ext ".ppt") then
        [ShowErrorMessage "Please select a valid PowerPoint file (.pptx or .ppt)."]
      else
        [ExecuteCommand "vscode.openWith" [fsPath; "muty-pptviewer.preview"]]
  end.

(** ** Reading a timeline *)

(** The events dispatched before a timer of [delay] milliseconds, and those
    dispatched after it. *)
Fixpoint early (delay : Z) (tl : timeline) : list child_event :=
  match tl with
  | [] => []
  | (t, e) :: tl' => if t <? delay then e :: early delay tl' else []
  end.

Fixpoint late (delay : Z) (tl : timeline) : list child_event :=
  match tl with
  | [] => []
  | (t, e) :: tl' => if t <? delay then late delay tl' else List.map snd tl
  end.

(** The first 'error' or 'close' among some events, if any. *)
Fixpoint first_loud (evs : list child_event) : option child_event :=
  match evs with
  | [] => None
  | Stderr _ :: r => first_loud r
  | Writes _ _ :: r => first_loud r
  | e :: _ => Some e
  end.

(** The standard-error text received before the first 'error' or 'close',
    appended to [acc] chunk by chunk. *)
Fixpoint heard (acc : string) (evs : list child_event) : string :=
  match evs with
  | Stderr data :: r => heard (acc +:+ data) r
  | Writes _ _ :: r => heard acc r
  | _ => acc
  end.

(** The file system once the child has written what it writes before its
    first 'error' or 'close'. *)
Fixpoint written (d : fs.t) (evs : list child_event) : fs.t :=
  match evs with
  | Writes f mt :: r => written (fs.writeFile d f mt) r
  | Stderr _ :: r => written d r
  | _ => d
  end.

(** ** The vocabulary of the statements *)

(** An output file exists at [pdfPath] and is strictly newer than the
    source. *)
Definition fresh_cache (d : fs.t) (pptPath pdfPath : string) : Prop :=
  exists pdf ppt,
    fs.statSync d pdfPath = Some pdf /\ fs.statSync d pptPath = Some ppt /\
    mtime ppt < mtime pdf.

(** No fresh output is cached for [pptPath]: there is no file at [pdfPath],
    or there is one that is not newer than the source. *)
Definition stale_cache (d : fs.t) (pptPath pdfPath : string) : Prop :=
  match fs.statSync d pdfPath with
  | None => True
  | Some pdf =>
      match fs.statSync d pptPath with
      | Some ppt => mtime pdf <= mtime ppt
      | None => False
      end
  end.

(** The callback that marks the end of child [pid] for the program: its
    'error', its 'close', or the [kill()] of its timer. *)
Definition stops (pid : nat) (e : event) : bool :=
  match e with
  | OnError p _ => Nat.eqb p pid
  | OnClose p _ => Nat.eqb p pid
  | Kill p true => Nat.eqb p pid
  | _ => false
  end.




(** ** The common shape of the three callback sets

    Each executor registers the same four reactions: an optional listener on
    standard error that appends to [errorOutput], an 'error' handler and a
    'close' handler that settle the promise, and a timer that kills the child
    and settles the promise. *)
Record reactions (A : Type) := {
  listens : bool;
  on_error : string -> promise A;
  on_close : option Z -> string -> fs.t -> promise A;
  on_timeout : promise A
}.

Arguments listens {A} r.
Arguments on_error {A} r msg.
Arguments on_close {A} r code err d.
Arguments on_timeout {A} r.

Definition react {A} (r : reactions A) (pid : nat) : callbacks A :=
  fun o s =>
    match o with
    | Ev (Stderr data) =>
        if listens r then set_errorOutput (errorOutput s +:+ data) s else s
    | Ev (Error msg) => settle (on_error r msg) s
    | Ev (Close code) => settle (on_close r code (errorOutput s) (disk s)) s
    | TimerDue => settle (on_timeout r) (kill pid s)
    | Ev (Writes _ _) => s
    end.

Definition decisive {A} (r : reactions A) : Prop :=
  (forall msg, is_pending (on_error r msg) = false) /\
  (forall code err d, is_pending (on_close r code err d) = false) /\
  is_pending (on_timeout r) = false.

Definition probe_reactions : reactions bool :=
  {| listens := false;
     on_error := fun _ => Fulfilled false;
     on_close := fun code _ _ => Fulfilled (code_is_zero code);
     on_timeout := Fulfilled false |}.

Definition pdf_reactions (pdfPath : string) : reactions string :=
  {| listens := true;
     on_error := fun msg => Rejected (SpawnFailure ToPdf msg);
     on_close := fun code err d =>
       if code_is_zero code then
         if fs.existsSync d pdfPath then Fulfilled pdfPath else Rejected OutputMissing
       else Rejected (NonZeroExit ToPdf code err);
     on_timeout := Rejected (Timeout ToPdf) |}.

Definition image_reactions (tempDir fileName : string) : reactions (list string) :=
  {| listens := true;
     on_error := fun msg => Rejected (SpawnFailure ToImages msg);
     on_close := fun code err d =>
       if code_is_zero code then
         match fs.readdirSync d tempDir with
         | Some listing =>
             let imageFiles :=
               List.map (path.join tempDir) (List.filter (is_image_of fileName) listing) in
             if (0 <? List.length imageFiles)%nat then Fulfilled (sort_strings imageFiles)
             else Rejected NoOutputFiles
         | None => Rejected (ReadError tempDir)
         end
       else Rejected (NonZeroExit ToImages code err);
     on_timeout := Rejected (Timeout ToImages) |}.

(** The promise as the first 'error', 'close' or timer leaves it. *)
Definition outcome {A} (r : reactions A) (err : string) (d : fs.t)
    (evs : list child_event) : promise A :=
  match first_loud evs with
  | None => on_timeout r
  | Some (Error msg) => on_error r msg
  | Some (Close code) => on_close r code err d
  | Some _ => Pending
  end.

(** What the log records for it. *)
Definition last_seen (pid : nat) (alive : bool) (evs : list child_event) : event :=
  match first_loud evs with
  | Some (Error msg) => OnError pid msg
  | Some (Close code) => OnClose pid code
  | _ => Kill pid alive
  end.

Fixpoint after_loud (evs : list child_event) : list child_event :=
  match evs with
  | [] => []
  | Stderr _ :: r => after_loud r
  | Writes _ _ :: r => after_loud r
  | _ :: r => r
  end.

(** The occurrences still to be dispatched once the promise is settled. *)
Definition leftover (evs : list child_event) (rest : list occurrence) : list occurrence :=
  match first_loud evs with
  | None => rest
  | Some _ => List.map Ev (after_loud evs) ++ TimerDue :: rest
  end.

Definition settled_stage {A} (r : reactions A) (pid : nat) (evs : list child_event)
    (s : stage A) : stage A :=
  let err := if listens r then heard (errorOutput s) evs else errorOutput s in
  let d := written (disk s) evs in
  {| state := outcome r err d evs; errorOutput := err; running := false; disk := d;
     seen := seen s ++ [last_seen pid (running s) evs] |}.

(** What a callback may still record once the child has stopped. *)
Definition is_late (pid : nat) (e : event) : bool :=
  match e with
  | OnError p _ => Nat.eqb p pid
  | OnClose p _ => Nat.eqb p pid
  | Kill p false => Nat.eqb p pid
  | _ => false
  end.

(** ** Closed forms used in the statements *)

(** The world a spawned child leaves when its promise settles: [evs] are
    its events dispatched before the timer, [after] what the callbacks still
    record later. *)
Definition world_after_child (w : World) (cmd : string) (args : list string)
    (evs : list child_event) (after : list event) : World :=
  {| files := written (files w) evs;
     spawned := S (spawned w);
     log := log w ++ [Spawn (spawned w) cmd args; last_seen (spawned w) true evs];
     detached := detached w ++ after |}.

(** The answer of the probe, read off its child's events: true only for a
    'close' with code zero that comes before any 'error' and before the
    timer. *)
Definition probe_answer (evs : list child_event) : bool :=
  match first_loud evs with
  | Some (Close code) => code_is_zero code
  | _ => false
  end.

(** The events of the child that the next [spawn] of [w] starts, up to a
    timer of [delay] milliseconds. *)
Definition next_child (h : Host) (w : World) (delay : Z) : list child_event :=
  early delay (child_of h (spawned w)).

(** The scratch directory is created when it is absent. *)
Definition after_mkdir (h : Host) (w : World) : World :=
  if fs.existsSync (files w) (tempDir_of h) then w
  else (mkdirSync h (tempDir_of h) w).2.

(** ** Sample hosts and worlds *)

Definition linux_host (kids : nat -> timeline) : Host :=
  {| platform := "linux"; tmpdir := "/tmp"; now := 1000; child_of := kids;
     asWebviewUri := fun p => "vscode-webview://panel" +:+ p |}.

Definition world_of (d : fs.t) : World :=
  {| files := d; spawned := 0; log := []; detached := [] |}.

Definition deck : string := "/home/u/deck.pptx".

Definition disk0 : fs.t := fs.writeFile ∅ deck 100.

(** A probe that answers after 200 ms, then a conversion that writes the PDF
    and exits after 3 s. *)
Definition kids_ok (n : nat) : timeline :=
  match n with
  | O => [(200, Close (Some 0))]
  | _ => [(2900, Writes "/tmp/muty-pptviewer/deck.pdf" 5000); (3000, Close (Some 0))]
  end.

Definition scratch : string := "/tmp/muty-pptviewer".
Definition deck_pdf : string := "/tmp/muty-pptviewer/deck.pdf".

(** The scratch directory holds a PDF of the deck that is newer than it. *)
Definition disk_cached : fs.t :=
  fs.writeFile (fs.mkdirSync (fs.writeFile ∅ deck 100) scratch 150) deck_pdf 200.

(** The probe answers after 200 ms; nothing else is ever spawned. *)
Definition kids_probe_ok (n : nat) : timeline :=
  match n with
  | O => [(200, Close (Some 0))]
  | _ => []
  end.

(** The executable is not there: every spawn fails. *)
Definition kids_absent (n : nat) : timeline :=
  [(0, Error "spawn libreoffice ENOENT"); (0, Close (Some (-2)))].

(** A probe that answers, then a conversion that fails with code 1. *)
Definition kids_exit1 (n : nat) : timeline :=
  match n with
  | O => [(200, Close (Some 0))]
  | _ => [(500, Stderr "unsupported "); (600, Stderr "format"); (700, Close (Some 1))]
  end.

(** A probe that answers, then a conversion that exits cleanly and has
    written nothing. *)
Definition kids_no_output (n : nat) : timeline :=
  match n with
  | O => [(200, Close (Some 0))]
  | _ => [(900, Close (Some 0))]
  end.

(** A probe that answers, then a conversion that hangs: it is closed by the
    signal, after the timer. *)
Definition kids_hang (n : nat) : timeline :=
  match n with
  | O => [(200, Close (Some 0))]
  | _ => [(100, Stderr "loading"); (30010, Close None)]
  end.

(** A scratch directory that holds the PDF and three slides of the deck, a
    slide of another deck and a text file. *)
Definition disk_slides : fs.t :=
  fs.writeFile (fs.writeFile (fs.writeFile (fs.writeFile (fs.writeFile disk_cached
    "/tmp/muty-pptviewer/deck-3.png" 300)
    "/tmp/muty-pptviewer/deck-1.png" 300)
    "/tmp/muty-pptviewer/other-1.png" 300)
    "/tmp/muty-pptviewer/deck-2.png" 300)
    "/tmp/muty-pptviewer/deck.txt" 300.

(** A probe that answers, then one conversion (the PDF is cached) that
    exits cleanly. *)
Definition kids_images (n : nat) : timeline :=
  match n with
  | O => [(200, Close (Some 0))]
  | _ => [(2500, Close (Some 0))]
  end.

(** The converter is missing at first (the first spawn fails) and
    installed afterwards: each later probe answers, and the conversion
    writes the PDF. *)
Definition kids_installed_later (n : nat) : timeline :=
  match n with
  | 0%nat => [(0, Error "spawn libreoffice ENOENT")]
  | 1%nat => [(150, Close (Some 0))]
  | 2%nat => [(150, Close (Some 0))]
  | _ => [(2900, Writes deck_pdf 5000); (3000, Close (Some 0))]
  end.

(** A converter that starts and then hangs: every child is silent until
    well after any timer. *)
Definition kids_stuck (n : nat) : timeline :=
  [(100, Stderr "starting"); (60000, Close None)].

(** ** More vocabulary: outcomes and logs *)

(** The failures [convertToPDF] can end with, for the source [pptPath]. *)
Definition pdf_failure (pptPath : string) (e : error) : bool :=
  match e with
  | NotInstalled => true
  | StatError file => String.eqb file pptPath
  | SpawnFailure ToPdf _ => true
  | NonZeroExit ToPdf code _ => negb (code_is_zero code)
  | OutputMissing => true
  | Timeout ToPdf => true
  | _ => false
  end.

(** The failures [convertToImages] adds to them. *)
Definition image_failure (h : Host) (e : error) : bool :=
  match e with
  | SpawnFailure ToImages _ => true
  | NonZeroExit ToImages code _ => negb (code_is_zero code)
  | Timeout ToImages => true
  | NoOutputFiles => true
  | ReadError dir => String.eqb dir (tempDir_of h)
  | _ => false
  end.


(** The messages posted to the webview, and the error notifications shown,
    among some events. *)
Definition posted (evs : list event) : list message :=
  omap (fun e => match e with PostMessage m => Some m | _ => None end) evs.

Definition shown (evs : list event) : list string :=
  omap (fun e => match e with ShowErrorMessage t => Some t | _ => None end) evs.

(** The text [_loadPPT] reports a failure with. *)
Definition failure_text (e : error) : string :=
  "Failed to convert PowerPoint file: Error: " +:+ message_of e.

(** The world in which [_loadPPT] calls [convertToPDF]: the one its own probe
    left, with the progress notification shown. *)
Definition in_progress (w1 : World) : World :=
  (emit (WithProgress "Converting PowerPoint to PDF...") w1).2.

(** [w] with [evs] appended to its log. *)
Definition logged (w : World) (evs : list event) : World :=
  {| files := files w; spawned := spawned w; log := log w ++ evs;
     detached := detached w |}.

(** What the converter itself records: process events and the creation of
    the scratch directory, nothing addressed to the user. *)
Definition is_process (e : event) : bool :=
  match e with
  | Spawn _ _ _ | Kill _ _ | OnError _ _ | OnClose _ _ | Mkdir _ => true
  | _ => false
  end.

(** Two decks of the same name in two directories; the cached PDF comes from
    the first and is newer than both. *)
Definition disk_two_decks : fs.t := fs.writeFile disk_cached "/home/v/deck.pptx" 120.

(** The probe of [_loadPPT] answers, the probe of [convertToPDF] times out. *)
Definition kids_flaky (n : nat) : timeline :=
  match n with
  | O => [(200, Close (Some 0))]
  | _ => [(7000, Close (Some 0))]
  end.


(** ** The script of the viewer page *)

(** [_getHtmlForWebview] adds a script to the viewer page.  It keeps one
    variable, [pendingPdfUri], and touches the page in four places: the
    elements with id [libreOfficePrompt], the style of [outerContainer], the
    calls of [PDFViewerApplication.open], and the timers its [load] listener
    arms.  [null] is [None]. *)
Record Page := {
  pendingPdfUri : option string;
  prompts : nat;
  display : option string;
  opened : list (option string);
  timers : nat
}.

(** [window.PDFViewerApplication] as [openPdfWhenReady] finds it: absent (or
    without [initializedPromise]); present with a promise that gets
    fulfilled; present with a promise that is rejected. *)
Inductive viewer := NoViewer | ViewerReady | ViewerFailed.

(** [outerContainer.style.display = v], when there is such an element. *)
Definition set_display (v : string) (p : Page) : Page :=
  {| pendingPdfUri := pendingPdfUri p; prompts := prompts p;
     display := match display p with
                | Some _ => Some v
                | None => None
                end;
     opened := opened p; timers := timers p |}.

(** [prompt.remove()] on the first element with the id, when there is one. *)
Definition remove_prompt (p : Page) : Page :=
  {| pendingPdfUri := pendingPdfUri p; prompts := Nat.pred (prompts p);
     display := display p; opened := opened p; timers := timers p |}.

(** [document.body.insertAdjacentHTML('beforeend', promptHtml)] *)
Definition insert_prompt (p : Page) : Page :=
  {| pendingPdfUri := pendingPdfUri p; prompts := S (prompts p);
     display := display p; opened := opened p; timers := timers p |}.

(** The functions of the script return the page and what they have posted to
    the extension; [vscode] tells whether the global of that name is
    defined. *)
Definition retryLibreOfficeCheck (vscode : bool) (p : Page) : Page * list inbound :=
  (set_display "block" (remove_prompt p),
   if vscode then [RetryLibreOfficeCheck] else []).

Definition showLibreOfficePrompt (p : Page) : Page :=
  insert_prompt (set_display "none" p).

Definition openPdfWhenReady (v : viewer) (pdfUri : option string) (p : Page) : Page :=
  match v with
  | ViewerReady =>
      {| pendingPdfUri := pendingPdfUri p; prompts := prompts p; display := display p;
         opened := opened p ++ [pdfUri]; timers := timers p |}
  | ViewerFailed => p
  | NoViewer =>
      {| pendingPdfUri := pdfUri; prompts := prompts p; display := display p;
         opened := opened p; timers := timers p |}
  end.

(** The listener of [message]: two commands are handled, [error] is not
    among them. *)
Definition on_message (v : viewer) (m : message) (p : Page) : Page :=
  match m with
  | LoadPDF pdfUri => openPdfWhenReady v (Some pdfUri) p
  | LibreOfficeNotInstalled => showLibreOfficePrompt p
  | ErrorText _ => p
  end.

(** [if (pendingPdfUri)] *)
Definition truthy (s : option string) : bool :=
  match s with
  | Some (String _ _) => true
  | _ => false
  end.

(** The listener of [load]. *)
Definition on_load (vscode : bool) (p : Page) : Page * list inbound :=
  (if truthy (pendingPdfUri p) then
     {| pendingPdfUri := pendingPdfUri p; prompts := prompts p; display := display p;
        opened := opened p; timers := S (timers p) |}
   else p,
   if vscode then [Ready] else []).

(** A timer armed by the [load] listener fires: it reads the variable as it
    is then. *)
Definition on_timer (v : viewer) (p : Page) : Page :=
  openPdfWhenReady v (pendingPdfUri p)
    {| pendingPdfUri := pendingPdfUri p; prompts := prompts p; display := display p;
       opened := opened p; timers := Nat.pred (timers p) |}.

(** ** The page and the extension together *)

Record Session := { page : Page; world : World }.

(** What has been posted to the webview between two worlds. *)
Definition replies (w w' : World) : list message :=
  posted (drop (List.length (log w)) (log w')).

(** The extension handles what the page has posted, in order. *)
Fixpoint receive_all (h : Host) (fsPath : string) (ms : list inbound) (w : World) : World :=
  match ms with
  | [] => w
  | m :: ms' => receive_all h fsPath ms' (onDidReceiveMessage h fsPath m w).2
  end.

(** The page handles what the extension has posted, in order. *)
Fixpoint deliver_all (v : viewer) (ms : list message) (p : Page) : Page :=
  match ms with
  | [] => p
  | m :: ms' => deliver_all v ms' (on_message v m p)
  end.

(** One exchange: the page has run a function of the script, the extension
    answers what was posted, the page handles the answers. *)
Definition exchange (h : Host) (fsPath : string) (v : viewer)
    (out : Page * list inbound) (w : World) : Session :=
  let w' := receive_all h fsPath out.2 w in
  {| page := deliver_all v (replies w w') out.1; world := w' |}.

(** What can happen on the page once it is loaded: the user clicks the
    button of a prompt, which takes a prompt to hold it; or a timer fires,
    which takes a timer to be armed. *)
Inductive gesture := RetryClicked | TimerFired.

Definition step (h : Host) (fsPath : string) (vscode : bool)
    (s : Session) (g : gesture * viewer) : Session :=
  match g.1 with
  | RetryClicked =>
      match prompts (page s) with
      | O => s
      | S _ => exchange h fsPath g.2 (retryLibreOfficeCheck vscode (page s)) (world s)
      end
  | TimerFired =>
      match timers (page s) with
      | O => s
      | S _ => {| page := on_timer g.2 (page s); world := world s |}
      end
  end.

(** The page as the script finds it; [container] is the display style of
    [outerContainer], [None] when the page has no such element. *)
Definition fresh_page (container : option string) : Page :=
  {| pendingPdfUri := None; prompts := 0; display := container;
     opened := []; timers := 0 |}.

(** The life of one viewer page: it loads once, then anything of the above
    happens any number of times.  Each step comes with the state of PDF.js
    at that moment.  Nothing but the script above posts to the extension, and
    an exchange is over before the next thing happens on the page: the button
    that starts one exists only after the reply to the one before. *)
Definition loaded (h : Host) (fsPath : string) (vscode : bool) (container : option string)
    (w : World) (v0 : viewer) : Session :=
  exchange h fsPath v0 (on_load vscode (fresh_page container)) w.

Definition session (h : Host) (fsPath : string) (vscode : bool) (container : option string)
    (w : World) (v0 : viewer) (steps : list (gesture * viewer)) : Session :=
  fold_left (step h fsPath vscode) steps (loaded h fsPath vscode container w v0).

(** The page a reply leaves behind, on the page as it was loaded. *)
Definition page_after (container : option string) (retried : bool) (v : viewer)
    (m : message) : Page :=
  let shown_again := if retried then set_display "block" (fresh_page container)
                     else fresh_page container in
  on_message v m shown_again.

(** ** [String.prototype.replace] with a string pattern *)

Module js.

(** [s.slice(n)] *)
Fixpoint slice (n : nat) (s : string) : string :=
  match n, s with
  | S n', String _ s' => slice n' s'
  | _, _ => s
  end.

(** The first occurrence of [pat] in [s]: what stands before it and what
    stands after it. *)
Fixpoint split_first (pat s : string) {struct s} : option (string * string) :=
  if String.prefix pat s then Some ("", slice (String.length pat) s)
  else
    match s with
    | "" => None
    | String c s' =>
        match split_first pat s' with
        | Some (before, after) => Some (String c before, after)
        | None => None
        end
    end.

(** The replacement text, where [$$], [$&], [$`] and [$'] stand for a dollar
    sign, the match, what is before it and what is after it.  A string
    pattern has no groups, so any other [$] stands for itself. *)
Fixpoint substitution (matched before after template : string) : string :=
  match template with
  | "" => ""
  | String c rest =>
      if Ascii.eqb c "$" then
        match rest with
        | String d rest' =>
            if Ascii.eqb d "$" then String "$" (substitution matched before after rest')
            else if Ascii.eqb d "&" then matched +:+ substitution matched before after rest'
            else if Ascii.eqb d "`" then before +:+ substitution matched before after rest'
            else if Ascii.eqb d "'" then after +:+ substitution matched before after rest'
            else String c (substitution matched before after rest)
        | "" => String c ""
        end
      else String c (substitution matched before after rest)
  end.

(** [s.replace(pat, replacement)]: the first occurrence only. *)
Definition replace (s pat replacement : string) : string :=
  match split_first pat s with
  | Some (before, after) => before +:+ substitution pat before after replacement +:+ after
  | None => s
  end.

End js.

(** [path.dirname(p)] *)
Definition dirname (p : string) : string :=
  match chars p with
  | [] => "."
  | c0 :: rest =>
      let hasRoot := path.is_slash c0 in
      let component := path.drop_while path.is_slash (rev rest) in
      match path.drop_while (fun c => negb (path.is_slash c)) component with
      | [] => if hasRoot then "/" else "."
      | _slash :: before =>
          match before with
          | [] => if hasRoot then "//" else unchars [c0]
          | _ => unchars (c0 :: rev before)
          end
      end
  end.

(** ** [resolveCustomEditor] and [_getHtmlForWebview] *)

Record WebviewOptions := {
  enableScripts : bool;
  localResourceRoots : list string
}.

(** The options [resolveCustomEditor] gives the webview; [extensionPath] is
    the path of [_extensionUri], [fsPath] that of the document. *)
Definition webview_options (h : Host) (extensionPath fsPath : string) : WebviewOptions :=
  {| enableScripts := true;
     localResourceRoots :=
       [ extensionPath;
         path.join extensionPath "resource";
         dirname fsPath;
         tmpdir h ] |}.

Definition viewerHtmlPath (extensionPath : string) : string :=
  path.join (path.join (path.join extensionPath "resource") "pdf") "viewer.html".

Definition pdfResourceUri (h : Host) (extensionPath : string) : string :=
  asWebviewUri h (path.join (path.join extensionPath "resource") "pdf").

(** [readFileSync] gives the text of a file, [None] when it throws;
    [customScript] is the text of the script, a constant of the source.  The
    result is [None] when the function throws. *)
Definition _getHtmlForWebview (h : Host) (extensionPath : string)
    (readFileSync : string -> option string) (customScript : string) : option string :=
  match readFileSync (viewerHtmlPath extensionPath) with
  | None => None
  | Some viewerHtml =>
      let viewerHtml := js.replace viewerHtml "{{baseUrl}}" (pdfResourceUri h extensionPath) in
      Some (js.replace viewerHtml "</head>" (customScript +:+ "</head>"))
  end.

(** A text without dollar sign. *)
Definition dollar_free (s : string) : bool :=
  forallb (fun c => negb (Ascii.eqb c "$")) (chars s).

(** [pat] occurs in [s] between [before] and [after], and nowhere earlier. *)
Definition first_occurrence (pat s before after : string) : Prop :=
  s = before +:+ pat +:+ after /\
  forall before' after', s = before' +:+ pat +:+ after' ->
    (String.length before <= String.length before')%nat.

Definition occurs (pat s : string) : Prop :=
  exists before after, s = before +:+ pat +:+ after.

(** A file name: no separator in it. *)
Definition slash_free (s : string) : bool :=
  forallb (fun c => negb (path.is_slash c)) (chars s).

(** The world after the extension has run the flow once for [ready] and [k]
    times for a retry. *)
Definition flows (h : Host) (fsPath : string) (k : nat) (w : World) : World :=
  Nat.iter k (fun w' => (onDidReceiveMessage h fsPath RetryLibreOfficeCheck w').2)
    (onDidReceiveMessage h fsPath Ready w).2.

Definition is_click (g : gesture * viewer) : bool :=
  match g.1 with
  | RetryClicked => true
  | TimerFired => false
  end.

Definition clicks (steps : list (gesture * viewer)) : nat :=
  List.length (List.filter is_click steps).

(** A session in which the page has the messaging API, seen from outside:
    [k] retries have been answered, all replies but the last were the
    installation prompt, and the page is what the last reply [m] made of
    it. *)
Definition settled_session (h : Host) (fsPath : string) (container : option string)
    (w : World) (n : nat) (s : Session) : Prop :=
  exists k v m evs,
    (k <= n)%nat /\
    world s = flows h fsPath k w /\
    log (world s) = log w ++ evs /\
    posted evs = replicate k LibreOfficeNotInstalled ++ [m] /\
    page s = page_after container (negb (Nat.eqb k 0)) v m.

(** A small template and script, and an extension directory that holds
    them. *)
Definition sample_template : string :=
  "<head><base href={{baseUrl}}/></head><body>{{baseUrl}}</body>".

Definition sample_script : string := "<script>start()</script>".

Definition sample_files (template : string) (p : string) : option string :=
  if String.eqb p "/ext/resource/pdf/viewer.html" then Some template else None.

(** ** [scripts/package-vsix.js]: the entry of the extension in product.json *)

(** What [JSON.parse] returns.  An object is the list of its own properties
    in their order; a number is kept as its literal. *)
#[warnings="-register-all"] Inductive json :=
| JNull
| JBool (b : bool)
| JNumber (literal : string)
| JString (s : string)
| JArray (items : list json)
| JObject (fields : list (string * json)).

(** [o[k]] on the properties of an object *)
Fixpoint field_get (k : string) (fields : list (string * json)) : option json :=
  match fields with
  | [] => None
  | (k', v) :: rest => if String.eqb k' k then Some v else field_get k rest
  end.

(** [o[k] = v]: an existing property keeps its place, a new one comes
    last. *)
Fixpoint field_set (k : string) (v : json) (fields : list (string * json))
    : list (string * json) :=
  match fields with
  | [] => [(k, v)]
  | (k', v') :: rest =>
      if String.eqb k' k then (k, v) :: rest else (k', v') :: field_set k v rest
  end.

(** [entry && entry.name === "muty-pptviewer"] *)
Definition is_entry (entry : json) : bool :=
  match entry with
  | JObject fields =>
      match field_get "name" fields with
      | Some (JString name) => String.eqb name "muty-pptviewer"
      | _ => false
      end
  | _ => false
  end.

Definition vsix_of (version : string) : string :=
  "extensions/vsix/muty-pptviewer-" +:+ version +:+ ".vsix".

(** The three assignments of [updateEntry], in their order. *)
Definition stamp (version newSha : string) (fields : list (string * json))
    : list (string * json) :=
  field_set "sha256" (JString newSha)
    (field_set "vsix" (JString (vsix_of version))
       (field_set "version" (JString version) fields)).

(** [updateEntry], as a function of the entry; the flag [updated] is
    [is_entry]. *)
Definition updateEntry (version newSha : string) (entry : json) : json :=
  match entry with
  | JObject fields => if is_entry entry then JObject (stamp version newSha fields) else entry
  | _ => entry
  end.

(** [if (Array.isArray(json[key])) json[key].forEach(updateEntry)], with the
    flag. *)
Definition update_array (version newSha key : string) (fields : list (string * json))
    : list (string * json) * bool :=
  match field_get key fields with
  | Some (JArray items) =>
      (field_set key (JArray (List.map (updateEntry version newSha) items)) fields,
       existsb is_entry items)
  | _ => (fields, false)
  end.

(** How [updateProductJson] ends once product.json is parsed: it writes the
    file, it fails because no entry was found, or reading a property of
    [null] throws. *)
Inductive update_result :=
| Written (j : json)
| EntryNotFound
| TypeError.

Definition updateProductJson (version newSha : string) (j : json) : update_result :=
  match j with
  | JNull => TypeError
  | JObject fields =>
      let r1 := update_array version newSha "builtInExtensions" fields in
      let r2 := update_array version newSha "extensions" r1.1 in
      let top := JObject r2.1 in
      if r1.2 || r2.2 || is_entry top then Written (updateEntry version newSha top)
      else EntryNotFound
  | _ => EntryNotFound
  end.

(** The properties of product.json after the two arrays have been gone
    through. *)
Definition arrays_updated (version newSha : string) (fields : list (string * json))
    : list (string * json) :=
  (update_array version newSha "extensions"
     (update_array version newSha "builtInExtensions" fields).1).1.

(** The entries [updateProductJson] looks at. *)
Definition items_of (key : string) (fields : list (string * json)) : list json :=
  match field_get key fields with
  | Some (JArray items) => items
  | _ => []
  end.

Definition candidates (j : json) : list json :=
  match j with
  | JObject fields => items_of "builtInExtensions" fields ++ items_of "extensions" fields ++ [j]
  | _ => []
  end.

(** A product.json with the entry among its built-in extensions. *)
Definition sample_product : json :=
  JObject [ ("nameShort", JString "Editor");
            ("builtInExtensions",
             JArray [ JObject [("name", JString "other"); ("version", JString "1.0.0")];
                      JObject [("name", JString "muty-pptviewer");
                               ("version", JString "0.0.1");
                               ("sha256", JString "old")] ]) ].

(** The argument lists of the processes started among some events, in their
    order. *)
Definition started (evs : list event) : list (list string) :=
  omap (fun e => match e with Spawn _ _ args => Some args | _ => None end) evs.

(** The scratch directory of [disk_slides] with a slide of one more deck,
    whose name starts like that of the first. *)
Definition deckhand : string := "/home/u/deckhand.pptx".

Definition disk_two_slides : fs.t :=
  fs.writeFile disk_slides "/tmp/muty-pptviewer/deckhand-1.png" 300.
(** * Lemmas *)

(** ** Node's [path] and the file system, on examples *)

Example extname_pptx : path.extname "/home/u/deck.pptx" = ".pptx".
Proof. reflexivity. Qed.
Example extname_two : path.extname "index.coffee.md" = ".md".
Proof. reflexivity. Qed.
Example extname_trailing_dot : path.extname "index." = ".".
Proof. reflexivity. Qed.
Example extname_none : path.extname "/a.b/index" = "".
Proof. reflexivity. Qed.
Example extname_hidden : path.extname ".index" = "".
Proof. reflexivity. Qed.
Example extname_hidden_md : path.extname "/x/.index.md/" = ".md".
Proof. reflexivity. Qed.
Example extname_dotdot : path.extname "/a/.." = "".
Proof. reflexivity. Qed.
Example extname_dots3 : path.extname "..." = ".".
Proof. reflexivity. Qed.
Example basename_deck : path.basename "/home/u/deck.pptx" (path.extname "/home/u/deck.pptx") = "deck".
Proof. reflexivity. Qed.
Example basename_noext : path.basename "/home/u/deck" "" = "deck".
Proof. reflexivity. Qed.
Example lower_PPTX : toLowerCase ".PpTX" = ".pptx".
Proof. reflexivity. Qed.
Example readdir_ex :
  fs.readdirSync (fs.writeFile (fs.writeFile (fs.mkdirSync ∅ "/t" 0) "/t/a.png" 1) "/t/s/b.png" 2) "/t"
  = Some ["a.png"].
Proof. vm_compute. reflexivity. Qed.

(** ** The schedule *)

Lemma schedule_early_late delay tl :
  schedule delay tl = List.map Ev (early delay tl) ++ TimerDue :: List.map Ev (late delay tl).
Proof.
  induction tl as [|[t e] tl IH]; simpl; [reflexivity|].
  destruct (t <? delay); simpl.
  - now rewrite IH.
  - now rewrite List.map_map.
Qed.

Lemma early_app delay pre tl :
  List.Forall (fun x => x.1 < delay) pre ->
  early delay (pre ++ tl) = List.map snd pre ++ early delay tl.
Proof.
  induction 1 as [|[t e] pre Ht _ IH]; simpl in *; [reflexivity|].
  apply Z.ltb_lt in Ht. now rewrite Ht, IH.
Qed.

(** ** Promises are settled once *)

Lemma settle_pending {A} (p : promise A) (s : stage A) :
  state s = Pending -> settle p s = set_state p s.
Proof. unfold settle. now intros ->. Qed.





(** ** Where the promise settles *)

Lemma run_until_settled_ext {A} (f g : occurrence -> stage A -> stage A) os s :
  (forall o s, f o s = g o s) -> run_until_settled f os s = run_until_settled g os s.
Proof.
  intros E. revert s. induction os as [|o os IH]; intros s; simpl; [reflexivity|].
  rewrite E. destruct (is_pending (state (g o s))); [apply IH | reflexivity].
Qed.

Lemma run_rest_ext {A} (f g : occurrence -> stage A -> stage A) os s :
  (forall o s, f o s = g o s) -> run_rest f os s = run_rest g os s.
Proof.
  intros E. revert s. unfold run_rest.
  induction os as [|o os IH]; intros s; simpl; [reflexivity|]. now rewrite E, IH.
Qed.

Lemma react_settles {A} (r : reactions A) pid evs rest (s : stage A) :
  decisive r -> state s = Pending ->
  run_until_settled (dispatch pid (react r pid)) (List.map Ev evs ++ TimerDue :: rest) s
  = (settled_stage r pid evs s, leftover evs rest).
Proof.
  intros (Herr & Hclose & Htime). revert s.
  induction evs as [|e evs IH]; intros s Hs.
  - simpl. unfold dispatch. simpl. rewrite settle_pending by exact Hs.
    simpl. rewrite Htime. unfold settled_stage, outcome, last_seen, leftover. simpl.
    now destruct (listens r).
  - destruct e as [data|f mt|msg|code]; simpl; unfold dispatch; simpl.
    + destruct (listens r) eqn:Hl; simpl; rewrite Hs; simpl.
      * rewrite IH by exact Hs. unfold settled_stage, outcome, last_seen, leftover.
        simpl. now rewrite Hl.
      * rewrite IH by exact Hs. unfold settled_stage, outcome, last_seen, leftover.
        simpl. now rewrite Hl.
    + rewrite Hs. simpl. rewrite IH by exact Hs. reflexivity.
    + rewrite settle_pending by exact Hs. simpl. rewrite Herr.
      unfold settled_stage, outcome, last_seen, leftover. simpl.
      now destruct (listens r).
    + rewrite settle_pending by exact Hs. simpl. rewrite Hclose.
      unfold settled_stage, outcome, last_seen, leftover. simpl.
      now destruct (listens r).
Qed.

(** ** The three callback sets have the common shape *)

Lemma probe_is_react pid o s : probe_callbacks pid o s = react probe_reactions pid o s.
Proof. destruct o as [[]|]; reflexivity. Qed.

Lemma pdf_is_react pdfPath pid o s :
  pdf_callbacks pdfPath pid o s = react (pdf_reactions pdfPath) pid o s.
Proof.
  destruct o as [[data|f mt|msg|code]|]; try reflexivity.
  simpl. destruct (code_is_zero code); [|reflexivity].
  now destruct (fs.existsSync (disk s) pdfPath).
Qed.

Lemma image_is_react tempDir fileName pid o s :
  image_callbacks tempDir fileName pid o s
  = react (image_reactions tempDir fileName) pid o s.
Proof.
  destruct o as [[data|f mt|msg|code]|]; try reflexivity.
  simpl. destruct (code_is_zero code); [|reflexivity].
  destruct (fs.readdirSync (disk s) tempDir) as [listing|]; [|reflexivity].
  now destruct (0 <? _)%nat.
Qed.

Lemma probe_decisive : decisive probe_reactions.
Proof. repeat split. Qed.

Lemma pdf_decisive pdfPath : decisive (pdf_reactions pdfPath).
Proof.
  repeat split. intros code err d. simpl.
  destruct (code_is_zero code); [|reflexivity].
  now destruct (fs.existsSync d pdfPath).
Qed.

Lemma image_decisive tempDir fileName : decisive (image_reactions tempDir fileName).
Proof.
  repeat split. intros code err d. simpl.
  destruct (code_is_zero code); [|reflexivity].
  destruct (fs.readdirSync d tempDir); [|reflexivity].
  now destruct (0 <? _)%nat.
Qed.

(** ** A child's run, in closed form *)

Lemma child_run_react {A} h w cmd args delay (cb : nat -> callbacks A) (r : reactions A) :
  (forall pid o s, cb pid o s = react r pid o s) -> decisive r ->
  let pid := spawned w in
  let evs := early delay (child_of h pid) in
  let s1 := settled_stage r pid evs (first_stage (files w) (Spawn pid cmd args)) in
  child_run h w cmd args delay cb
  = (s1, run_rest (dispatch pid (react r pid))
           (leftover evs (List.map Ev (late delay (child_of h pid)))) (forget_seen s1)).
Proof.
  intros Hcb Hr pid evs s1. unfold child_run. fold pid.
  assert (Hstep : forall o s, dispatch pid (cb pid) o s = dispatch pid (react r pid) o s).
  { intros o s. unfold dispatch. apply Hcb. }
  rewrite (run_until_settled_ext _ _ _ _ Hstep), schedule_early_late.
  rewrite react_settles by (exact Hr || reflexivity). simpl.
  now rewrite (run_rest_ext _ _ _ _ Hstep).
Qed.

(** ** After the settlement *)

Lemma seen_settle {A} (p : promise A) s : seen (settle p s) = seen s.
Proof. unfold settle. now destruct (state s). Qed.

Lemma running_settle {A} (p : promise A) s : running (settle p s) = running s.
Proof. unfold settle. now destruct (state s). Qed.

Lemma dispatch_stopped {A} (r : reactions A) pid o s :
  running s = false ->
  running (dispatch pid (react r pid) o s) = false /\
  (seen (dispatch pid (react r pid) o s) = seen s \/
   exists e, is_late pid e = true /\ seen (dispatch pid (react r pid) o s) = seen s ++ [e]).
Proof.
  intros Hr. unfold dispatch.
  destruct o as [[data|f mt|msg|code]|]; simpl.
  - destruct (listens r); simpl; auto.
  - auto.
  - rewrite running_settle, seen_settle. simpl. split; [reflexivity|].
    right. exists (OnError pid msg). simpl. now rewrite Nat.eqb_refl.
  - rewrite running_settle, seen_settle. simpl. split; [reflexivity|].
    right. exists (OnClose pid code). simpl. now rewrite Nat.eqb_refl.
  - rewrite running_settle, seen_settle. simpl. split; [reflexivity|].
    right. exists (Kill pid false). simpl. rewrite Hr, Nat.eqb_refl. auto.
Qed.

Lemma run_rest_stopped {A} (r : reactions A) pid os s :
  running s = false ->
  forall e, In e (seen (run_rest (dispatch pid (react r pid)) os s)) ->
            In e (seen s) \/ is_late pid e = true.
Proof.
  revert s. unfold run_rest.
  induction os as [|o os IH]; intros s Hr e He; simpl in He; [now left|].
  destruct (dispatch_stopped r pid o s Hr) as [Hr' Hs].
  destruct (IH _ Hr' e He) as [Hin|Hlate]; [|now right].
  destruct Hs as [Hs|(e' & Hl & Hs)]; rewrite Hs in Hin; [now left|].
  apply in_app_or in Hin. destruct Hin as [Hin|Hin]; [now left|].
  simpl in Hin. destruct Hin as [<-|[]]. now right.
Qed.

Lemma run_rest_keeps {A} (r : reactions A) pid os s e :
  running s = false -> In e (seen s) ->
  In e (seen (run_rest (dispatch pid (react r pid)) os s)).
Proof.
  revert s. unfold run_rest.
  induction os as [|o os IH]; intros s Hr He; simpl; [exact He|].
  destruct (dispatch_stopped r pid o s Hr) as [Hr' Hs].
  apply IH; [exact Hr'|].
  destruct Hs as [Hs|(e' & _ & Hs)]; rewrite Hs; [exact He|].
  apply in_or_app. now left.
Qed.

Lemma run_rest_timer {A} (r : reactions A) pid os s :
  running s = false -> In TimerDue os ->
  In (Kill pid false) (seen (run_rest (dispatch pid (react r pid)) os s)).
Proof.
  revert s. induction os as [|o os IH]; intros s Hr Ho; [destruct Ho|].
  destruct Ho as [Ho|Ho].
  - subst o. change (run_rest (dispatch pid (react r pid)) (TimerDue :: os) s)
      with (run_rest (dispatch pid (react r pid)) os (dispatch pid (react r pid) TimerDue s)).
    destruct (dispatch_stopped r pid TimerDue s Hr) as [Hr' _].
    apply run_rest_keeps; [exact Hr'|].
    unfold dispatch. simpl. rewrite seen_settle. simpl. rewrite Hr.
    apply in_or_app. right. now left.
  - change (run_rest (dispatch pid (react r pid)) (o :: os) s)
      with (run_rest (dispatch pid (react r pid)) os (dispatch pid (react r pid) o s)).
    destruct (dispatch_stopped r pid o s Hr) as [Hr' _]. now apply IH.
Qed.

(** ** [spawn], in closed form *)

Lemma first_loud_cases evs :
  first_loud evs = None \/
  (exists msg, first_loud evs = Some (Error msg)) \/
  (exists code, first_loud evs = Some (Close code)).
Proof.
  induction evs as [|[data|f mt|msg|code] evs IH]; simpl; eauto.
Qed.

Lemma stops_last_seen pid evs : stops pid (last_seen pid true evs) = true.
Proof.
  unfold last_seen.
  destruct (first_loud_cases evs) as [->|[[msg ->]|[code ->]]]; simpl;
    apply Nat.eqb_refl.
Qed.

Lemma spawn_react {A} h w cmd args delay (cb : nat -> callbacks A) (r : reactions A) :
  (forall pid o s, cb pid o s = react r pid o s) -> decisive r ->
  exists after,
    spawn h cmd args delay cb w
    = (outcome r (if listens r then heard "" (next_child h w delay) else "")
         (written (files w) (next_child h w delay)) (next_child h w delay),
       world_after_child w cmd args (next_child h w delay) after)
    /\ (forall e, In e after -> is_late (spawned w) e = true)
    /\ (first_loud (next_child h w delay) <> None -> In (Kill (spawned w) false) after).
Proof.
  intros Hcb Hr. unfold spawn. rewrite (child_run_react h w cmd args delay cb r Hcb Hr).
  cbv zeta. fold (next_child h w delay). set (evs := next_child h w delay).
  set (s1 := settled_stage r (spawned w) evs (first_stage (files w) (Spawn (spawned w) cmd args))).
  exists (seen (run_rest (dispatch (spawned w) (react r (spawned w)))
                  (leftover evs (List.map Ev (late delay (child_of h (spawned w)))))
                  (forget_seen s1))).
  split; [reflexivity|]. split.
  - intros e He. apply run_rest_stopped in He; [|reflexivity].
    destruct He as [[]|He]. exact He.
  - intros Hloud. apply run_rest_timer; [reflexivity|].
    unfold leftover. destruct (first_loud evs); [|congruence].
    apply in_or_app. right. now left.
Qed.

(** ** The probe, in closed form *)

Lemma probe_outcome err d evs :
  outcome probe_reactions err d evs = Fulfilled (probe_answer evs).
Proof.
  unfold outcome, probe_answer.
  now destruct (first_loud_cases evs) as [->|[[msg ->]|[code ->]]].
Qed.

Lemma probe_run h w :
  exists after,
    checkLibreOfficeInstallation h w
    = (Fulfilled (probe_answer (next_child h w 5000)),
       world_after_child w (getLibreOfficePath (platform h) (files w)) ["--version"]
         (next_child h w 5000) after)
    /\ (forall e, In e after -> is_late (spawned w) e = true)
    /\ (first_loud (next_child h w 5000) <> None -> In (Kill (spawned w) false) after).
Proof.
  destruct (spawn_react h w (getLibreOfficePath (platform h) (files w)) ["--version"]
              5000 probe_callbacks probe_reactions probe_is_react probe_decisive)
    as (after & Heq & Hlate & Htimer).
  exists after. split; [|now split].
  unfold checkLibreOfficeInstallation, bind, reads. rewrite Heq.
  now rewrite probe_outcome.
Qed.

(** ** Reading a timeline *)

Lemma first_loud_quiet pre e rest :
  first_loud pre = None -> first_loud (pre ++ e :: rest) = first_loud (e :: rest).
Proof.
  induction pre as [|[data|f mt|msg|code] pre IH]; simpl; intros H;
    try discriminate; auto.
Qed.

Lemma heard_quiet pre e rest acc :
  first_loud pre = None -> first_loud [e] = Some e ->
  heard acc (pre ++ e :: rest) = heard acc pre.
Proof.
  revert acc. induction pre as [|[data|f mt|msg|code] pre IH]; simpl; intros acc H He;
    try discriminate; auto.
  destruct e; simpl in *; try discriminate; reflexivity.
Qed.

Lemma written_quiet pre e rest d :
  first_loud pre = None -> first_loud [e] = Some e ->
  written d (pre ++ e :: rest) = written d pre.
Proof.
  revert d. induction pre as [|[data|f mt|msg|code] pre IH]; simpl; intros d H He;
    try discriminate; auto.
  destruct e; simpl in *; try discriminate; reflexivity.
Qed.

(** A child whose first 'error' or 'close' is [e], stamped before the delay
    and preceded by output only, beats the timer with it. *)
Lemma loud_first delay pre t e post acc d :
  List.Forall (fun x => x.1 < delay) pre -> t < delay ->
  first_loud (List.map snd pre) = None -> first_loud [e] = Some e ->
  first_loud (early delay (pre ++ (t, e) :: post)) = Some e /\
  heard acc (early delay (pre ++ (t, e) :: post)) = heard acc (List.map snd pre) /\
  written d (early delay (pre ++ (t, e) :: post)) = written d (List.map snd pre).
Proof.
  intros Hpre Ht Hquiet He. rewrite (early_app delay pre _ Hpre). simpl.
  apply Z.ltb_lt in Ht. rewrite Ht.
  rewrite (first_loud_quiet _ _ _ Hquiet), (heard_quiet _ _ _ _ Hquiet He),
    (written_quiet _ _ _ _ Hquiet He).
  repeat split. destruct e; simpl in *; congruence.
Qed.

(** A child whose 'error' and 'close' all come at or after the delay loses
    against the timer. *)
Lemma slow_child delay tl :
  (forall t e, In (t, e) tl -> t < delay -> first_loud [e] = None) ->
  first_loud (early delay tl) = None.
Proof.
  induction tl as [|[t e] tl IH]; intros H; simpl; [reflexivity|].
  destruct (t <? delay) eqn:Ht; [|reflexivity].
  apply Z.ltb_lt in Ht.
  assert (He : first_loud [e] = None) by (apply (H t); [now left | exact Ht]).
  destruct e; simpl in He; try discriminate; simpl; apply IH;
    intros t' e' Hin; apply H; now right.
Qed.

(** ** C6 *)

(** C6. The availability probe never throws and always answers: its promise
    is fulfilled with a boolean on every run.  It answers true exactly when
    the first 'error' or 'close' dispatched before the 5000 ms timer is a
    'close' with code zero; it answers false when an 'error' comes first,
    when a 'close' with another code (or with no code) comes first, and
    when the timer comes first, in which case [kill()] is called on the
    running child and the signal is delivered. *)
Theorem checkLibreOfficeInstallation_answers (h : Host) (w : World) :
  let evs := early 5000 (child_of h (spawned w)) in
  let r := checkLibreOfficeInstallation h w in
  (exists b, r.1 = Fulfilled b) /\
  (r.1 = Fulfilled true <-> first_loud evs = Some (Close (Some 0))) /\
  (forall msg, first_loud evs = Some (Error msg) -> r.1 = Fulfilled false) /\
  (forall code, first_loud evs = Some (Close code) -> code <> Some 0 ->
                r.1 = Fulfilled false) /\
  (first_loud evs = None ->
   r.1 = Fulfilled false /\
   log r.2 = log w ++ [Spawn (spawned w) (getLibreOfficePath (platform h) (files w))
                         ["--version"];
                       Kill (spawned w) true]).
Proof.
  intros evs r. destruct (probe_run h w) as (after & Heq & _ & _).
  fold (next_child h w 5000) in evs. subst r. rewrite Heq. simpl. fold evs.
  unfold probe_answer, last_seen.
  repeat split.
  - eauto.
  - intros H. injection H as H.
    destruct (first_loud_cases evs) as [E|[[msg E]|[code E]]]; rewrite E in H;
      try discriminate.
    destruct code as [[| |]|]; try discriminate. exact E.
  - now intros ->.
  - now intros msg ->.
  - intros code -> Hcode. destruct code as [[| |]|]; try reflexivity. congruence.
  - now rewrite H.
  - now rewrite H.
Qed.

Example probe_examples :
  (checkLibreOfficeInstallation (linux_host kids_probe_ok) (world_of disk0)).1
  = Fulfilled true /\
  (checkLibreOfficeInstallation (linux_host kids_absent) (world_of disk0)).1
  = Fulfilled false /\
  (checkLibreOfficeInstallation (linux_host kids_stuck) (world_of disk0)).1
  = Fulfilled false /\
  log (checkLibreOfficeInstallation (linux_host kids_stuck) (world_of disk0)).2
  = [Spawn 0 "libreoffice" ["--version"]; Kill 0 true] /\
  detached (checkLibreOfficeInstallation (linux_host kids_stuck) (world_of disk0)).2
  = [OnClose 0 None].
Proof. repeat split; vm_compute; reflexivity. Qed.

(** ** [convertToPDF], step by step *)

Lemma convertToPDF_unfold h p w b w1 :
  checkLibreOfficeInstallation h w = (Fulfilled b, w1) ->
  convertToPDF h p w =
    if b then
      match fs.statSync (files (after_mkdir h w1)) (pdfPath_of h p) with
      | Some pdf =>
          match fs.statSync (files (after_mkdir h w1)) p with
          | Some ppt =>
              if mtime pdf >? mtime ppt
              then (Fulfilled (pdfPath_of h p), after_mkdir h w1)
              else pdf_conversion h p (after_mkdir h w1)
          | None => (Rejected (StatError p), after_mkdir h w1)
          end
      | None => pdf_conversion h p (after_mkdir h w1)
      end
    else (Rejected NotInstalled, w1).
Proof.
  intros Hprobe. unfold convertToPDF. unfold bind at 1. rewrite Hprobe.
  destruct b; simpl; [|reflexivity].
  unfold bind at 1. unfold reads at 1. cbv beta iota.
  unfold bind at 1.
  assert (Hmk : (if negb (fs.existsSync (files w1) (tempDir_of h))
                 then mkdirSync h (tempDir_of h) else ret tt) w1
                = (Fulfilled tt, after_mkdir h w1)).
  { unfold after_mkdir. now destruct (fs.existsSync (files w1) (tempDir_of h)). }
  rewrite Hmk. set (w2 := after_mkdir h w1).
  unfold bind, reads, statSync, fs.existsSync, ret.
  destruct (fs.statSync (files w2) (pdfPath_of h p)) as [pdf|] eqn:Hpdf; [|reflexivity].
  destruct (fs.statSync (files w2) p) as [ppt|]; [|reflexivity].
  rewrite Hpdf. now destruct (mtime pdf >? mtime ppt).
Qed.

Lemma pdf_run h p w :
  exists after,
    pdf_conversion h p w
    = (outcome (pdf_reactions (pdfPath_of h p)) (heard "" (next_child h w 30000))
         (written (files w) (next_child h w 30000)) (next_child h w 30000),
       world_after_child w (getLibreOfficePath (platform h) (files w)) (pdf_args h p)
         (next_child h w 30000) after)
    /\ (forall e, In e after -> is_late (spawned w) e = true)
    /\ (first_loud (next_child h w 30000) <> None -> In (Kill (spawned w) false) after).
Proof.
  destruct (spawn_react h w (getLibreOfficePath (platform h) (files w)) (pdf_args h p)
              30000 (pdf_callbacks (pdfPath_of h p)) (pdf_reactions (pdfPath_of h p))
              (pdf_is_react _) (pdf_decisive _))
    as (after & Heq & Hlate & Htimer).
  exists after. split; [|now split].
  unfold pdf_conversion, bind, reads. now rewrite Heq.
Qed.

Lemma after_mkdir_log h w :
  exists l, log (after_mkdir h w) = log w ++ l /\
            (forall e, In e l -> e = Mkdir (tempDir_of h)) /\
            spawned (after_mkdir h w) = spawned w /\
            detached (after_mkdir h w) = detached w.
Proof.
  unfold after_mkdir. destruct (fs.existsSync (files w) (tempDir_of h)).
  - exists []. rewrite app_nil_r. repeat split. intros e [].
  - exists [Mkdir (tempDir_of h)]. repeat split. now intros e [<-|[]].
Qed.

(** What [convertToPDF] adds to the log after the probe has answered. *)
Lemma convertToPDF_log h p w :
  exists rest,
    log (convertToPDF h p w).2 = log (checkLibreOfficeInstallation h w).2 ++ rest.
Proof.
  destruct (probe_run h w) as (after & Heq & _ & _).
  rewrite (convertToPDF_unfold h p w _ _ Heq), Heq.
  set (w1 := world_after_child _ _ _ _ _).
  destruct (probe_answer _); [|exists []; simpl; now rewrite app_nil_r].
  destruct (after_mkdir_log h w1) as (l & Hl & _ & _ & _).
  destruct (pdf_run h p (after_mkdir h w1)) as (after' & Hpdf & _ & _).
  change (log (Fulfilled true, w1).2) with (log w1).
  destruct (fs.statSync (files (after_mkdir h w1)) (pdfPath_of h p)) as [pdf|].
  - destruct (fs.statSync (files (after_mkdir h w1)) p) as [ppt|].
    + destruct (mtime pdf >? mtime ppt).
      * exists l. exact Hl.
      * rewrite Hpdf. simpl. rewrite Hl, <- app_assoc. eauto.
    + exists l. exact Hl.
  - rewrite Hpdf. simpl. rewrite Hl, <- app_assoc. eauto.
Qed.

(** ** C2 *)

(** C2. [convertToPDF] is gated on the availability probe.  The probe always
    completes: its promise is fulfilled on every run, by the 'error', the
    'close' or the timer of its child.  When it reports unavailable the call
    fails with NotInstalled in the very world the probe left: nothing more is
    done, so no conversion process is spawned.  And the log of every call
    starts with the spawn of the probe and the callback [done] that completes
    it; whatever else the call does, the spawn of a conversion included, is
    in [rest], after it. *)
Theorem convertToPDF_gated (h : Host) (pptPath : string) (w : World) :
  let probe := checkLibreOfficeInstallation h w in
  let r := convertToPDF h pptPath w in
  (exists b, probe.1 = Fulfilled b) /\
  (probe.1 = Fulfilled false ->
   r.1 = Rejected NotInstalled /\ r.2 = probe.2 /\ spawned r.2 = S (spawned w)) /\
  (exists done rest,
     log probe.2 = log w ++ [Spawn (spawned w)
                               (getLibreOfficePath (platform h) (files w)) ["--version"];
                             done] /\
     stops (spawned w) done = true /\
     log r.2 = log probe.2 ++ rest).
Proof.
  intros probe r. subst probe r.
  destruct (probe_run h w) as (after & Heq & _ & _).
  destruct (convertToPDF_log h pptPath w) as (rest & Hrest).
  split; [|split].
  - rewrite Heq. eauto.
  - intros Hfalse. rewrite Heq in Hfalse. simpl in Hfalse.
    injection Hfalse as Hfalse.
    rewrite (convertToPDF_unfold h pptPath w _ _ Heq), Hfalse, Heq. now simpl.
  - exists (last_seen (spawned w) true (next_child h w 5000)), rest.
    split; [now rewrite Heq|]. split; [apply stops_last_seen | exact Hrest].
Qed.

Example gate_examples :
  convertToPDF (linux_host kids_absent) deck (world_of disk0)
  = (Rejected NotInstalled,
     {| files := disk0; spawned := 1;
        log := [Spawn 0 "libreoffice" ["--version"]; OnError 0 "spawn libreoffice ENOENT"];
        detached := [OnClose 0 (Some (-2)); Kill 0 false] |}) /\
  (convertToPDF (linux_host kids_stuck) deck (world_of disk0)).1 = Rejected NotInstalled /\
  log (convertToPDF (linux_host kids_stuck) deck (world_of disk0)).2
  = [Spawn 0 "libreoffice" ["--version"]; Kill 0 true] /\
  (convertToPDF (linux_host kids_ok) deck (world_of disk0)).1 = Fulfilled deck_pdf /\
  log (convertToPDF (linux_host kids_ok) deck (world_of disk0)).2
  = [ Spawn 0 "libreoffice" ["--version"];
      OnClose 0 (Some 0);
      Mkdir scratch;
      Spawn 1 "libreoffice" ["--headless"; "--convert-to"; "pdf"; "--outdir"; scratch; deck];
      OnClose 1 (Some 0) ].
Proof. repeat split; vm_compute; reflexivity. Qed.

(** ** C1 *)

Lemma length_append a b :
  String.length (a +:+ b) = (String.length a + String.length b)%nat.
Proof. induction a as [|c a IH]; simpl; [reflexivity | now rewrite IH]. Qed.

Lemma join_longer d x : path.join d x <> d.
Proof.
  unfold path.join. intros H. apply (f_equal String.length) in H.
  rewrite !length_append in H. simpl in H. lia.
Qed.

Lemma fresh_cache_after_mkdir h w p :
  fresh_cache (files w) p (pdfPath_of h p) ->
  fresh_cache (files (after_mkdir h w)) p (pdfPath_of h p).
Proof.
  intros (pdf & ppt & Hpdf & Hppt & Hlt). unfold after_mkdir.
  destruct (fs.existsSync (files w) (tempDir_of h)) eqn:Hdir.
  - now exists pdf, ppt.
  - exists pdf, ppt. simpl. unfold fs.statSync, fs.mkdirSync in *.
    rewrite !lookup_insert_ne; [now repeat split | |].
    + intros <-. unfold fs.existsSync, fs.statSync in Hdir. now rewrite Hppt in Hdir.
    + intros H. symmetry in H. now apply join_longer in H.
Qed.

(** C1, as amended.  When the probe has answered and an output file exists
    at the derived path with a modification time strictly later than the
    source's, [convertToPDF] spawns no conversion: if the probe reported
    available it returns the cached path, if not it fails with NotInstalled,
    and on both paths the one process it has spawned is the probe itself
    (the converter run with [--version]); besides that it may only have
    created the scratch directory. *)
Theorem convertToPDF_cache_hit (h : Host) (pptPath : string) (w : World) :
  let probe := checkLibreOfficeInstallation h w in
  let r := convertToPDF h pptPath w in
  fresh_cache (files probe.2) pptPath (pdfPath_of h pptPath) ->
  (probe.1 = Fulfilled true -> r.1 = Fulfilled (pdfPath_of h pptPath)) /\
  (probe.1 = Fulfilled false -> r.1 = Rejected NotInstalled) /\
  spawned r.2 = S (spawned w) /\
  exists done dirs,
    log r.2 = log w ++ [Spawn (spawned w) (getLibreOfficePath (platform h) (files w))
                          ["--version"]; done] ++ dirs /\
    stops (spawned w) done = true /\
    (forall e, In e dirs -> e = Mkdir (tempDir_of h)).
Proof.
  cbv zeta. destruct (probe_run h w) as (after & Heq & _ & _).
  rewrite (convertToPDF_unfold h pptPath w _ _ Heq), Heq.
  set (w1 := world_after_child _ _ _ _ _). set (b := probe_answer _).
  change ((Fulfilled b, w1).2) with w1. change ((Fulfilled b, w1).1) with (Fulfilled b).
  intros Hfresh.
  destruct (after_mkdir_log h w1) as (l & Hl & Hdirs & Hsp & _).
  destruct b.
  - destruct (fresh_cache_after_mkdir h w1 pptPath Hfresh) as (pdf & ppt & -> & -> & Hlt).
    apply Z.gtb_lt in Hlt. rewrite Hlt. simpl.
    repeat split; try discriminate; [exact Hsp|].
    exists (last_seen (spawned w) true (next_child h w 5000)), l.
    rewrite Hl. simpl. rewrite <- app_assoc. repeat split.
    + apply stops_last_seen.
    + exact Hdirs.
  - simpl. repeat split; try discriminate.
    exists (last_seen (spawned w) true (next_child h w 5000)), [].
    repeat split; [apply stops_last_seen | intros e []].
Qed.

Lemma convertToPDF_cache_hit_witness :
  fresh_cache (files (checkLibreOfficeInstallation (linux_host kids_probe_ok)
                        (world_of disk_cached)).2) deck
    (pdfPath_of (linux_host kids_probe_ok) deck) /\
  (convertToPDF (linux_host kids_probe_ok) deck (world_of disk_cached)).1
  = Fulfilled deck_pdf.
Proof.
  assert (H : fresh_cache (files (checkLibreOfficeInstallation (linux_host kids_probe_ok)
                                    (world_of disk_cached)).2) deck
                (pdfPath_of (linux_host kids_probe_ok) deck)).
  { exists {| is_dir := false; mtime := 200 |}, {| is_dir := false; mtime := 100 |}.
    repeat split; vm_compute; reflexivity. }
  split; [exact H|].
  apply (convertToPDF_cache_hit (linux_host kids_probe_ok) deck (world_of disk_cached) H).
  vm_compute. reflexivity.
Defined.

(** C1, as stated, fails.  With a fresh cached PDF on disk the call still
    spawns a process, the probe, before it returns the cached path; and when
    that probe reports the converter unavailable the call does not return
    the cached path at all. *)
Lemma convertToPDF_cache_hit_probes :
  fresh_cache disk_cached deck deck_pdf /\
  (convertToPDF (linux_host kids_probe_ok) deck (world_of disk_cached)).1
  = Fulfilled deck_pdf /\
  log (convertToPDF (linux_host kids_probe_ok) deck (world_of disk_cached)).2
  = [Spawn 0 "libreoffice" ["--version"]; OnClose 0 (Some 0)] /\
  (convertToPDF (linux_host kids_absent) deck (world_of disk_cached)).1
  = Rejected NotInstalled /\
  log (convertToPDF (linux_host kids_absent) deck (world_of disk_cached)).2
  = [Spawn 0 "libreoffice" ["--version"]; OnError 0 "spawn libreoffice ENOENT"].
Proof.
  split.
  - exists {| is_dir := false; mtime := 200 |}, {| is_dir := false; mtime := 100 |}.
    repeat split; vm_compute; reflexivity.
  - repeat split; vm_compute; reflexivity.
Qed.

(** ** C3 *)

Lemma outcome_settled {A} (r : reactions A) err d evs :
  decisive r -> is_pending (outcome r err d evs) = false.
Proof.
  intros (Herr & Hclose & Htime). unfold outcome.
  now destruct (first_loud_cases evs) as [->|[[msg ->]|[code ->]]].
Qed.



(** ** C4 *)

Lemma convertToPDF_miss h p w w1 :
  checkLibreOfficeInstallation h w = (Fulfilled true, w1) ->
  stale_cache (files (after_mkdir h w1)) p (pdfPath_of h p) ->
  convertToPDF h p w = pdf_conversion h p (after_mkdir h w1).
Proof.
  intros Hprobe Hstale. rewrite (convertToPDF_unfold h p w _ _ Hprobe).
  unfold stale_cache in Hstale.
  destruct (fs.statSync (files (after_mkdir h w1)) (pdfPath_of h p)) as [pdf|];
    [|reflexivity].
  destruct (fs.statSync (files (after_mkdir h w1)) p) as [ppt|]; [|destruct Hstale].
  destruct (mtime pdf >? mtime ppt) eqn:Hgt; [|reflexivity].
  apply Z.gtb_lt in Hgt. lia.
Qed.

Lemma code_is_zero_iff code : code_is_zero code = true <-> code = Some 0.
Proof. destruct code as [[| |]|]; simpl; split; congruence. Qed.

(** C4. Take a call of [convertToPDF] that reaches its conversion: the probe
    reported available and no fresh output is cached.  If the conversion
    child's 'close' comes before any 'error' and before the timer, then:
    with code zero and no file at the derived path at that moment, the call
    fails with OutputMissing; with code zero and the file there, it succeeds
    with that path; with any other code it fails with NonZeroExit, carrying
    that code and the standard-error text received so far. *)
Theorem convertToPDF_exit (h : Host) (pptPath : string) (w w1 : World) (code : option Z) :
  let w2 := after_mkdir h w1 in
  let evs := early 30000 (child_of h (spawned w2)) in
  let r := convertToPDF h pptPath w in
  checkLibreOfficeInstallation h w = (Fulfilled true, w1) ->
  stale_cache (files w2) pptPath (pdfPath_of h pptPath) ->
  first_loud evs = Some (Close code) ->
  (code = Some 0 ->
   fs.existsSync (written (files w2) evs) (pdfPath_of h pptPath) = false ->
   r.1 = Rejected OutputMissing) /\
  (code = Some 0 ->
   fs.existsSync (written (files w2) evs) (pdfPath_of h pptPath) = true ->
   r.1 = Fulfilled (pdfPath_of h pptPath)) /\
  (code <> Some 0 -> r.1 = Rejected (NonZeroExit ToPdf code (heard "" evs))).
Proof.
  intros w2 evs r Hprobe Hstale Hclose. subst r.
  rewrite (convertToPDF_miss h pptPath w w1 Hprobe Hstale). fold w2.
  destruct (pdf_run h pptPath w2) as (after & -> & _ & _).
  fold (next_child h w2 30000) in evs. fold evs. cbn [fst].
  unfold outcome. rewrite Hclose. cbn [on_close pdf_reactions].
  repeat split.
  - intros -> ->. reflexivity.
  - intros -> ->. reflexivity.
  - intros Hcode. destruct (code_is_zero code) eqn:Hz; [|reflexivity].
    apply code_is_zero_iff in Hz. contradiction.
Qed.

Lemma convertToPDF_exit_witness :
  (convertToPDF (linux_host kids_exit1) deck (world_of disk0)).1
  = Rejected (NonZeroExit ToPdf (Some 1) "unsupported format") /\
  (convertToPDF (linux_host kids_no_output) deck (world_of disk0)).1
  = Rejected OutputMissing.
Proof.
  split.
  - refine (proj2 (proj2 (convertToPDF_exit (linux_host kids_exit1) deck (world_of disk0)
        (checkLibreOfficeInstallation (linux_host kids_exit1) (world_of disk0)).2
        (Some 1) _ _ _)) _).
    + vm_compute. reflexivity.
    + vm_compute. exact I.
    + vm_compute. reflexivity.
    + discriminate.
  - refine (proj1 (convertToPDF_exit (linux_host kids_no_output) deck (world_of disk0)
        (checkLibreOfficeInstallation (linux_host kids_no_output) (world_of disk0)).2
        (Some 0) _ _ _) _ _).
    + vm_compute. reflexivity.
    + vm_compute. exact I.
    + vm_compute. reflexivity.
    + reflexivity.
    + vm_compute. reflexivity.
Defined.

(** ** Sorting file names *)

#[global] Instance str_le_total : Total str_le.
Proof. intros a b. apply String.leb_total. Qed.

#[global] Instance str_le_antisymm : AntiSymm (=) str_le.
Proof. intros a b. apply String.leb_antisym. Qed.

#[global] Instance str_le_trans : Transitive str_le.
Proof.
  intros a b c. unfold str_le, String.leb. revert b c.
  induction a as [|x a IH]; intros [|y b] [|z c]; simpl; try congruence.
  unfold Ascii.compare.
  destruct (N.compare_spec (N_of_ascii x) (N_of_ascii y)) as [Hxy|Hxy|Hxy];
  destruct (N.compare_spec (N_of_ascii y) (N_of_ascii z)) as [Hyz|Hyz|Hyz];
  destruct (N.compare_spec (N_of_ascii x) (N_of_ascii z)) as [Hxz|Hxz|Hxz];
    try congruence; try lia.
  apply IH.
Qed.

(** The order is total, transitive and antisymmetric, so a list has one
    ascending arrangement: whichever algorithm [Array.prototype.sort] runs,
    it returns what [sort_strings] returns. *)
Lemma sort_strings_unique l l' :
  Sorted str_le l' -> l' ≡ₚ l -> l' = sort_strings l.
Proof.
  intros Hs Hp. apply (Sorted_unique str_le); [exact Hs | |].
  - apply (Sorted_merge_sort str_le).
  - rewrite Hp. symmetry. apply merge_sort_Permutation.
Qed.

Lemma ascii_compare_refl c : Ascii.compare c c = Eq.
Proof.
  assert (H := Ascii.compare_antisym c c).
  destruct (Ascii.compare c c); simpl in H; congruence.
Qed.

Lemma compare_common_prefix p a b :
  String.compare (p +:+ a) (p +:+ b) = String.compare a b.
Proof.
  induction p as [|c p IH]; simpl; [reflexivity|].
  now rewrite ascii_compare_refl.
Qed.

Lemma str_le_join d a b : str_le (path.join d a) (path.join d b) <-> str_le a b.
Proof.
  unfold str_le, path.join, String.leb.
  now rewrite !compare_common_prefix.
Qed.

Lemma Sorted_map_reflect {A B} (f : A -> B) (R1 : relation A) (R2 : relation B) l :
  (forall x y, R2 (f x) (f y) -> R1 x y) ->
  Sorted R2 (List.map f l) -> Sorted R1 l.
Proof.
  intros Hf. induction l as [|x l IH]; intros Hs; [constructor|].
  simpl in Hs. apply Sorted_inv in Hs as [Hs Hhd].
  constructor; [now apply IH|].
  destruct l as [|y l]; constructor.
  simpl in Hhd. apply HdRel_inv in Hhd. now apply Hf.
Qed.

(** What [imageFiles.sort()] returns for the joined paths: the joined paths
    of the same names, in ascending order of the names. *)
Lemma sort_joined d names :
  exists sorted,
    sort_strings (List.map (path.join d) names) = List.map (path.join d) sorted /\
    sorted ≡ₚ names /\
    Sorted str_le sorted /\
    Sorted str_le (List.map (path.join d) sorted).
Proof.
  assert (Hperm := merge_sort_Permutation str_le (List.map (path.join d) names)).
  apply Permutation_map_inv in Hperm as (sorted & Heq & Hperm).
  assert (Hs : Sorted str_le (List.map (path.join d) sorted)).
  { rewrite <- Heq. apply (Sorted_merge_sort str_le). }
  exists sorted. repeat split; [exact Heq | now symmetry | | exact Hs].
  apply (Sorted_map_reflect (path.join d) str_le str_le); [|exact Hs].
  intros x y. apply str_le_join.
Qed.

(** ** C5 *)

Lemma image_run h p pdfPath w :
  exists after,
    image_conversion h p pdfPath w
    = (outcome (image_reactions (tempDir_of h) (fileName_of p))
         (heard "" (next_child h w 30000))
         (written (files w) (next_child h w 30000)) (next_child h w 30000),
       world_after_child w (getLibreOfficePath (platform h) (files w))
         (image_args h pdfPath) (next_child h w 30000) after)
    /\ (forall e, In e after -> is_late (spawned w) e = true)
    /\ (first_loud (next_child h w 30000) <> None -> In (Kill (spawned w) false) after).
Proof.
  destruct (spawn_react h w (getLibreOfficePath (platform h) (files w))
              (image_args h pdfPath) 30000
              (image_callbacks (tempDir_of h) (fileName_of p))
              (image_reactions (tempDir_of h) (fileName_of p))
              (image_is_react _ _) (image_decisive _ _))
    as (after & Heq & Hlate & Htimer).
  exists after. split; [|now split].
  unfold image_conversion, bind, reads. now rewrite Heq.
Qed.

Lemma convertToImages_then h p w pdfPath w' :
  convertToPDF h p w = (Fulfilled pdfPath, w') ->
  convertToImages h p w = image_conversion h p pdfPath w'.
Proof. intros H. unfold convertToImages, bind. now rewrite H. Qed.

(** C5. Take a call of [convertToImages] whose PDF step has succeeded and
    whose raster conversion exits cleanly: its 'close' with code zero comes
    before any 'error' and before the timer.  Let [listing] be what the
    scratch directory holds at that moment and [matching] the names in it
    that start with the source basename and end with [.png].  If there is
    none, the call fails with NoOutputFiles.  Otherwise it succeeds with the
    paths of exactly those names (a permutation of [matching], each joined to
    the scratch directory), in ascending lexical order of the names. *)
Theorem convertToImages_lists (h : Host) (pptPath pdfPath : string) (w w' : World)
    (listing : list string) :
  let evs := early 30000 (child_of h (spawned w')) in
  let matching := List.filter (is_image_of (fileName_of pptPath)) listing in
  let r := convertToImages h pptPath w in
  convertToPDF h pptPath w = (Fulfilled pdfPath, w') ->
  first_loud evs = Some (Close (Some 0)) ->
  fs.readdirSync (written (files w') evs) (tempDir_of h) = Some listing ->
  (matching = [] -> r.1 = Rejected NoOutputFiles) /\
  (matching <> [] ->
   exists names,
     r.1 = Fulfilled (List.map (path.join (tempDir_of h)) names) /\
     names ≡ₚ matching /\
     Sorted str_le names /\
     Sorted str_le (List.map (path.join (tempDir_of h)) names)).
Proof.
  intros evs matching r Hpdf Hclose Hdir. subst r.
  rewrite (convertToImages_then h pptPath w pdfPath w' Hpdf).
  destruct (image_run h pptPath pdfPath w') as (after & -> & _ & _).
  fold (next_child h w' 30000) in evs. fold evs. cbn [fst].
  unfold outcome. rewrite Hclose. cbn [on_close image_reactions code_is_zero].
  rewrite Hdir. fold matching. split.
  - intros ->. reflexivity.
  - intros Hne.
    destruct (sort_joined (tempDir_of h) matching) as (names & Heq & Hperm & Hs & Hs').
    exists names. split; [|now repeat split].
    rewrite <- Heq. destruct matching; [congruence | reflexivity].
Qed.

Lemma convertToImages_lists_witness :
  (convertToImages (linux_host kids_images) deck (world_of disk_slides)).1
  = Fulfilled [ "/tmp/muty-pptviewer/deck-1.png";
                "/tmp/muty-pptviewer/deck-2.png";
                "/tmp/muty-pptviewer/deck-3.png" ].
Proof.
  destruct (convertToImages_lists (linux_host kids_images) deck deck_pdf
              (world_of disk_slides)
              (convertToPDF (linux_host kids_images) deck (world_of disk_slides)).2
              ["other-1.png"; "deck-3.png"; "deck-1.png"; "deck-2.png"; "deck.txt"; "deck.pdf"])
    as [_ H].
  - vm_compute. reflexivity.
  - vm_compute. reflexivity.
  - vm_compute. reflexivity.
  - vm_compute. reflexivity.
Defined.

(** ** C7 *)










Lemma convertToPDF_settles h p w : is_pending (convertToPDF h p w).1 = false.
Proof.
  destruct (probe_run h w) as (after & Heq & _ & _).
  rewrite (convertToPDF_unfold h p w _ _ Heq).
  destruct (probe_answer _); [|reflexivity].
  destruct (pdf_run h p (after_mkdir h (world_after_child w
              (getLibreOfficePath (platform h) (files w)) ["--version"]
              (next_child h w 5000) after))) as (after' & Hpdf & _ & _).
  destruct (fs.statSync _ (pdfPath_of h p)) as [pdf|].
  - destruct (fs.statSync _ p) as [ppt|]; [|reflexivity].
    destruct (mtime pdf >? mtime ppt); [reflexivity|].
    rewrite Hpdf. apply outcome_settled, pdf_decisive.
  - rewrite Hpdf. apply outcome_settled, pdf_decisive.
Qed.

Lemma convertToImages_settles h p w : is_pending (convertToImages h p w).1 = false.
Proof.
  assert (Hset := convertToPDF_settles h p w).
  unfold convertToImages, bind.
  destruct (convertToPDF h p w) as [[|pdfPath|e] w']; cbn [fst] in *;
    [discriminate | | reflexivity].
  destruct (image_run h p pdfPath w') as (after & -> & _ & _).
  apply outcome_settled, image_decisive.
Qed.




(** The timeout path, for comparison: there the signal is delivered. *)
Example timeout_kills :
  (convertToPDF (linux_host kids_hang) deck (world_of disk0)).1
  = Rejected (Timeout ToPdf) /\
  log (convertToPDF (linux_host kids_hang) deck (world_of disk0)).2
  = [ Spawn 0 "libreoffice" ["--version"];
      OnClose 0 (Some 0);
      Mkdir scratch;
      Spawn 1 "libreoffice" ["--headless"; "--convert-to"; "pdf"; "--outdir"; scratch; deck];
      Kill 1 true ] /\
  detached (convertToPDF (linux_host kids_hang) deck (world_of disk0)).2
  = [Kill 0 false; OnClose 1 None].
Proof. repeat split; vm_compute; reflexivity. Qed.

(** ** C9 *)

Lemma first_existing_spec d candidates fallback :
  (forall before p after,
     candidates = before ++ p :: after ->
     List.Forall (fun q => fs.existsSync d q = false) before ->
     fs.existsSync d p = true ->
     first_existing d candidates fallback = p) /\
  (List.Forall (fun q => fs.existsSync d q = false) candidates ->
   first_existing d candidates fallback = fallback).
Proof.
  induction candidates as [|c cs [IH1 IH2]]; split.
  - intros [|] p after H; discriminate.
  - reflexivity.
  - intros [|b before] p after H Hb Hp; injection H as -> ->; simpl.
    + now rewrite Hp.
    + apply Forall_inv in Hb as Hc. apply Forall_inv_tail in Hb. rewrite Hc.
      now apply (IH1 before p after).
  - intros H. simpl. apply Forall_inv in H as Hc. apply Forall_inv_tail in H.
    rewrite Hc. now apply IH2.
Qed.

(** C9. The locator never raises: it is a total function of the platform
    name and of which candidate paths exist.  On [darwin] it is the fixed
    path inside the application bundle.  On [win32] it is the first of the
    two known installation paths that exists, in their order, and the bare
    command [soffice.exe] when neither exists.  On any other platform it is
    the bare command [libreoffice].  Two file systems that agree on the
    existence of the candidates give the same answer. *)
Theorem getLibreOfficePath_locates (os : string) (d : fs.t) :
  (os = "darwin" ->
   getLibreOfficePath os d = "/Applications/LibreOffice.app/Contents/MacOS/soffice") /\
  (os = "win32" ->
   forall before p after,
     possiblePaths = before ++ p :: after ->
     List.Forall (fun q => fs.existsSync d q = false) before ->
     fs.existsSync d p = true ->
     getLibreOfficePath os d = p) /\
  (os = "win32" ->
   List.Forall (fun q => fs.existsSync d q = false) possiblePaths ->
   getLibreOfficePath os d = "soffice.exe") /\
  (os <> "darwin" -> os <> "win32" -> getLibreOfficePath os d = "libreoffice") /\
  (forall d',
     (forall q, In q possiblePaths -> fs.existsSync d' q = fs.existsSync d q) ->
     getLibreOfficePath os d' = getLibreOfficePath os d).
Proof.
  unfold getLibreOfficePath. repeat split.
  - now intros ->.
  - intros -> before p after H Hb Hp. simpl.
    now apply (proj1 (first_existing_spec d possiblePaths "soffice.exe") before p after).
  - intros -> H. simpl.
    now apply (proj2 (first_existing_spec d possiblePaths "soffice.exe")).
  - intros H1 H2. apply String.eqb_neq in H1, H2. now rewrite H1, H2.
  - intros d' H. destruct (String.eqb os "darwin"); [reflexivity|].
    destruct (String.eqb os "win32"); [|reflexivity].
    simpl. rewrite !H by (simpl; auto). reflexivity.
Qed.

Example locate_windows :
  getLibreOfficePath "win32"
    (fs.writeFile ∅ "C:\Program Files (x86)\LibreOffice\program\soffice.exe" 1)
  = "C:\Program Files (x86)\LibreOffice\program\soffice.exe" /\
  getLibreOfficePath "win32"
    (fs.writeFile (fs.writeFile ∅ "C:\Program Files (x86)\LibreOffice\program\soffice.exe" 1)
       "C:\Program Files\LibreOffice\program\soffice.exe" 1)
  = "C:\Program Files\LibreOffice\program\soffice.exe" /\
  getLibreOfficePath "win32" ∅ = "soffice.exe" /\
  getLibreOfficePath "freebsd" ∅ = "libreoffice".
Proof. repeat split; vm_compute; reflexivity. Qed.

(** ** C10 *)

(** C10. The command opens the custom editor only for a URI whose extension,
    lowercased, is [.pptx] or [.ppt]; without a URI, or with any other
    extension, it shows an error message and does nothing else. *)
Theorem openPPTCommand_filters (uri : option string) :
  match uri with
  | None =>
      openPPTCommand uri = [ShowErrorMessage "Please select a PowerPoint file to preview."]
  | Some fsPath =>
      let ext := toLowerCase (path.extname fsPath) in
      (ext = ".pptx" \/ ext = ".ppt" ->
       openPPTCommand uri
       = [ExecuteCommand "vscode.openWith" [fsPath; "muty-pptviewer.preview"]]) /\
      (ext <> ".pptx" -> ext <> ".ppt" ->
       openPPTCommand uri
       = [ShowErrorMessage "Please select a valid PowerPoint file (.pptx or .ppt)."])
  end /\
  (forall cmd args, In (ExecuteCommand cmd args) (openPPTCommand uri) ->
     exists fsPath,
       uri = Some fsPath /\
       cmd = "vscode.openWith" /\ args = [fsPath; "muty-pptviewer.preview"] /\
       (toLowerCase (path.extname fsPath) = ".pptx" \/
        toLowerCase (path.extname fsPath) = ".ppt")).
Proof.
  split.
  - destruct uri as [fsPath|]; [|reflexivity].
    cbv zeta. unfold openPPTCommand. split.
    + intros [H|H]; rewrite H; reflexivity.
    + intros H1 H2. apply String.eqb_neq in H1, H2. now rewrite H1, H2.
  - intros cmd args He. destruct uri as [fsPath|]; simpl in He.
    + destruct (String.eqb (toLowerCase (path.extname fsPath)) ".pptx") eqn:E1;
      destruct (String.eqb (toLowerCase (path.extname fsPath)) ".ppt") eqn:E2;
      simpl in He; destruct He as [H|[]]; try discriminate; injection H as <- <-;
      exists fsPath; repeat split; auto;
      apply String.eqb_eq in E1 || apply String.eqb_eq in E2; auto.
    + destruct He as [H|[]]. discriminate.
Qed.

Example open_examples :
  openPPTCommand (Some "/home/u/Talk.PPTX")
  = [ExecuteCommand "vscode.openWith" ["/home/u/Talk.PPTX"; "muty-pptviewer.preview"]] /\
  openPPTCommand (Some "/home/u/old.ppt")
  = [ExecuteCommand "vscode.openWith" ["/home/u/old.ppt"; "muty-pptviewer.preview"]] /\
  openPPTCommand (Some "/home/u/notes.pptx.txt")
  = [ShowErrorMessage "Please select a valid PowerPoint file (.pptx or .ppt)."] /\
  openPPTCommand (Some "/home/u/.pptx")
  = [ShowErrorMessage "Please select a valid PowerPoint file (.pptx or .ppt)."] /\
  openPPTCommand None
  = [ShowErrorMessage "Please select a PowerPoint file to preview."].
Proof. repeat split; vm_compute; reflexivity. Qed.

(** ** C8 *)

Lemma _loadPDF_log h pdfPath w :
  exists m, _loadPDF h pdfPath w
            = (Fulfilled tt,
               {| files := files w; spawned := spawned w;
                  log := log w ++ [PostMessage m]; detached := detached w |}).
Proof.
  unfold _loadPDF, bind, reads, emit.
  destruct (fs.existsSync (files w) pdfPath); simpl; eauto.
Qed.

(** [_loadPPT] starts with a probe of its own; what it does next depends on
    the answer of that probe alone. *)
Lemma _loadPPT_log h p w :
  exists done rest,
    log (_loadPPT h p w).2
    = log w ++ Spawn (spawned w) (getLibreOfficePath (platform h) (files w)) ["--version"]
               :: done :: rest /\
    stops (spawned w) done = true /\
    ((checkLibreOfficeInstallation h w).1 = Fulfilled false ->
     rest = [PostMessage LibreOfficeNotInstalled]) /\
    ((checkLibreOfficeInstallation h w).1 = Fulfilled true ->
     exists done' rest',
       rest = WithProgress "Converting PowerPoint to PDF..."
              :: Spawn (S (spawned w))
                   (getLibreOfficePath (platform h) (files (checkLibreOfficeInstallation h w).2))
                   ["--version"]
              :: done' :: rest' /\
       stops (S (spawned w)) done' = true).
Proof.
  destruct (probe_run h w) as (after & Heq & _ & _).
  exists (last_seen (spawned w) true (next_child h w 5000)).
  unfold _loadPPT, try_catch. unfold bind at 1. rewrite Heq.
  set (w1 := world_after_child _ _ _ _ _).
  destruct (probe_answer (next_child h w 5000)); cbn [negb fst snd].
  - (* available: the flow goes on with [convertToPDF], which probes again *)
    unfold bind at 1. unfold emit at 1. cbv beta iota.
    set (w1' := {| files := files w1; spawned := spawned w1;
                   log := log w1 ++ [WithProgress "Converting PowerPoint to PDF..."];
                   detached := detached w1 |}).
    destruct (probe_run h w1') as (after' & Heq' & _ & _).
    destruct (convertToPDF_log h p w1') as (rest2 & Hrest2).
    rewrite Heq' in Hrest2. cbn [snd] in Hrest2.
    assert (Htail : exists tail,
              log (match (let (p0, w') := convertToPDF h p w1' in
                          match p0 with
                          | Pending => (Pending, w')
                          | Fulfilled a => _loadPDF h a w'
                          | Rejected e => (Rejected e, w')
                          end)
                   with
                   | (Rejected e, w') =>
                       (let text := "Failed to convert PowerPoint file: Error: "
                                    +:+ message_of e in
                        emit (ShowErrorMessage text) ;;;
                        emit (PostMessage (ErrorText text))) w'
                   | r => r
                   end).2
              = log (convertToPDF h p w1').2 ++ tail).
    { destruct (convertToPDF h p w1') as [[|pdfPath|e] w2]; cbn [snd].
      - exists []. now rewrite app_nil_r.
      - destruct (_loadPDF_log h pdfPath w2) as (m & ->). simpl. eauto.
      - simpl. rewrite <- app_assoc. eauto. }
    destruct Htail as (tail & Htail). unfold bind in Htail |- *. rewrite Htail, Hrest2.
    exists ([WithProgress "Converting PowerPoint to PDF...";
             Spawn (S (spawned w)) (getLibreOfficePath (platform h) (files w1)) ["--version"];
             last_seen (S (spawned w)) true (next_child h w1' 5000)] ++ rest2 ++ tail).
    split; [|split; [apply stops_last_seen | split; [discriminate|]]].
    + simpl. rewrite <- !app_assoc. reflexivity.
    + intros _. exists (last_seen (S (spawned w)) true (next_child h w1' 5000)), (rest2 ++ tail).
      split; [reflexivity | apply stops_last_seen].
  - exists [PostMessage LibreOfficeNotInstalled].
    split; [|split; [apply stops_last_seen | split; [reflexivity | discriminate]]].
    simpl. rewrite <- app_assoc. reflexivity.
Qed.

(** C8. A retry signal from the webview runs [_loadPPT] again, the very
    flow that 'ready' runs, on the world as it is then.  That flow starts by
    spawning a probe of its own (the converter with [--version], as a new
    process) and waits for it to complete; there is no stored answer to
    consult.  What follows is decided by this fresh answer: on unavailable,
    the installation prompt is posted again; on available, the conversion
    flow starts, and [convertToPDF] probes once more before it converts. *)
Theorem retry_reprobes (h : Host) (fsPath : string) (w : World) :
  let r := onDidReceiveMessage h fsPath RetryLibreOfficeCheck w in
  let probe := checkLibreOfficeInstallation h w in
  r.2 = (_loadPPT h fsPath w).2 /\
  log (onDidReceiveMessage h fsPath Ready w).2 = log r.2 /\
  exists done rest,
    log r.2
    = log w ++ Spawn (spawned w) (getLibreOfficePath (platform h) (files w)) ["--version"]
               :: done :: rest /\
    stops (spawned w) done = true /\
    (probe.1 = Fulfilled false -> rest = [PostMessage LibreOfficeNotInstalled]) /\
    (probe.1 = Fulfilled true ->
     exists done' rest',
       rest = WithProgress "Converting PowerPoint to PDF..."
              :: Spawn (S (spawned w)) (getLibreOfficePath (platform h) (files probe.2))
                   ["--version"]
              :: done' :: rest' /\
       stops (S (spawned w)) done' = true).
Proof.
  cbv zeta. split; [reflexivity|]. split; [reflexivity|].
  apply _loadPPT_log.
Qed.

(** A session in which the converter gets installed between the first
    attempt and the retry. *)
Example retry_after_installation :
  let h := linux_host kids_installed_later in
  let w1 := (onDidReceiveMessage h deck Ready (world_of disk0)).2 in
  let w2 := (onDidReceiveMessage h deck RetryLibreOfficeCheck w1).2 in
  log w1 = [ Spawn 0 "libreoffice" ["--version"];
             OnError 0 "spawn libreoffice ENOENT";
             PostMessage LibreOfficeNotInstalled ] /\
  log w2 = log w1 ++
           [ Spawn 1 "libreoffice" ["--version"];
             OnClose 1 (Some 0);
             WithProgress "Converting PowerPoint to PDF...";
             Spawn 2 "libreoffice" ["--version"];
             OnClose 2 (Some 0);
             Mkdir scratch;
             Spawn 3 "libreoffice"
               ["--headless"; "--convert-to"; "pdf"; "--outdir"; scratch; deck];
             OnClose 3 (Some 0);
             PostMessage (LoadPDF "vscode-webview://panel/tmp/muty-pptviewer/deck.pdf") ].
Proof. split; vm_compute; reflexivity. Qed.

(** * More of the converter *)

(** ** How [convertToPDF] ends *)

Lemma existsSync_written d evs p :
  fs.existsSync d p = true -> fs.existsSync (written d evs) p = true.
Proof.
  revert d. induction evs as [|[data|f mt|msg|code] evs IH]; intros d H; simpl; auto.
  apply IH. unfold fs.existsSync, fs.statSync, fs.writeFile in *.
  destruct (decide (f = p)) as [->|Hne].
  - now rewrite lookup_insert_eq.
  - now rewrite lookup_insert_ne.
Qed.

Lemma existsSync_after_mkdir h w p :
  fs.existsSync (files w) p = true -> fs.existsSync (files (after_mkdir h w)) p = true.
Proof.
  intros H. unfold after_mkdir.
  destruct (fs.existsSync (files w) (tempDir_of h)); [exact H|].
  simpl. unfold fs.existsSync, fs.statSync, fs.mkdirSync in *.
  destruct (decide (tempDir_of h = p)) as [->|Hne].
  - now rewrite lookup_insert_eq.
  - now rewrite lookup_insert_ne.
Qed.

Lemma tempDir_after_mkdir h w :
  fs.existsSync (files (after_mkdir h w)) (tempDir_of h) = true.
Proof.
  unfold after_mkdir.
  destruct (fs.existsSync (files w) (tempDir_of h)) eqn:E; [exact E|].
  simpl. unfold fs.existsSync, fs.statSync, fs.mkdirSync.
  now rewrite lookup_insert_eq.
Qed.

(** The outcome of the PDF conversion, by cases on what its child does. *)
Lemma pdf_outcome_cases h p w :
  let r := pdf_conversion h p w in
  (r.1 = Fulfilled (pdfPath_of h p) /\
   fs.existsSync (files r.2) (pdfPath_of h p) = true) \/
  (exists e, r.1 = Rejected e /\ pdf_failure p e = true /\ e <> NotInstalled).
Proof.
  cbv zeta. destruct (pdf_run h p w) as (after & -> & _ & _). cbn [fst snd].
  unfold outcome.
  destruct (first_loud_cases (next_child h w 30000)) as [->|[[msg ->]|[code ->]]].
  - right. exists (Timeout ToPdf). repeat split. discriminate.
  - right. exists (SpawnFailure ToPdf msg). repeat split. discriminate.
  - cbn [on_close pdf_reactions]. destruct (code_is_zero code) eqn:Hz.
    + destruct (fs.existsSync (written (files w) (next_child h w 30000)) (pdfPath_of h p))
        eqn:He.
      * left. split; [reflexivity | exact He].
      * right. exists OutputMissing. repeat split. discriminate.
    + right. exists (NonZeroExit ToPdf code (heard "" (next_child h w 30000))).
      repeat split; [simpl; now rewrite Hz | discriminate].
Qed.

Lemma convertToPDF_cases h p w :
  let r := convertToPDF h p w in
  (r.1 = Fulfilled (pdfPath_of h p) /\
   fs.existsSync (files r.2) (pdfPath_of h p) = true /\
   fs.existsSync (files r.2) (tempDir_of h) = true) \/
  (exists e, r.1 = Rejected e /\ pdf_failure p e = true).
Proof.
  cbv zeta. destruct (probe_run h w) as (after & Heq & _ & _).
  rewrite (convertToPDF_unfold h p w _ _ Heq).
  set (w1 := world_after_child _ _ _ _ _).
  destruct (probe_answer _); [|right; exists NotInstalled; now split].
  assert (Hdir := tempDir_after_mkdir h w1).
  assert (Hconv :
    (let r := pdf_conversion h p (after_mkdir h w1) in
     (r.1 = Fulfilled (pdfPath_of h p) /\
      fs.existsSync (files r.2) (pdfPath_of h p) = true /\
      fs.existsSync (files r.2) (tempDir_of h) = true) \/
     (exists e, r.1 = Rejected e /\ pdf_failure p e = true))).
  { cbv zeta. destruct (pdf_outcome_cases h p (after_mkdir h w1)) as [[H1 H2]|(e & H1 & H2 & _)].
    - left. repeat split; [exact H1 | exact H2 |].
      destruct (pdf_run h p (after_mkdir h w1)) as (after' & -> & _ & _). cbn [snd].
      now apply existsSync_written.
    - right. eauto. }
  destruct (fs.statSync (files (after_mkdir h w1)) (pdfPath_of h p)) as [pdf|] eqn:Hpdf;
    [|exact Hconv].
  destruct (fs.statSync (files (after_mkdir h w1)) p) as [ppt|].
  - destruct (mtime pdf >? mtime ppt); [|exact Hconv].
    left. cbn [fst snd]. repeat split; [|exact Hdir].
    unfold fs.existsSync. now rewrite Hpdf.
  - right. exists (StatError p). split; [reflexivity|]. simpl. apply String.eqb_refl.
Qed.

(** X1. A conversion never hangs: whatever the children do, the promises of
    [convertToPDF] and [convertToImages] are settled, fulfilled or rejected,
    because each spawn arms a timer that settles its promise at the latest. *)
Theorem conversions_settle (h : Host) (pptPath : string) (w : World) :
  ((exists pdfPath, (convertToPDF h pptPath w).1 = Fulfilled pdfPath) \/
   (exists e, (convertToPDF h pptPath w).1 = Rejected e)) /\
  ((exists images, (convertToImages h pptPath w).1 = Fulfilled images) \/
   (exists e, (convertToImages h pptPath w).1 = Rejected e)).
Proof.
  split.
  - assert (H := convertToPDF_settles h pptPath w).
    destruct (convertToPDF h pptPath w).1; [discriminate | eauto | eauto].
  - assert (H := convertToImages_settles h pptPath w).
    destruct (convertToImages h pptPath w).1; [discriminate | eauto | eauto].
Qed.

(** X2. When [convertToPDF] succeeds, the path it returns is the derived
    output path (scratch directory, source basename without extension,
    [.pdf]), and at that moment a file exists at that path and the scratch
    directory exists: on a cache hit because the file was found, after a
    conversion because the 'close' handler has checked it. *)
Theorem convertToPDF_success (h : Host) (pptPath pdfPath : string) (w w' : World) :
  convertToPDF h pptPath w = (Fulfilled pdfPath, w') ->
  pdfPath = pdfPath_of h pptPath /\
  fs.existsSync (files w') pdfPath = true /\
  fs.existsSync (files w') (tempDir_of h) = true.
Proof.
  intros H. destruct (convertToPDF_cases h pptPath w) as [(H1 & H2 & H3)|(e & H1 & _)];
    rewrite H in *; cbn [fst snd] in *.
  - injection H1 as ->. auto.
  - discriminate.
Qed.

Lemma convertToPDF_success_witness :
  deck_pdf = pdfPath_of (linux_host kids_ok) deck /\
  fs.existsSync (files (convertToPDF (linux_host kids_ok) deck (world_of disk0)).2) deck_pdf
  = true.
Proof.
  destruct (convertToPDF_success (linux_host kids_ok) deck deck_pdf (world_of disk0)
              (convertToPDF (linux_host kids_ok) deck (world_of disk0)).2) as (H1 & H2 & _).
  - vm_compute. reflexivity.
  - split; [exact H1 | exact H2].
Defined.



(** ** A cache miss *)

Lemma probe_world h w b w1 :
  checkLibreOfficeInstallation h w = (Fulfilled b, w1) ->
  spawned w1 = S (spawned w) /\
  exists done,
    log w1 = log w ++ [Spawn (spawned w) (getLibreOfficePath (platform h) (files w))
                         ["--version"]; done] /\
    stops (spawned w) done = true.
Proof.
  destruct (probe_run h w) as (after & Heq & _ & _). rewrite Heq.
  intros H. injection H as _ <-. split; [reflexivity|].
  exists (last_seen (spawned w) true (next_child h w 5000)).
  split; [reflexivity | apply stops_last_seen].
Qed.

Lemma after_mkdir_exact h w :
  log (after_mkdir h w)
  = log w ++ (if fs.existsSync (files w) (tempDir_of h) then [] else [Mkdir (tempDir_of h)]) /\
  spawned (after_mkdir h w) = spawned w.
Proof.
  unfold after_mkdir. destruct (fs.existsSync (files w) (tempDir_of h)); simpl.
  - now rewrite app_nil_r.
  - split; reflexivity.
Qed.



(** ** The scratch directory *)




(** ** How [convertToImages] ends *)

Lemma substring_all s : String.substring 0 (String.length s) s = s.
Proof. induction s as [|c s IH]; simpl; [reflexivity | now rewrite IH]. Qed.

Lemma prefix_split pre k :
  String.prefix pre k = true ->
  k = pre +:+ String.substring (String.length pre) (String.length k - String.length pre) k.
Proof.
  revert k. induction pre as [|a pre IH]; intros k H; simpl.
  - rewrite Nat.sub_0_r. symmetry. apply substring_all.
  - destruct k as [|b k]; simpl in H; [discriminate|].
    destruct (ascii_dec a b) as [->|]; [|discriminate].
    rewrite (IH k H) at 1. reflexivity.
Qed.

Lemma append_assoc a b c : (a +:+ b) +:+ c = a +:+ (b +:+ c).
Proof.
  induction a as [|x a IH]; [reflexivity|].
  change (String x ((a +:+ b) +:+ c) = String x (a +:+ (b +:+ c))). now rewrite IH.
Qed.

Lemma child_name_join dir k n : fs.child_name dir k = Some n -> k = path.join dir n.
Proof.
  unfold fs.child_name, path.join.
  destruct (String.prefix (dir +:+ "/") k) eqn:Hp; [|discriminate].
  apply prefix_split in Hp.
  set (m := String.substring _ _ k) in *.
  destruct (String.eqb m ""); [discriminate|].
  destruct (forallb _ _); [|discriminate].
  intros H. injection H as <-. now rewrite Hp at 1; rewrite append_assoc.
Qed.

(** Every name [readdirSync] lists is the name of an entry of the
    directory. *)
Lemma readdirSync_exists (d : fs.t) dir listing name :
  fs.readdirSync d dir = Some listing -> In name listing ->
  fs.existsSync d (path.join dir name) = true.
Proof.
  unfold fs.readdirSync. destruct (fs.statSync d dir) as [e|]; [|discriminate].
  destruct (is_dir e); [|discriminate].
  intros H Hin. injection H as <-.
  apply list_elem_of_In, list_elem_of_omap in Hin as ([k v] & Hkv & Hn).
  apply elem_of_map_to_list in Hkv. simpl in Hn.
  apply child_name_join in Hn as <-.
  unfold fs.existsSync, fs.statSync. now rewrite Hkv.
Qed.

Lemma image_outcome_cases h p pdfPath w :
  let r := image_conversion h p pdfPath w in
  (exists names,
     r.1 = Fulfilled (List.map (path.join (tempDir_of h)) names) /\
     names <> [] /\ Sorted str_le names /\
     Sorted str_le (List.map (path.join (tempDir_of h)) names) /\
     List.Forall (fun name =>
       is_image_of (fileName_of p) name = true /\
       fs.existsSync (files r.2) (path.join (tempDir_of h) name) = true) names) \/
  (exists e, r.1 = Rejected e /\ image_failure h e = true).
Proof.
  cbv zeta. destruct (image_run h p pdfPath w) as (after & -> & _ & _). cbn [fst snd].
  unfold outcome. set (evs := next_child h w 30000).
  destruct (first_loud_cases evs) as [->|[[msg ->]|[code ->]]].
  - right. exists (Timeout ToImages). now split.
  - right. exists (SpawnFailure ToImages msg). now split.
  - cbn [on_close image_reactions]. destruct (code_is_zero code) eqn:Hz.
    + destruct (fs.readdirSync (written (files w) evs) (tempDir_of h)) as [listing|] eqn:Hdir.
      * set (matching := List.filter (is_image_of (fileName_of p)) listing).
        destruct (sort_joined (tempDir_of h) matching) as (names & Heq & Hperm & Hs & Hs').
        destruct matching as [|m matching'] eqn:Hm.
        -- right. exists NoOutputFiles. now split.
        -- left. exists names. cbn [List.map List.length Nat.ltb Nat.leb].
           rewrite <- Heq. split; [reflexivity|]. split.
           { intros ->. apply Permutation_nil in Hperm. discriminate. }
           split; [exact Hs|]. split; [now rewrite Heq|].
           apply List.Forall_forall. intros name Hin.
           assert (Hin' : In name (List.filter (is_image_of (fileName_of p)) listing)).
           { fold matching. rewrite Hm. apply list_elem_of_In. rewrite <- Hperm.
             now apply list_elem_of_In. }
           apply List.filter_In in Hin' as [Hl Himg]. split; [exact Himg|].
           now apply (readdirSync_exists _ _ listing).
      * right. exists (ReadError (tempDir_of h)). split; [reflexivity|].
        simpl. apply String.eqb_refl.
    + right. exists (NonZeroExit ToImages code (heard "" evs)).
      split; [reflexivity|]. simpl. now rewrite Hz.
Qed.

(** X6. When [convertToImages] succeeds, the list it returns is not empty
    and is in ascending lexical order; every path in it is a name of the
    scratch directory joined to that directory, the name starts with the
    source basename and ends with [.png], and the file is there when the
    call settles. *)
Theorem convertToImages_success (h : Host) (pptPath : string) (w w' : World)
    (images : list string) :
  convertToImages h pptPath w = (Fulfilled images, w') ->
  images <> [] /\
  Sorted str_le images /\
  List.Forall (fun image =>
    exists name,
      image = path.join (tempDir_of h) name /\
      startsWith name (fileName_of pptPath) = true /\
      endsWith name ".png" = true /\
      fs.existsSync (files w') image = true) images.
Proof.
  unfold convertToImages, bind.
  destruct (convertToPDF h pptPath w) as [[|pdfPath|e] w1]; try discriminate.
  intros H.
  destruct (image_outcome_cases h pptPath pdfPath w1)
    as [(names & H1 & Hne & _ & Hs & Hall)|(e & H1 & _)];
    rewrite H in *; cbn [fst snd] in *; [|discriminate].
  injection H1 as ->. split; [|split].
  - destruct names; [congruence | discriminate].
  - exact Hs.
  - apply List.Forall_forall. intros image Hin.
    apply List.in_map_iff in Hin as (name & <- & Hin).
    rewrite List.Forall_forall in Hall. destruct (Hall name Hin) as [Himg Hex].
    exists name. unfold is_image_of in Himg. apply andb_true_iff in Himg as [? ?].
    auto.
Qed.

Lemma convertToImages_success_witness :
  List.Forall (fun image =>
    exists name,
      image = path.join scratch name /\
      startsWith name "deck" = true /\
      endsWith name ".png" = true /\
      fs.existsSync
        (files (convertToImages (linux_host kids_images) deck (world_of disk_slides)).2)
        image = true)
    [ "/tmp/muty-pptviewer/deck-1.png";
      "/tmp/muty-pptviewer/deck-2.png";
      "/tmp/muty-pptviewer/deck-3.png" ].
Proof.
  refine (proj2 (proj2 (convertToImages_success (linux_host kids_images) deck
            (world_of disk_slides)
            (convertToImages (linux_host kids_images) deck (world_of disk_slides)).2
            _ _))).
  vm_compute. reflexivity.
Defined.



(** ** The cache key *)

Lemma chars_append a b : chars (a +:+ b) = chars a ++ chars b.
Proof.
  induction a as [|x a IH]; [reflexivity|].
  change (x :: chars (a +:+ b) = x :: (chars a ++ chars b)). now rewrite IH.
Qed.

Lemma length_unchars l : String.length (unchars l) = List.length l.
Proof. induction l as [|x l IH]; simpl; [reflexivity | now rewrite IH]. Qed.

Lemma take_drop_split (f : ascii -> bool) l :
  l = path.take_until f l ++ path.drop_while (fun x => negb (f x)) l.
Proof.
  induction l as [|x l IH]; [reflexivity|]. simpl.
  destruct (f x); simpl; [reflexivity | now rewrite <- IH].
Qed.

Lemma take_until_stop (f : ascii -> bool) l x r :
  forallb (fun c => negb (f c)) l = true -> f x = true ->
  path.take_until f (l ++ x :: r) = l.
Proof.
  intros Hl Hx. induction l as [|c l IH]; simpl in *; [now rewrite Hx|].
  apply andb_true_iff in Hl as [Hc Hl]. apply negb_true_iff in Hc.
  now rewrite Hc, IH.
Qed.

Lemma forallb_rev {A} (f : A -> bool) l : forallb f (rev l) = forallb f l.
Proof.
  induction l as [|x l IH]; [reflexivity|]. simpl.
  rewrite List.forallb_app, IH. simpl. rewrite andb_true_r. apply andb_comm.
Qed.

(** The last component of [dir/name] is [name], for a name that is not empty
    and holds no separator. *)
Lemma last_component_join dir name :
  name <> "" -> forallb (fun c => negb (path.is_slash c)) (chars name) = true ->
  path.last_component (path.join dir name) = chars name.
Proof.
  intros Hne Hns. unfold path.last_component, path.join.
  rewrite !chars_append. change (chars "/") with ["/"%char].
  rewrite List.rev_app_distr. simpl. rewrite <- app_assoc. simpl.
  assert (Hr : forallb (fun c => negb (path.is_slash c)) (rev (chars name)) = true)
    by now rewrite forallb_rev.
  destruct (rev (chars name)) as [|c r] eqn:Hrev.
  - destruct name; [congruence|]. apply (f_equal (@List.length _)) in Hrev.
    rewrite List.length_rev in Hrev. discriminate.
  - simpl in Hr |- *. apply andb_true_iff in Hr as [Hc Hr'].
    apply negb_true_iff in Hc. rewrite Hc.
    change (c :: r ++ "/"%char :: rev (chars dir))
      with ((c :: r) ++ "/"%char :: rev (chars dir)).
    rewrite take_until_stop; [| simpl; now rewrite Hc | reflexivity].
    rewrite <- Hrev. apply List.rev_involutive.
Qed.

Lemma extname_length p :
  (String.length (path.extname p) <= List.length (path.last_component p))%nat.
Proof.
  unfold path.extname. set (c := path.last_component p).
  destruct (forallb _ c); [simpl; lia|].
  destruct (path.drop_while _ (rev c)) as [|dot before] eqn:Hd; [simpl; lia|].
  destruct before as [|b before]; [simpl; lia|].
  destruct (String.eqb (unchars c) ".."); [simpl; lia|].
  rewrite length_unchars. simpl. rewrite List.length_rev.
  assert (H := take_drop_split path.is_dot (rev c)). rewrite Hd in H.
  apply (f_equal (@List.length _)) in H.
  rewrite List.length_rev, List.length_app in H. simpl in H. lia.
Qed.

(** The output name depends on the last component of the source path
    alone. *)
Lemma fileName_of_join dir name :
  name <> "" -> forallb (fun c => negb (path.is_slash c)) (chars name) = true ->
  fileName_of (path.join dir name)
  = (let c := name in
     let suffix := path.extname (path.join dir name) in
     if String.eqb suffix "" then c
     else if endsWith c suffix && negb (String.eqb c suffix)
          then String.substring 0 (String.length c - String.length suffix) c
          else c).
Proof.
  intros Hne Hns. unfold fileName_of, path.basename.
  rewrite (last_component_join dir name Hne Hns).
  unfold chars, unchars. rewrite string_of_list_ascii_of_string.
  destruct (String.eqb (path.extname (path.join dir name)) "") eqn:E1; [reflexivity|].
  destruct (String.eqb (path.extname (path.join dir name)) (path.join dir name)) eqn:E2;
    [|reflexivity].
  exfalso. apply String.eqb_eq in E2.
  assert (H := extname_length (path.join dir name)).
  rewrite E2, (last_component_join dir name Hne Hns) in H.
  unfold path.join in H. rewrite !length_append in H. unfold chars in H.
  rewrite <- (string_of_list_ascii_of_string name) in H at 1.
  fold (unchars (list_ascii_of_string name)) in H. rewrite length_unchars in H.
  simpl in H. lia.
Qed.

Lemma extname_join dir dir' name :
  name <> "" -> forallb (fun c => negb (path.is_slash c)) (chars name) = true ->
  path.extname (path.join dir name) = path.extname (path.join dir' name).
Proof.
  intros Hne Hns. unfold path.extname.
  now rewrite !(last_component_join _ name Hne Hns).
Qed.

Lemma pdfPath_of_join h dir dir' name :
  name <> "" -> forallb (fun c => negb (path.is_slash c)) (chars name) = true ->
  pdfPath_of h (path.join dir name) = pdfPath_of h (path.join dir' name).
Proof.
  intros Hne Hns. unfold pdfPath_of.
  rewrite !(fileName_of_join _ name Hne Hns). cbv zeta.
  now rewrite (extname_join dir dir' name Hne Hns).
Qed.

(** X8. The cache is keyed by the file name of the source alone: two sources
    with the same name in different directories have the same output path.
    So when the probe reports available and the PDF at that path is newer
    than the second source, [convertToPDF] on the second source returns that
    PDF, whichever source it was converted from, and converts nothing. *)
Theorem same_name_shares_cache (h : Host) (dir dir' name : string) (w w1 : World) :
  let first := path.join dir name in
  let second := path.join dir' name in
  name <> "" ->
  forallb (fun c => negb (path.is_slash c)) (chars name) = true ->
  pdfPath_of h second = pdfPath_of h first /\
  (checkLibreOfficeInstallation h w = (Fulfilled true, w1) ->
   fresh_cache (files w1) second (pdfPath_of h first) ->
   (convertToPDF h second w).1 = Fulfilled (pdfPath_of h first) /\
   spawned (convertToPDF h second w).2 = S (spawned w)).
Proof.
  intros first second Hne Hns.
  assert (Hsame : pdfPath_of h second = pdfPath_of h first)
    by apply (pdfPath_of_join h dir' dir name Hne Hns).
  split; [exact Hsame|]. intros Hprobe Hfresh. rewrite <- Hsame in *.
  rewrite (convertToPDF_unfold h second w _ _ Hprobe).
  destruct (fresh_cache_after_mkdir h w1 second Hfresh) as (pdf & ppt & -> & -> & Hlt).
  apply Z.gtb_lt in Hlt. rewrite Hlt. cbn [fst snd]. split; [reflexivity|].
  destruct (after_mkdir_exact h w1) as [_ ->].
  now destruct (probe_world h w true w1 Hprobe) as [-> _].
Qed.

Lemma same_name_shares_cache_witness :
  (convertToPDF (linux_host kids_probe_ok) "/home/v/deck.pptx" (world_of disk_two_decks)).1
  = Fulfilled deck_pdf.
Proof.
  refine (proj1 (proj2 (same_name_shares_cache (linux_host kids_probe_ok)
            "/home/u" "/home/v" "deck.pptx" (world_of disk_two_decks)
            (checkLibreOfficeInstallation (linux_host kids_probe_ok)
               (world_of disk_two_decks)).2 _ _) _ _)).
  - discriminate.
  - vm_compute. reflexivity.
  - vm_compute. reflexivity.
  - exists {| is_dir := false; mtime := 200 |}, {| is_dir := false; mtime := 120 |}.
    repeat split; vm_compute; reflexivity.
Defined.

(** The same happens to sources that differ in their extension only. *)
Example same_stem_shares_cache :
  pdfPath_of (linux_host kids_ok) "/home/u/deck.ppt"
  = pdfPath_of (linux_host kids_ok) "/home/u/deck.pptx".
Proof. vm_compute. reflexivity. Qed.

(** * More of the editor provider *)

(** ** [_loadPPT], case by case *)

Lemma is_process_last_seen pid alive evs : is_process (last_seen pid alive evs) = true.
Proof.
  unfold last_seen.
  now destruct (first_loud_cases evs) as [->|[[msg ->]|[code ->]]].
Qed.

(** [convertToPDF] logs process events only. *)
Lemma convertToPDF_process_log h p w :
  exists evs, log (convertToPDF h p w).2 = log w ++ evs /\
              List.Forall (fun e => is_process e = true) evs.
Proof.
  destruct (probe_run h w) as (after & Heq & _ & _).
  rewrite (convertToPDF_unfold h p w _ _ Heq).
  set (w1 := world_after_child _ _ _ _ _).
  set (probe_evs := [Spawn (spawned w) (getLibreOfficePath (platform h) (files w))
                       ["--version"]; last_seen (spawned w) true (next_child h w 5000)]).
  assert (Hp : List.Forall (fun e => is_process e = true) probe_evs).
  { repeat constructor. apply is_process_last_seen. }
  destruct (probe_answer _); [|exists probe_evs; now split].
  destruct (after_mkdir_exact h w1) as [Hlog _].
  set (dirs := if fs.existsSync (files w1) (tempDir_of h) then []
               else [Mkdir (tempDir_of h)]) in *.
  assert (Hd : List.Forall (fun e => is_process e = true) dirs).
  { subst dirs. destruct (fs.existsSync (files w1) (tempDir_of h)); repeat constructor. }
  assert (Hstay : exists evs, log (after_mkdir h w1) = log w ++ evs /\
                              List.Forall (fun e => is_process e = true) evs).
  { exists (probe_evs ++ dirs). rewrite Hlog. subst w1. unfold world_after_child.
    cbn [log]. fold probe_evs. rewrite <- app_assoc.
    split; [reflexivity | apply List.Forall_app; now split]. }
  assert (Hconv : exists evs, log (pdf_conversion h p (after_mkdir h w1)).2 = log w ++ evs /\
                              List.Forall (fun e => is_process e = true) evs).
  { destruct (pdf_run h p (after_mkdir h w1)) as (after' & -> & _ & _).
    exists (probe_evs ++ dirs ++
            [Spawn (spawned (after_mkdir h w1))
               (getLibreOfficePath (platform h) (files (after_mkdir h w1))) (pdf_args h p);
             last_seen (spawned (after_mkdir h w1)) true
               (next_child h (after_mkdir h w1) 30000)]).
    cbn [snd]. unfold world_after_child at 1. cbn [log]. rewrite Hlog.
    subst w1. unfold world_after_child at 1. cbn [log]. fold probe_evs.
    rewrite <- !app_assoc. split; [reflexivity|].
    apply List.Forall_app; split; [exact Hp|].
    apply List.Forall_app; split; [exact Hd|].
    repeat constructor. apply is_process_last_seen. }
  destruct (fs.statSync (files (after_mkdir h w1)) (pdfPath_of h p)) as [pdf|];
    [|exact Hconv].
  destruct (fs.statSync (files (after_mkdir h w1)) p) as [ppt|]; [|exact Hstay].
  destruct (mtime pdf >? mtime ppt); [exact Hstay | exact Hconv].
Qed.

Lemma posted_process evs :
  List.Forall (fun e => is_process e = true) evs -> posted evs = [] /\ shown evs = [].
Proof.
  induction 1 as [|e evs He _ [IH1 IH2]]; [now split|].
  destruct e; try discriminate; (split; [exact IH1 | exact IH2]).
Qed.

Lemma posted_app evs evs' : posted (evs ++ evs') = posted evs ++ posted evs'.
Proof. unfold posted. apply omap_app. Qed.

Lemma shown_app evs evs' : shown (evs ++ evs') = shown evs ++ shown evs'.
Proof. unfold shown. apply omap_app. Qed.

Lemma _loadPPT_unfold h p w b w1 :
  checkLibreOfficeInstallation h w = (Fulfilled b, w1) ->
  _loadPPT h p w =
    if b then
      match convertToPDF h p (in_progress w1) with
      | (Fulfilled pdfPath, w2) =>
          (Fulfilled tt, logged w2 [PostMessage (LoadPDF (asWebviewUri h pdfPath))])
      | (Rejected e, w2) =>
          (Fulfilled tt, logged w2 [ShowErrorMessage (failure_text e);
                                    PostMessage (ErrorText (failure_text e))])
      | (Pending, w2) => (Pending, w2)
      end
    else (Fulfilled tt, logged w1 [PostMessage LibreOfficeNotInstalled]).
Proof.
  intros Hprobe. unfold _loadPPT, try_catch. unfold bind at 1. rewrite Hprobe.
  destruct b; cbn [negb]; [|reflexivity].
  unfold bind at 1. unfold emit at 1. cbv beta iota. fold (in_progress w1).
  change ({| files := files w1; spawned := spawned w1;
             log := log w1 ++ [WithProgress "Converting PowerPoint to PDF..."];
             detached := detached w1 |}) with (in_progress w1).
  unfold bind at 1.
  destruct (convertToPDF h p (in_progress w1)) as [[|pdfPath|e] w2] eqn:Hconv.
  - reflexivity.
  - destruct (convertToPDF_cases h p (in_progress w1)) as [(H1 & H2 & _)|(e & H1 & _)];
      rewrite Hconv in *; cbn [fst snd] in *; [|discriminate].
    injection H1 as ->. unfold _loadPDF, bind, reads. rewrite H2. reflexivity.
  - unfold bind, emit, logged, failure_text. simpl. now rewrite <- app_assoc.
Qed.

(** X9. [_loadPPT] never lets a failure escape: whatever the children and
    the file system do, its promise is fulfilled, never rejected and never
    left pending; every failure of the probe or of the conversion ends in
    its [catch] or in the installation prompt. *)
Theorem _loadPPT_never_rejects (h : Host) (pptPath : string) (w : World) :
  (_loadPPT h pptPath w).1 = Fulfilled tt.
Proof.
  destruct (probe_run h w) as (after & Heq & _ & _).
  rewrite (_loadPPT_unfold h pptPath w _ _ Heq).
  destruct (probe_answer _); [|reflexivity].
  assert (H := convertToPDF_settles h pptPath
                 (in_progress (world_after_child w
                    (getLibreOfficePath (platform h) (files w)) ["--version"]
                    (next_child h w 5000) after))).
  destruct (convertToPDF _ _ _) as [[|pdfPath|e] w2]; [discriminate | reflexivity..].
Qed.

Lemma _loadPPT_delta h p w :
  exists evs b w1,
    log (_loadPPT h p w).2 = log w ++ evs /\
    checkLibreOfficeInstallation h w = (Fulfilled b, w1) /\
    if b then
      match (convertToPDF h p (in_progress w1)).1 with
      | Fulfilled pdfPath =>
          posted evs = [LoadPDF (asWebviewUri h pdfPath)] /\ shown evs = []
      | Rejected e =>
          posted evs = [ErrorText (failure_text e)] /\ shown evs = [failure_text e]
      | Pending => False
      end
    else posted evs = [LibreOfficeNotInstalled] /\ shown evs = [].
Proof.
  destruct (probe_run h w) as (after & Heq & _ & _).
  set (b := probe_answer (next_child h w 5000)) in *.
  set (w1 := world_after_child _ _ _ _ _) in *.
  set (probe_evs := [Spawn (spawned w) (getLibreOfficePath (platform h) (files w))
                       ["--version"]; last_seen (spawned w) true (next_child h w 5000)]).
  assert (Hw1 : log w1 = log w ++ probe_evs) by reflexivity.
  assert (Hp : posted probe_evs = [] /\ shown probe_evs = []).
  { apply posted_process. repeat constructor. apply is_process_last_seen. }
  destruct Hp as [Hp1 Hp2].
  rewrite (_loadPPT_unfold h p w _ _ Heq).
  destruct b.
  - destruct (convertToPDF_process_log h p (in_progress w1)) as (cevs & Hc & Hproc).
    apply posted_process in Hproc as [Hc1 Hc2].
    assert (Hset := convertToPDF_settles h p (in_progress w1)).
    destruct (convertToPDF h p (in_progress w1)) as [[|pdfPath|e] w2] eqn:Hcv;
      cbn [fst snd] in *.
    + discriminate.
    + exists (probe_evs ++ [WithProgress "Converting PowerPoint to PDF..."] ++ cevs
              ++ [PostMessage (LoadPDF (asWebviewUri h pdfPath))]), true, w1.
      split; [|split; [exact Heq|]].
      * unfold logged. cbn [log]. rewrite Hc. unfold in_progress, emit. cbn [snd log].
        rewrite Hw1, <- !app_assoc. reflexivity.
      * rewrite Hcv. cbn [fst]. rewrite !posted_app, !shown_app, Hp1, Hp2, Hc1, Hc2.
        now split.
    + exists (probe_evs ++ [WithProgress "Converting PowerPoint to PDF..."] ++ cevs
              ++ [ShowErrorMessage (failure_text e);
                  PostMessage (ErrorText (failure_text e))]), true, w1.
      split; [|split; [exact Heq|]].
      * unfold logged. cbn [log]. rewrite Hc. unfold in_progress, emit. cbn [snd log].
        rewrite Hw1, <- !app_assoc. reflexivity.
      * rewrite Hcv. cbn [fst]. rewrite !posted_app, !shown_app, Hp1, Hp2, Hc1, Hc2.
        now split.
  - exists (probe_evs ++ [PostMessage LibreOfficeNotInstalled]), false, w1.
    split; [|split; [exact Heq|]].
    + unfold logged. cbn [snd log]. now rewrite Hw1, <- app_assoc.
    + rewrite posted_app, shown_app, Hp1, Hp2. now split.
Qed.

(** X10. Every run of [_loadPPT] posts exactly one message to the webview,
    and which one is decided as follows.  When its probe reports unavailable:
    the installation prompt, and no error notification.  When the probe
    reports available and [convertToPDF] succeeds: [loadPDF] with the webview
    URI of the returned path, and no notification.  When [convertToPDF]
    fails: [error] with the text "Failed to convert PowerPoint file: Error: "
    followed by the message of the failure, and one notification with that
    same text. *)
Theorem _loadPPT_reports (h : Host) (pptPath : string) (w : World) :
  let probe := checkLibreOfficeInstallation h w in
  let conv := convertToPDF h pptPath (in_progress probe.2) in
  exists evs,
    log (_loadPPT h pptPath w).2 = log w ++ evs /\
    (probe.1 = Fulfilled false ->
     posted evs = [LibreOfficeNotInstalled] /\ shown evs = []) /\
    (probe.1 = Fulfilled true -> forall pdfPath, conv.1 = Fulfilled pdfPath ->
     posted evs = [LoadPDF (asWebviewUri h pdfPath)] /\ shown evs = []) /\
    (probe.1 = Fulfilled true -> forall e, conv.1 = Rejected e ->
     posted evs = [ErrorText (failure_text e)] /\ shown evs = [failure_text e]).
Proof.
  cbv zeta. destruct (_loadPPT_delta h pptPath w) as (evs & b & w1 & Hlog & Hprobe & H).
  exists evs. rewrite Hprobe. cbn [fst snd]. split; [exact Hlog|].
  destruct b.
  - split; [discriminate|].
    destruct (convertToPDF h pptPath (in_progress w1)).1 as [|x|e]; [destruct H| |].
    + split; [intros _ x' Hx; now injection Hx as <- | intros _ e He; discriminate].
    + split; [intros _ x Hx; discriminate | intros _ e' He; now injection He as <-].
  - split; [intros _; exact H|]. split; discriminate.
Qed.

Lemma in_posted m evs : In (PostMessage m) evs -> In m (posted evs).
Proof.
  intros H. apply list_elem_of_In. unfold posted. apply list_elem_of_omap.
  exists (PostMessage m). split; [now apply list_elem_of_In | reflexivity].
Qed.

(** X11. The error "PDF file was not created successfully." of [_loadPDF] is
    never posted by [_loadPPT]: [convertToPDF] succeeds only with a path at
    which a file exists, and nothing comes between its success and the check
    of [_loadPDF], so that check always passes. *)
Theorem _loadPPT_pdf_always_found (h : Host) (pptPath : string) (w : World) :
  exists evs,
    log (_loadPPT h pptPath w).2 = log w ++ evs /\
    ~ In (PostMessage (ErrorText "PDF file was not created successfully.")) evs.
Proof.
  destruct (_loadPPT_delta h pptPath w) as (evs & b & w1 & Hlog & _ & H).
  exists evs. split; [exact Hlog|]. intros Hin. apply in_posted in Hin.
  destruct b.
  - destruct (convertToPDF h pptPath (in_progress w1)).1 as [|x|e]; [destruct H| |];
      destruct H as [H _]; rewrite H in Hin; destruct Hin as [Hin|[]]; try discriminate.
  - destruct H as [H _]. rewrite H in Hin. destruct Hin as [Hin|[]]. discriminate.
Qed.

(** X12. [_loadPPT] probes twice: once itself, once inside [convertToPDF].
    When the first probe reports available and the second does not, the
    user does not get the installation prompt with its retry button but the
    error path: a notification and an [error] message with the text of
    NotInstalled. *)
Theorem second_probe_failure (h : Host) (pptPath : string) (w w1 w2 : World) :
  checkLibreOfficeInstallation h w = (Fulfilled true, w1) ->
  checkLibreOfficeInstallation h (in_progress w1) = (Fulfilled false, w2) ->
  exists evs,
    log (_loadPPT h pptPath w).2 = log w ++ evs /\
    posted evs = [ErrorText (failure_text NotInstalled)] /\
    shown evs = [failure_text NotInstalled].
Proof.
  intros H1 H2.
  destruct (_loadPPT_delta h pptPath w) as (evs & b & w1' & Hlog & Hprobe & H).
  rewrite H1 in Hprobe. injection Hprobe as <- <-.
  rewrite (convertToPDF_unfold h pptPath (in_progress w1) _ _ H2) in H.
  exists evs. split; [exact Hlog | exact H].
Qed.

Lemma second_probe_failure_witness :
  exists evs,
    log (_loadPPT (linux_host kids_flaky) deck (world_of disk0)).2 = [] ++ evs /\
    posted evs = [ErrorText (failure_text NotInstalled)] /\
    shown evs = [failure_text NotInstalled].
Proof.
  apply (second_probe_failure (linux_host kids_flaky) deck (world_of disk0)
           (checkLibreOfficeInstallation (linux_host kids_flaky) (world_of disk0)).2
           (checkLibreOfficeInstallation (linux_host kids_flaky)
              (in_progress (checkLibreOfficeInstallation (linux_host kids_flaky)
                              (world_of disk0)).2)).2).
  - vm_compute. reflexivity.
  - vm_compute. reflexivity.
Defined.

(** ** The viewer page and the extension *)

Lemma _loadPPT_one_reply h p w :
  exists evs m, log (_loadPPT h p w).2 = log w ++ evs /\ posted evs = [m].
Proof.
  destruct (_loadPPT_delta h p w) as (evs & b & w1 & Hlog & _ & H).
  exists evs. destruct b.
  - destruct (convertToPDF h p (in_progress w1)).1 as [|x|e]; [destruct H| |];
      destruct H as [H _]; eauto.
  - destruct H as [H _]. eauto.
Qed.

Lemma replies_ext w w' evs : log w' = log w ++ evs -> replies w w' = posted evs.
Proof. intros H. unfold replies. now rewrite H, drop_app_length. Qed.

Lemma receive_retry h p w :
  receive_all h p [RetryLibreOfficeCheck] w = (_loadPPT h p w).2.
Proof. reflexivity. Qed.

Lemma receive_ready_log h p w :
  log (receive_all h p [Ready] w) = log (_loadPPT h p w).2.
Proof. reflexivity. Qed.

Lemma timers_page_after c r v m : timers (page_after c r v m) = 0%nat.
Proof. destruct m, v, r; reflexivity. Qed.

Lemma prompts_page_after c r v m :
  prompts (page_after c r v m)
  = match m with LibreOfficeNotInstalled => 1%nat | _ => 0%nat end.
Proof. destruct m, v, r; reflexivity. Qed.

Lemma retry_page_after c r v :
  retryLibreOfficeCheck true (page_after c r v LibreOfficeNotInstalled)
  = (set_display "block" (fresh_page c), [RetryLibreOfficeCheck]).
Proof. destruct c, r; reflexivity. Qed.

Lemma loaded_settled h p c w v0 : settled_session h p c w 0 (loaded h p true c w v0).
Proof.
  destruct (_loadPPT_one_reply h p w) as (evs & m & Hlog & Hm).
  exists 0%nat, v0, m, evs. unfold loaded, exchange, on_load. cbn [fst snd truthy fresh_page
    pendingPdfUri page world].
  rewrite <- receive_ready_log in Hlog.
  rewrite (replies_ext _ _ _ Hlog), Hm.
  split; [lia|]. split; [reflexivity|]. split; [exact Hlog|]. split; reflexivity.
Qed.

Lemma step_settled h p c w n s g :
  settled_session h p c w n s ->
  settled_session h p c w (n + (if is_click g then 1 else 0)) (step h p true s g).
Proof.
  intros (k & v & m & evs & Hk & Hw & Hlog & Hm & Hpage).
  destruct g as [[|] v']; unfold step, is_click; cbn [fst snd].
  - rewrite Hpage, prompts_page_after. destruct m as [|u|t].
    + rewrite <- Hpage.
      destruct (_loadPPT_one_reply h p (world s)) as (evs' & m' & Hlog' & Hm').
      rewrite <- receive_retry in Hlog'.
      exists (S k), v', m', (evs ++ evs'). unfold exchange.
      rewrite Hpage, retry_page_after. cbn [fst snd page world].
      rewrite (replies_ext _ _ _ Hlog'), Hm'.
      split; [lia|]. split; [|split; [|split]].
      * rewrite Hw. reflexivity.
      * now rewrite Hlog', Hlog, <- app_assoc.
      * rewrite posted_app, Hm, Hm', <- app_assoc. cbn [replicate].
        change ([LibreOfficeNotInstalled] ++ [m']) with ([LibreOfficeNotInstalled; m']).
        clear. induction k as [|k IH]; [reflexivity|]. cbn [replicate app]. now rewrite IH.
      * reflexivity.
    + exists k, v, (LoadPDF u), evs. repeat split; try assumption. lia.
    + exists k, v, (ErrorText t), evs. repeat split; try assumption. lia.
  - rewrite Hpage, timers_page_after.
    exists k, v, m, evs. repeat split; try assumption. lia.
Qed.

Lemma session_settled h p c w v0 steps :
  settled_session h p c w (clicks steps) (session h p true c w v0 steps).
Proof.
  unfold session. generalize (loaded_settled h p c w v0).
  change (clicks steps) with (0 + clicks steps)%nat.
  generalize (loaded h p true c w v0) as s. generalize 0%nat as n.
  induction steps as [|g steps IH]; intros n s Hs.
  - cbn. now rewrite Nat.add_0_r.
  - cbn [fold_left]. unfold clicks. cbn [List.filter].
    apply (step_settled _ _ _ _ _ _ g) in Hs. apply IH in Hs.
    destruct (is_click g); cbn [List.length] in *; unfold clicks in Hs.
    + now replace (n + S (List.length (List.filter is_click steps)))%nat
        with (n + 1 + List.length (List.filter is_click steps))%nat by lia.
    + now rewrite Nat.add_0_r in Hs.
Qed.

Lemma session_app h p b c w v0 steps more :
  session h p b c w v0 (steps ++ more)
  = fold_left (step h p b) more (session h p b c w v0 steps).
Proof. unfold session. apply fold_left_app. Qed.

Lemma step_idle h p b s g :
  prompts (page s) = 0%nat -> timers (page s) = 0%nat -> step h p b s g = s.
Proof. intros H1 H2. destruct g as [[|] v]; unfold step; cbn [fst]; now rewrite ?H1, ?H2. Qed.

Lemma steps_idle h p b s more :
  prompts (page s) = 0%nat -> timers (page s) = 0%nat -> fold_left (step h p b) more s = s.
Proof.
  intros H1 H2. induction more as [|g more IH]; [reflexivity|].
  cbn [fold_left]. now rewrite step_idle.
Qed.

Lemma session_inert h p c w v0 steps :
  session h p false c w v0 steps = {| page := fresh_page c; world := w |}.
Proof.
  assert (Hl : loaded h p false c w v0 = {| page := fresh_page c; world := w |}).
  { unfold loaded, exchange, on_load, replies. cbn [fst snd truthy fresh_page pendingPdfUri
      receive_all]. now rewrite drop_all. }
  unfold session. rewrite Hl. now apply steps_idle.
Qed.


Lemma page_after_pending c r v m u :
  pendingPdfUri (page_after c r v m) = Some u ->
  m = LoadPDF u /\ opened (page_after c r v m) = [] /\
  prompts (page_after c r v m) = 0%nat.
Proof. destruct m, v, r; cbn; intros H; try discriminate; now injection H as ->. Qed.

Lemma page_after_opened c r v m u :
  In u (opened (page_after c r v m)) ->
  opened (page_after c r v m) = [u] /\ exists uri, u = Some uri /\ m = LoadPDF uri.
Proof.
  destruct m as [|uri|t], v, r; cbn; intros H; try (now destruct H);
    destruct H as [<-|[]]; eauto.
Qed.

(** X14. What the viewer page opens.  The timer that the [load] listener
    would arm for a pending PDF is never armed: the page posts [ready] in
    that same listener, so no PDF can have arrived before.  A PDF that
    arrives while PDF.js is absent is therefore stored and never opened,
    and nothing that can happen on the page changes that.  Whatever is
    opened is opened once, and it is a URI that the extension has posted
    with [loadPDF]. *)
Theorem pending_pdf_never_opened (h : Host) (fsPath : string) (vscode : bool)
    (container : option string) (w : World) (v0 : viewer) (steps : list (gesture * viewer)) :
  let s := session h fsPath vscode container w v0 steps in
  timers (page s) = 0%nat /\
  (forall u, pendingPdfUri (page s) = Some u ->
     In (LoadPDF u) (replies w (world s)) /\ opened (page s) = [] /\
     forall more, session h fsPath vscode container w v0 (steps ++ more) = s) /\
  (forall u, In u (opened (page s)) ->
     opened (page s) = [u] /\
     exists uri, u = Some uri /\ In (LoadPDF uri) (replies w (world s))).
Proof.
  cbv zeta. destruct vscode.
  - destruct (session_settled h fsPath container w v0 steps)
      as (k & v & m & evs & Hk & Hw & Hlog & Hm & Hpage).
    rewrite (replies_ext _ _ _ Hlog), Hm, Hpage.
    split; [apply timers_page_after|]. split.
    + intros u Hu. apply page_after_pending in Hu as (-> & Ho & Hp).
      split; [apply in_or_app; right; now left|]. split; [exact Ho|].
      intros more. rewrite session_app. apply steps_idle.
      * now rewrite Hpage.
      * rewrite Hpage. apply timers_page_after.
    + intros u Hu. apply page_after_opened in Hu as (Ho & uri & -> & ->).
      split; [exact Ho|]. exists uri. split; [reflexivity|].
      apply in_or_app; right; now left.
  - rewrite session_inert. cbn. split; [reflexivity|]. split.
    + intros u Hu. discriminate.
    + intros u [].
Qed.

(** ** Where the converted file lies *)

Lemma take_until_free (f : ascii -> bool) l :
  forallb (fun c => negb (f c)) (path.take_until f l) = true.
Proof.
  induction l as [|x l IH]; [reflexivity|]. simpl.
  destruct (f x) eqn:E; [reflexivity|]. simpl. now rewrite E, IH.
Qed.

Lemma chars_unchars l : chars (unchars l) = l.
Proof. apply list_ascii_of_string_of_list_ascii. Qed.

Lemma slash_free_substring n s :
  slash_free s = true -> slash_free (String.substring 0 n s) = true.
Proof.
  revert n. induction s as [|c s IH]; intros n H; [now destruct n|].
  destruct n as [|n]; [reflexivity|].
  unfold slash_free in *. cbn in H |- *.
  apply andb_true_iff in H as [Hc Hs]. rewrite Hc. cbn. now apply IH.
Qed.

Lemma slash_free_last_component p : slash_free (unchars (path.last_component p)) = true.
Proof.
  unfold slash_free, path.last_component. rewrite chars_unchars, forallb_rev.
  apply take_until_free.
Qed.

Lemma slash_free_fileName p : slash_free (fileName_of p) = true.
Proof.
  unfold fileName_of, path.basename.
  destruct (String.eqb (path.extname p) ""); [apply slash_free_last_component|].
  destruct (String.eqb (path.extname p) p); [reflexivity|].
  destruct (_ && _); [|apply slash_free_last_component].
  apply slash_free_substring, slash_free_last_component.
Qed.

(** X15. The webview may load what the extension points it to: every URI that
    [_loadPPT] posts with [loadPDF] is the webview URI of a file directly in
    the directory [muty-pptviewer] of the system's temporary directory, with
    a name that holds no separator and ends in [.pdf]; and the temporary
    directory is one of the local resource roots that [resolveCustomEditor]
    gives the webview. *)
Theorem loadPDF_under_resource_root (h : Host) (extensionPath fsPath : string) (w : World) :
  In (tmpdir h) (localResourceRoots (webview_options h extensionPath fsPath)) /\
  forall uri, In (LoadPDF uri) (replies w (_loadPPT h fsPath w).2) ->
    exists name,
      slash_free name = true /\
      uri = asWebviewUri h (path.join (path.join (tmpdir h) "muty-pptviewer")
                              (name +:+ ".pdf")).
Proof.
  split; [simpl; tauto|].
  intros uri Hin.
  destruct (_loadPPT_delta h fsPath w) as (evs & b & w1 & Hlog & _ & H).
  rewrite (replies_ext _ _ _ Hlog) in Hin.
  destruct b.
  - destruct (convertToPDF_cases h fsPath (in_progress w1)) as [(H1 & _)|(e & H1 & _)];
      rewrite H1 in H; destruct H as [H _]; rewrite H in Hin;
      destruct Hin as [Hin|[]]; [|discriminate].
    injection Hin as <-. exists (fileName_of fsPath).
    split; [apply slash_free_fileName | reflexivity].
  - destruct H as [H _]. rewrite H in Hin. destruct Hin as [Hin|[]]. discriminate.
Qed.

(** ** The page [_getHtmlForWebview] builds *)

Lemma split_first_eq pat s :
  js.split_first pat s
  = if String.prefix pat s then Some ("", js.slice (String.length pat) s)
    else match s with
         | "" => None
         | String c s' =>
             match js.split_first pat s' with
             | Some (before, after) => Some (String c before, after)
             | None => None
             end
         end.
Proof. destruct s; reflexivity. Qed.

Lemma prefix_slice pat s :
  String.prefix pat s = true -> s = pat +:+ js.slice (String.length pat) s.
Proof.
  revert s. induction pat as [|a pat IH]; intros s H; [reflexivity|].
  destruct s as [|b s]; simpl in H; [discriminate|].
  destruct (ascii_dec a b) as [->|]; [|discriminate].
  change (String b s = String b (pat +:+ js.slice (String.length pat) s)).
  now rewrite <- (IH s H).
Qed.

Lemma prefix_append pat b : String.prefix pat (pat +:+ b) = true.
Proof.
  induction pat as [|a pat IH]; [now destruct b|].
  change (String.prefix (String a pat) (String a (pat +:+ b)) = true). simpl.
  destruct (ascii_dec a a); [exact IH | congruence].
Qed.

Lemma slice_append pat b : js.slice (String.length pat) (pat +:+ b) = b.
Proof. induction pat as [|a pat IH]; [now destruct b | exact IH]. Qed.

Lemma split_first_sound pat s a b :
  js.split_first pat s = Some (a, b) -> s = a +:+ pat +:+ b.
Proof.
  revert a b. induction s as [|c s IH]; intros a b H; rewrite split_first_eq in H.
  - destruct (String.prefix pat "") eqn:E; [|discriminate].
    injection H as <- <-. now apply prefix_slice.
  - destruct (String.prefix pat (String c s)) eqn:E.
    + injection H as <- <-. now apply prefix_slice.
    + destruct (js.split_first pat s) as [[x y]|]; [|discriminate].
      injection H as <- <-.
      change (String c s = String c (x +:+ pat +:+ y)). now rewrite <- (IH x y).
Qed.

Lemma split_first_earliest pat s a b :
  js.split_first pat s = Some (a, b) ->
  forall a' b', s = a' +:+ pat +:+ b' -> (String.length a <= String.length a')%nat.
Proof.
  revert a b. induction s as [|c s IH]; intros a b H a' b' Hs; rewrite split_first_eq in H.
  - destruct (String.prefix pat ""); [|discriminate]. injection H as <- <-. simpl. lia.
  - destruct (String.prefix pat (String c s)) eqn:E.
    + injection H as <- <-. simpl. lia.
    + destruct (js.split_first pat s) as [[x y]|] eqn:Hx; [|discriminate].
      injection H as <- <-.
      destruct a' as [|c' a'].
      * change ("" +:+ pat +:+ b') with (pat +:+ b') in Hs.
        rewrite Hs, prefix_append in E. discriminate.
      * change (String c s = String c' (a' +:+ pat +:+ b')) in Hs.
        injection Hs as _ Hs. simpl. apply le_n_S. exact (IH x y eq_refl a' b' Hs).
Qed.

Lemma split_first_none pat s : js.split_first pat s = None -> ~ occurs pat s.
Proof.
  induction s as [|c s IH]; intros H (a & b & Hs); rewrite split_first_eq in H.
  - destruct (String.prefix pat "") eqn:E; [discriminate|].
    destruct a; [|discriminate]. change (""  = pat +:+ b) in Hs.
    rewrite Hs, prefix_append in E. discriminate.
  - destruct (String.prefix pat (String c s)) eqn:E; [discriminate|].
    destruct (js.split_first pat s) as [[x y]|]; [discriminate|].
    destruct a as [|c' a].
    + change (String c s = pat +:+ b) in Hs. rewrite Hs, prefix_append in E. discriminate.
    + change (String c s = String c' (a +:+ pat +:+ b)) in Hs. injection Hs as _ Hs.
      apply IH; [reflexivity|]. now exists a, b.
Qed.

Lemma append_same_length a a' r r' :
  a +:+ r = a' +:+ r' -> String.length a = String.length a' -> a = a' /\ r = r'.
Proof.
  revert a'. induction a as [|c a IH]; intros [|c' a'] H Hl; try discriminate.
  - now split.
  - change (String c (a +:+ r) = String c' (a' +:+ r')) in H.
    injection H as -> H. injection Hl as Hl.
    destruct (IH a' H Hl) as [-> ->]. now split.
Qed.

Lemma append_cancel a r r' : a +:+ r = a +:+ r' -> r = r'.
Proof. intros H. now destruct (append_same_length a a r r' H eq_refl). Qed.

Lemma first_occurrence_split pat s a b :
  first_occurrence pat s a b <-> js.split_first pat s = Some (a, b).
Proof.
  split.
  - intros [Hs Hmin]. destruct (js.split_first pat s) as [[x y]|] eqn:Hx.
    + assert (Hx' := split_first_sound _ _ _ _ Hx).
      assert (H1 := split_first_earliest _ _ _ _ Hx a b Hs).
      assert (H2 := Hmin x y Hx').
      rewrite Hs in Hx'.
      destruct (append_same_length a x _ _ Hx' ltac:(lia)) as [<- Hr].
      apply append_cancel in Hr. now rewrite Hr.
    + exfalso. apply (split_first_none _ _ Hx). now exists a, b.
  - intros H. split; [now apply split_first_sound | now apply (split_first_earliest _ _ _ _ H)].
Qed.

Lemma substitution_plain m a b t :
  dollar_free t = true -> js.substitution m a b t = t.
Proof.
  induction t as [|c t IH]; intros H; [reflexivity|].
  unfold dollar_free in H. cbn in H. apply andb_true_iff in H as [Hc Ht].
  apply negb_true_iff in Hc. cbn [js.substitution]. rewrite Hc.
  fold (js.substitution m a b t). now rewrite (IH Ht).
Qed.

Lemma dollar_free_app s t :
  dollar_free (s +:+ t) = dollar_free s && dollar_free t.
Proof. unfold dollar_free. now rewrite chars_append, List.forallb_app. Qed.

Lemma replace_first pat s a b r :
  first_occurrence pat s a b -> dollar_free r = true -> js.replace s pat r = a +:+ r +:+ b.
Proof.
  intros H Hr. apply first_occurrence_split in H. unfold js.replace.
  now rewrite H, substitution_plain.
Qed.

Lemma replace_absent pat s r : ~ occurs pat s -> js.replace s pat r = s.
Proof.
  intros H. unfold js.replace.
  destruct (js.split_first pat s) as [[x y]|] eqn:Hx; [|reflexivity].
  exfalso. apply H. exists x, y. now apply split_first_sound.
Qed.

(** X16. The page [_getHtmlForWebview] returns, for a template that holds the
    placeholder and a closing head tag, and texts without dollar sign: the
    template with the first placeholder, and only the first, replaced by the
    URI of the PDF.js resources, and with the script put in once, right
    before the first closing head tag of the text so obtained. *)
Theorem _getHtmlForWebview_page (h : Host) (extensionPath : string)
    (readFileSync : string -> option string) (customScript template a b c d : string) :
  readFileSync (viewerHtmlPath extensionPath) = Some template ->
  dollar_free (pdfResourceUri h extensionPath) = true ->
  dollar_free customScript = true ->
  first_occurrence "{{baseUrl}}" template a b ->
  first_occurrence "</head>" (a +:+ pdfResourceUri h extensionPath +:+ b) c d ->
  _getHtmlForWebview h extensionPath readFileSync customScript
  = Some (c +:+ customScript +:+ "</head>" +:+ d).
Proof.
  intros Hread Huri Hscript Hbase Hhead. unfold _getHtmlForWebview. rewrite Hread.
  rewrite (replace_first _ _ _ _ _ Hbase Huri).
  rewrite (replace_first _ _ _ _ _ Hhead); [now rewrite append_assoc|].
  now rewrite dollar_free_app, Hscript.
Qed.

Lemma _getHtmlForWebview_page_witness :
  _getHtmlForWebview (linux_host kids_ok) "/ext" (sample_files sample_template) sample_script
  = Some ("<head><base href=vscode-webview://panel/ext/resource/pdf/>"
          +:+ sample_script +:+ "</head>" +:+ "<body>{{baseUrl}}</body>").
Proof.
  apply (_getHtmlForWebview_page (linux_host kids_ok) "/ext" (sample_files sample_template)
           sample_script sample_template "<head><base href=" "/></head><body>{{baseUrl}}</body>").
  - reflexivity.
  - vm_compute. reflexivity.
  - vm_compute. reflexivity.
  - apply first_occurrence_split. vm_compute. reflexivity.
  - apply first_occurrence_split. vm_compute. reflexivity.
Defined.

(** X17. [_getHtmlForWebview] does not notice a template without closing head
    tag: it returns the page with the placeholder replaced and without the
    script, and raises nothing. *)
Theorem _getHtmlForWebview_without_head (h : Host) (extensionPath : string)
    (readFileSync : string -> option string) (customScript template : string) :
  readFileSync (viewerHtmlPath extensionPath) = Some template ->
  ~ occurs "</head>" (js.replace template "{{baseUrl}}" (pdfResourceUri h extensionPath)) ->
  _getHtmlForWebview h extensionPath readFileSync customScript
  = Some (js.replace template "{{baseUrl}}" (pdfResourceUri h extensionPath)).
Proof.
  intros Hread Hno. unfold _getHtmlForWebview. rewrite Hread.
  now rewrite (replace_absent _ _ _ Hno).
Qed.

Lemma _getHtmlForWebview_without_head_witness :
  _getHtmlForWebview (linux_host kids_ok) "/ext" (sample_files "<body>{{baseUrl}}</body>")
    sample_script
  = Some "<body>vscode-webview://panel/ext/resource/pdf</body>".
Proof.
  apply (_getHtmlForWebview_without_head (linux_host kids_ok) "/ext"
           (sample_files "<body>{{baseUrl}}</body>") sample_script "<body>{{baseUrl}}</body>").
  - reflexivity.
  - apply split_first_none. vm_compute. reflexivity.
Defined.

(** ** The entry in product.json *)

Lemma field_get_set_same k v f : field_get k (field_set k v f) = Some v.
Proof.
  induction f as [|[k' v'] f IH]; simpl.
  - now rewrite String.eqb_refl.
  - destruct (String.eqb k' k) eqn:E; simpl; [now rewrite String.eqb_refl | now rewrite E].
Qed.

Lemma field_get_set_other k k' v f :
  k <> k' -> field_get k' (field_set k v f) = field_get k' f.
Proof.
  intros Hne. apply String.eqb_neq in Hne.
  induction f as [|[k0 v0] f IH]; simpl.
  - now rewrite Hne.
  - destruct (String.eqb k0 k) eqn:E; simpl.
    + apply String.eqb_eq in E as ->. now rewrite Hne.
    + now rewrite IH.
Qed.

Lemma field_set_set k v v' f : field_set k v' (field_set k v f) = field_set k v' f.
Proof.
  induction f as [|[k0 v0] f IH]; simpl.
  - now rewrite String.eqb_refl.
  - destruct (String.eqb k0 k) eqn:E; simpl; [now rewrite String.eqb_refl | now rewrite E, IH].
Qed.

(** An assignment to a property the object has keeps the order of the others,
    so it commutes with an assignment to another property. *)
Lemma field_set_comm k k' a b g :
  k <> k' -> field_get k g <> None ->
  field_set k a (field_set k' b g) = field_set k' b (field_set k a g).
Proof.
  intros Hne Hin. assert (Hne' : k' <> k) by congruence.
  apply String.eqb_neq in Hne, Hne'.
  induction g as [|[k0 v0] g IH]; simpl in *; [congruence|].
  destruct (String.eqb k0 k) eqn:E.
  - apply String.eqb_eq in E as ->. rewrite Hne. simpl.
    now rewrite String.eqb_refl, Hne.
  - destruct (String.eqb k0 k') eqn:E'; simpl.
    + apply String.eqb_eq in E' as ->. now rewrite Hne', String.eqb_refl.
    + now rewrite E, E', (IH Hin).
Qed.

Lemma field_get_stamp k v s g :
  k <> "version" -> k <> "vsix" -> k <> "sha256" ->
  field_get k (stamp v s g) = field_get k g.
Proof.
  intros H1 H2 H3. unfold stamp.
  rewrite !field_get_set_other; [reflexivity | congruence..].
Qed.

Lemma field_set_stamp k a v s g :
  k <> "version" -> k <> "vsix" -> k <> "sha256" -> field_get k g <> None ->
  field_set k a (stamp v s g) = stamp v s (field_set k a g).
Proof.
  intros H1 H2 H3 Hin. unfold stamp.
  rewrite field_set_comm; [|exact H3|rewrite !field_get_set_other; [exact Hin|congruence..]].
  rewrite (field_set_comm k "vsix");
    [|exact H2|rewrite !field_get_set_other; [exact Hin|congruence..]].
  now rewrite (field_set_comm k "version").
Qed.

Lemma stamp_stamp v s v' s' g : stamp v' s' (stamp v s g) = stamp v' s' g.
Proof.
  unfold stamp.
  set (S1 := field_set "version" (JString v)). set (S1' := field_set "version" (JString v')).
  set (S2 := field_set "vsix" (JString (vsix_of v))).
  set (S2' := field_set "vsix" (JString (vsix_of v'))).
  set (S3 := field_set "sha256" (JString s)). set (S3' := field_set "sha256" (JString s')).
  assert (E1 : S1' (S3 (S2 (S1 g))) = S3 (S2 (S1' g))).
  { unfold S1', S3. rewrite (field_set_comm "version" "sha256");
      [|discriminate|unfold S2, S1; rewrite field_get_set_other, field_get_set_same;
                      [discriminate|discriminate]].
    unfold S2. rewrite (field_set_comm "version" "vsix");
      [|discriminate|unfold S1; rewrite field_get_set_same; discriminate].
    unfold S1. now rewrite field_set_set. }
  rewrite E1.
  assert (E2 : S2' (S3 (S2 (S1' g))) = S3 (S2' (S1' g))).
  { unfold S2', S3. rewrite (field_set_comm "vsix" "sha256");
      [|discriminate|unfold S2; rewrite field_get_set_same; discriminate].
    unfold S2. now rewrite field_set_set. }
  rewrite E2. unfold S3', S3. now rewrite field_set_set.
Qed.

Lemma is_entry_stamp v s g : is_entry (JObject (stamp v s g)) = is_entry (JObject g).
Proof. unfold is_entry. now rewrite field_get_stamp. Qed.

Lemma is_entry_updateEntry v s e : is_entry (updateEntry v s e) = is_entry e.
Proof.
  destruct e as [| | | | |g]; try reflexivity. unfold updateEntry.
  destruct (is_entry (JObject g)) eqn:E; [|exact E]. now rewrite is_entry_stamp.
Qed.

Lemma updateEntry_twice v s v' s' e :
  updateEntry v' s' (updateEntry v s e) = updateEntry v' s' e.
Proof.
  destruct e as [| | | | |g]; try reflexivity. unfold updateEntry at 2.
  destruct (is_entry (JObject g)) eqn:E.
  - unfold updateEntry. now rewrite is_entry_stamp, E, stamp_stamp.
  - reflexivity.
Qed.



Lemma existsb_updateEntry v s items :
  existsb is_entry (List.map (updateEntry v s) items) = existsb is_entry items.
Proof.
  induction items as [|e items IH]; [reflexivity|]. simpl.
  now rewrite is_entry_updateEntry, IH.
Qed.

Lemma map_updateEntry_twice v s v' s' items :
  List.map (updateEntry v' s') (List.map (updateEntry v s) items)
  = List.map (updateEntry v' s') items.
Proof.
  induction items as [|e items IH]; [reflexivity|]. simpl.
  now rewrite updateEntry_twice, IH.
Qed.

Lemma update_array_items v s key f :
  items_of key (update_array v s key f).1 = List.map (updateEntry v s) (items_of key f).
Proof.
  unfold update_array, items_of.
  destruct (field_get key f) as [[| | | |items|]|] eqn:E; cbn [fst]; rewrite ?E; try reflexivity.
  now rewrite field_get_set_same.
Qed.

Lemma update_array_get v s key k f :
  key <> k -> field_get k (update_array v s key f).1 = field_get k f.
Proof.
  intros Hne. unfold update_array.
  destruct (field_get key f) as [[| | | |items|]|]; cbn [fst]; try reflexivity.
  now apply field_get_set_other.
Qed.

Lemma update_array_flag v s key f :
  (update_array v s key f).2 = existsb is_entry (items_of key f).
Proof.
  unfold update_array, items_of.
  now destruct (field_get key f) as [[| | | |items|]|].
Qed.

Lemma update_array_twice v s v' s' key f :
  (update_array v' s' key (update_array v s key f).1).1 = (update_array v' s' key f).1.
Proof.
  unfold update_array.
  destruct (field_get key f) as [[| | | |items|]|] eqn:E; cbn [fst]; rewrite ?E; try reflexivity.
  rewrite field_get_set_same. cbn [fst]. now rewrite field_set_set, map_updateEntry_twice.
Qed.

Lemma update_array_comm v s v' s' key key' f :
  key <> key' ->
  (update_array v s key (update_array v' s' key' f).1).1
  = (update_array v' s' key' (update_array v s key f).1).1.
Proof.
  intros Hne. assert (Hne' : key' <> key) by congruence.
  unfold update_array at 1 3.
  rewrite (update_array_get v' s' key' key f Hne'), (update_array_get v s key key' f Hne).
  unfold update_array.
  destruct (field_get key f) as [[| | | |items|]|] eqn:E;
    destruct (field_get key' f) as [[| | | |items'|]|] eqn:E'; cbn [fst]; try reflexivity.
  apply field_set_comm; [exact Hne | now rewrite E].
Qed.

Lemma update_array_stamp v s v' s' key f :
  key <> "version" -> key <> "vsix" -> key <> "sha256" ->
  (update_array v s key (stamp v' s' f)).1 = stamp v' s' (update_array v s key f).1.
Proof.
  intros H1 H2 H3. unfold update_array. rewrite (field_get_stamp key v' s' f H1 H2 H3).
  destruct (field_get key f) as [[| | | |items|]|] eqn:E; cbn [fst]; try reflexivity.
  apply field_set_stamp; try assumption. now rewrite E.
Qed.

Lemma is_entry_arrays_updated v s f :
  is_entry (JObject (arrays_updated v s f)) = is_entry (JObject f).
Proof.
  unfold is_entry, arrays_updated. now rewrite !update_array_get by discriminate.
Qed.

Lemma updateProductJson_eq v s f :
  updateProductJson v s (JObject f)
  = if existsb is_entry (candidates (JObject f))
    then Written (updateEntry v s (JObject (arrays_updated v s f)))
    else EntryNotFound.
Proof.
  unfold updateProductJson, candidates. cbv zeta. fold (arrays_updated v s f).
  rewrite !update_array_flag, is_entry_arrays_updated.
  unfold items_of at 2. rewrite update_array_get by discriminate. fold (items_of "extensions" f).
  rewrite !List.existsb_app. cbn [existsb]. now rewrite orb_false_r, orb_assoc.
Qed.

Lemma items_of_get key f f' : field_get key f' = field_get key f -> items_of key f' = items_of key f.
Proof. unfold items_of. now intros ->. Qed.

Lemma items_of_arrays_updated v s f :
  items_of "builtInExtensions" (arrays_updated v s f)
  = List.map (updateEntry v s) (items_of "builtInExtensions" f) /\
  items_of "extensions" (arrays_updated v s f)
  = List.map (updateEntry v s) (items_of "extensions" f).
Proof.
  unfold arrays_updated. split.
  - rewrite <- update_array_items. apply items_of_get. now apply update_array_get.
  - rewrite update_array_items. f_equal. apply items_of_get. now apply update_array_get.
Qed.

Lemma arrays_updated_twice v s v' s' f :
  arrays_updated v' s' (arrays_updated v s f) = arrays_updated v' s' f.
Proof.
  unfold arrays_updated.
  rewrite (update_array_comm v' s' v s "builtInExtensions" "extensions") by discriminate.
  now rewrite !update_array_twice.
Qed.

Lemma arrays_updated_stamp v s v' s' f :
  arrays_updated v' s' (stamp v s f) = stamp v s (arrays_updated v' s' f).
Proof. unfold arrays_updated. now rewrite !update_array_stamp by discriminate. Qed.

(** X18. How [updateProductJson] ends, by the document it has parsed.  It
    writes product.json exactly when there is an entry named
    [muty-pptviewer] among the elements of [builtInExtensions], the elements
    of [extensions] and the document itself; it fails for want of an entry
    otherwise; and for the document [null] the first property access throws
    a TypeError. *)
Theorem updateProductJson_outcomes (version newSha : string) (j : json) :
  match updateProductJson version newSha j with
  | Written _ => exists entry, In entry (candidates j) /\ is_entry entry = true
  | EntryNotFound =>
      j <> JNull /\ forall entry, In entry (candidates j) -> is_entry entry = false
  | TypeError => j = JNull
  end.
Proof.
  destruct j as [| | | | |f]; try (split; [discriminate | intros e []]); [reflexivity|].
  rewrite updateProductJson_eq.
  destruct (existsb is_entry (candidates (JObject f))) eqn:E.
  - apply List.existsb_exists in E. exact E.
  - split; [discriminate|]. intros e He.
    destruct (is_entry e) eqn:Ee; [|reflexivity].
    assert (existsb is_entry (candidates (JObject f)) = true)
      by (apply List.existsb_exists; eauto).
    congruence.
Qed.

Lemma candidates_updated v s f :
  existsb is_entry (candidates (updateEntry v s (JObject (arrays_updated v s f))))
  = existsb is_entry (candidates (JObject f)).
Proof.
  destruct (items_of_arrays_updated v s f) as [H1 H2].
  assert (Hc : forall g, exists g',
             updateEntry v s (JObject g) = JObject g' /\
             items_of "builtInExtensions" g' = items_of "builtInExtensions" g /\
             items_of "extensions" g' = items_of "extensions" g).
  { intros g. unfold updateEntry. destruct (is_entry (JObject g)).
    - exists (stamp v s g). split; [reflexivity|].
      split; apply items_of_get; now apply field_get_stamp.
    - exists g. now split. }
  destruct (Hc (arrays_updated v s f)) as (g' & Hg' & Hb & He).
  assert (Hi := is_entry_updateEntry v s (JObject (arrays_updated v s f))).
  rewrite Hg' in Hi |- *. unfold candidates.
  rewrite !List.existsb_app, Hb, He, H1, H2, !existsb_updateEntry. cbn [existsb].
  now rewrite Hi, is_entry_arrays_updated.
Qed.

Lemma arrays_updated_entry v s v' s' g :
  exists g', updateEntry v s (JObject g) = JObject g' /\
             JObject (arrays_updated v' s' g') = updateEntry v s (JObject (arrays_updated v' s' g)).
Proof.
  unfold updateEntry. rewrite is_entry_arrays_updated. destruct (is_entry (JObject g)).
  - exists (stamp v s g). split; [reflexivity|]. now rewrite arrays_updated_stamp.
  - exists g. now split.
Qed.

(** X19. Running the update again replaces what the earlier run wrote: after
    a run with one version and hash, a run with another gives the very
    document that this other run gives on the original product.json, with
    the properties in the same order.  In particular a second run with the
    same version and hash changes nothing. *)
Theorem updateProductJson_last_wins (version newSha version' newSha' : string) (j j' : json) :
  updateProductJson version newSha j = Written j' ->
  updateProductJson version' newSha' j' = updateProductJson version' newSha' j /\
  updateProductJson version newSha j' = Written j'.
Proof.
  intros H. destruct j as [| | | | |f]; try discriminate.
  rewrite updateProductJson_eq in H.
  destruct (existsb is_entry (candidates (JObject f))) eqn:E; [|discriminate].
  injection H as <-.
  assert (Hgen : forall v1 s1,
            updateProductJson v1 s1 (updateEntry version newSha
                                       (JObject (arrays_updated version newSha f)))
            = updateProductJson v1 s1 (JObject f)).
  { intros v1 s1.
    assert (Hc := candidates_updated version newSha f).
    destruct (arrays_updated_entry version newSha v1 s1 (arrays_updated version newSha f))
      as (g' & Hg' & Hup).
    rewrite Hg' in Hc |- *. rewrite !updateProductJson_eq, Hc, E, Hup.
    now rewrite updateEntry_twice, arrays_updated_twice. }
  split; [apply Hgen|].
  now rewrite Hgen, updateProductJson_eq, E.
Qed.

Lemma updateProductJson_last_wins_witness :
  updateProductJson "0.0.3" "bb"
    (JObject [ ("nameShort", JString "Editor");
               ("builtInExtensions",
                JArray [ JObject [("name", JString "other"); ("version", JString "1.0.0")];
                         JObject [("name", JString "muty-pptviewer");
                                  ("version", JString "0.0.2");
                                  ("sha256", JString "aa");
                                  ("vsix", JString (vsix_of "0.0.2"))] ]) ])
  = updateProductJson "0.0.3" "bb" sample_product.
Proof.
  refine (proj1 (updateProductJson_last_wins "0.0.2" "aa" "0.0.3" "bb" sample_product _ _)).
  vm_compute. reflexivity.
Defined.



(** ** The processes a call starts *)

Lemma started_app evs evs' : started (evs ++ evs') = started evs ++ started evs'.
Proof. apply omap_app. Qed.

Lemma started_last_seen pid alive evs : started [last_seen pid alive evs] = [].
Proof.
  unfold last_seen.
  now destruct (first_loud_cases evs) as [->|[[msg ->]|[code ->]]].
Qed.

Lemma started_child pid cmd args alive evs :
  started [Spawn pid cmd args; last_seen pid alive evs] = [args].
Proof.
  change [Spawn pid cmd args; last_seen pid alive evs]
    with ([Spawn pid cmd args] ++ [last_seen pid alive evs]).
  now rewrite started_app, started_last_seen.
Qed.

Lemma convertToPDF_started h p w :
  exists evs,
    log (convertToPDF h p w).2 = log w ++ evs /\
    spawned (convertToPDF h p w).2 = (spawned w + List.length (started evs))%nat /\
    (started evs = [["--version"]] \/
     started evs = [["--version"]; pdf_args h p] /\
     exists w', convertToPDF h p w = pdf_conversion h p w').
Proof.
  destruct (probe_run h w) as (after & Heq & _ & _).
  rewrite (convertToPDF_unfold h p w _ _ Heq).
  set (w1 := world_after_child _ _ _ _ _).
  set (probe_evs := [Spawn (spawned w) (getLibreOfficePath (platform h) (files w))
                       ["--version"]; last_seen (spawned w) true (next_child h w 5000)]).
  assert (Hp : started probe_evs = [["--version"]]) by apply started_child.
  assert (Hw1 : log w1 = log w ++ probe_evs) by reflexivity.
  assert (Hs1 : spawned w1 = S (spawned w)) by reflexivity.
  destruct (probe_answer _).
  2:{ exists probe_evs. split; [exact Hw1|]. rewrite Hp. cbn [snd List.length].
      split; [rewrite Hs1; lia | now left]. }
  destruct (after_mkdir_exact h w1) as [Hlog Hsp].
  set (dirs := if fs.existsSync (files w1) (tempDir_of h) then []
               else [Mkdir (tempDir_of h)]) in *.
  assert (Hd : started dirs = []).
  { subst dirs. now destruct (fs.existsSync (files w1) (tempDir_of h)). }
  assert (Hstay : exists evs,
            log (after_mkdir h w1) = log w ++ evs /\
            spawned (after_mkdir h w1) = (spawned w + List.length (started evs))%nat /\
            started evs = [["--version"]]).
  { exists (probe_evs ++ dirs). rewrite Hlog, Hw1, <- app_assoc, started_app, Hp, Hd, Hsp, Hs1.
    split; [reflexivity|]. split; [cbn; lia | reflexivity]. }
  assert (Hconv : exists evs,
            log (pdf_conversion h p (after_mkdir h w1)).2 = log w ++ evs /\
            spawned (pdf_conversion h p (after_mkdir h w1)).2
            = (spawned w + List.length (started evs))%nat /\
            started evs = [["--version"]; pdf_args h p]).
  { destruct (pdf_run h p (after_mkdir h w1)) as (after' & -> & _ & _).
    exists (probe_evs ++ dirs ++
            [Spawn (spawned (after_mkdir h w1))
               (getLibreOfficePath (platform h) (files (after_mkdir h w1))) (pdf_args h p);
             last_seen (spawned (after_mkdir h w1)) true
               (next_child h (after_mkdir h w1) 30000)]).
    cbn [snd]. unfold world_after_child at 1 2. cbn [log spawned].
    rewrite Hlog, Hw1, <- !app_assoc, !started_app, Hp, Hd, started_child, Hsp, Hs1.
    split; [reflexivity|]. split; [cbn; lia | reflexivity]. }
  destruct (fs.statSync (files (after_mkdir h w1)) (pdfPath_of h p)) as [pdf|].
  - destruct (fs.statSync (files (after_mkdir h w1)) p) as [ppt|].
    + destruct (mtime pdf >? mtime ppt).
      * destruct Hstay as (evs & H1 & H2 & H3). exists evs. cbn [snd]. now auto.
      * destruct Hconv as (evs & H1 & H2 & H3). exists evs.
        split; [exact H1|]. split; [exact H2|]. right. split; [exact H3|]. now eexists.
    + destruct Hstay as (evs & H1 & H2 & H3). exists evs. cbn [snd]. now auto.
  - destruct Hconv as (evs & H1 & H2 & H3). exists evs.
    split; [exact H1|]. split; [exact H2|]. right. split; [exact H3|]. now eexists.
Qed.

(** X21. The processes one run of [_loadPPT] starts: its own probe alone; or
    its probe and the probe of [convertToPDF]; or these two and one
    conversion to PDF, started last with the arguments of [convertToPDF].
    Never more than three, and never a conversion to images:
    [convertToImages] has no part in what the editor does. *)
Theorem _loadPPT_processes (h : Host) (pptPath : string) (w : World) :
  exists evs,
    log (_loadPPT h pptPath w).2 = log w ++ evs /\
    spawned (_loadPPT h pptPath w).2 = (spawned w + List.length (started evs))%nat /\
    (started evs = [["--version"]] \/
     started evs = [["--version"]; ["--version"]] \/
     started evs = [["--version"]; ["--version"]; pdf_args h pptPath]).
Proof.
  destruct (probe_run h w) as (after & Heq & _ & _).
  set (w1 := world_after_child _ _ _ _ _) in Heq.
  set (probe_evs := [Spawn (spawned w) (getLibreOfficePath (platform h) (files w))
                       ["--version"]; last_seen (spawned w) true (next_child h w 5000)]).
  assert (Hp : started probe_evs = [["--version"]]) by apply started_child.
  assert (Hw1 : log w1 = log w ++ probe_evs) by reflexivity.
  assert (Hs1 : spawned w1 = S (spawned w)) by reflexivity.
  rewrite (_loadPPT_unfold h pptPath w _ _ Heq).
  destruct (probe_answer _).
  - destruct (convertToPDF_started h pptPath (in_progress w1)) as (cevs & Hc & Hn & Hargs).
    assert (Hset := convertToPDF_settles h pptPath (in_progress w1)).
    assert (Hall : forall tail, started tail = [] ->
              exists evs,
                log (logged (convertToPDF h pptPath (in_progress w1)).2 tail) = log w ++ evs /\
                spawned (convertToPDF h pptPath (in_progress w1)).2
                = (spawned w + List.length (started evs))%nat /\
                (started evs = [["--version"]] \/
                 started evs = [["--version"]; ["--version"]] \/
                 started evs = [["--version"]; ["--version"]; pdf_args h pptPath])).
    { intros tail Htail.
      exists (probe_evs ++ [WithProgress "Converting PowerPoint to PDF..."] ++ cevs ++ tail).
      unfold logged. cbn [log]. rewrite Hc, Hn. unfold in_progress, emit. cbn [snd log spawned].
      rewrite Hw1, Hs1, <- !app_assoc, !started_app, Hp, Htail, app_nil_r.
      split; [reflexivity|].
      change (started [WithProgress "Converting PowerPoint to PDF..."]) with (@nil (list string)).
      cbn [app List.length].
      split; [lia|]. right. destruct Hargs as [->|[-> _]]; [now left | now right]. }
    destruct (convertToPDF h pptPath (in_progress w1)) as [[|pdfPath|e] w2];
      cbn [fst snd] in *; [discriminate | now apply Hall..].
  - exists (probe_evs ++ [PostMessage LibreOfficeNotInstalled]).
    unfold logged. cbn [snd log spawned]. rewrite Hw1, <- app_assoc, started_app, Hp.
    split; [reflexivity|]. split; [cbn; lia | now left].
Qed.

(** X22. The processes one call of [convertToImages] starts: the probe; then
    at most one conversion to PDF; then, exactly when the PDF step has
    succeeded, one conversion to images, which gets the path the PDF step
    returned as its last argument. *)
Theorem convertToImages_processes (h : Host) (pptPath : string) (w : World) :
  exists evs pdf,
    log (convertToImages h pptPath w).2 = log w ++ evs /\
    spawned (convertToImages h pptPath w).2 = (spawned w + List.length (started evs))%nat /\
    (pdf = [] \/ pdf = [pdf_args h pptPath]) /\
    started evs
    = [["--version"]] ++ pdf ++
      match (convertToPDF h pptPath w).1 with
      | Fulfilled pdfPath => [image_args h pdfPath]
      | _ => []
      end.
Proof.
  destruct (convertToPDF_started h pptPath w) as (cevs & Hc & Hn & Hargs).
  assert (Hpdf : exists pdf, started cevs = [["--version"]] ++ pdf /\
                             (pdf = [] \/ pdf = [pdf_args h pptPath])).
  { destruct Hargs as [->|[-> _]]; [exists []; now split; [|left] |].
    exists [pdf_args h pptPath]. split; [reflexivity | now right]. }
  destruct Hpdf as (pdf & Hcev & Hpdf).
  destruct (convertToPDF_cases h pptPath w) as [(H1 & _)|(e & H1 & _)].
  - destruct (convertToPDF h pptPath w) as [r w'] eqn:Hconv. cbn [fst snd] in *. subst r.
    rewrite (convertToImages_then h pptPath w _ _ Hconv).
    destruct (image_run h pptPath (pdfPath_of h pptPath) w') as (after & Heq & _ & _).
    rewrite Heq. cbn [snd]. unfold world_after_child. cbn [log spawned].
    exists (cevs ++ [Spawn (spawned w') (getLibreOfficePath (platform h) (files w'))
                       (image_args h (pdfPath_of h pptPath));
                     last_seen (spawned w') true (next_child h w' 30000)]), pdf.
    rewrite Hc, Hn, <- app_assoc, started_app, started_child, Hcev.
    split; [reflexivity|]. split; [rewrite !List.length_app; cbn; lia|].
    split; [exact Hpdf | now rewrite <- app_assoc].
  - assert (Hfail : convertToImages h pptPath w = (Rejected e, (convertToPDF h pptPath w).2)).
    { unfold convertToImages, bind. destruct (convertToPDF h pptPath w) as [r w'].
      cbn [fst snd] in *. now subst r. }
    rewrite Hfail, H1. cbn [snd]. exists cevs, pdf.
    split; [exact Hc|]. split; [exact Hn|]. split; [exact Hpdf|].
    now rewrite app_nil_r.
Qed.

(** ** Whose slides [convertToImages] returns *)

Lemma prefix_trans a b c :
  String.prefix a b = true -> String.prefix b c = true -> String.prefix a c = true.
Proof.
  revert b c. induction a as [|x a IH]; intros b c Hab Hbc; [now destruct c|].
  destruct b as [|y b]; [discriminate|]. destruct c as [|z c]; [discriminate|].
  simpl in *. destruct (ascii_dec x y) as [->|]; [|discriminate].
  destruct (ascii_dec y z) as [->|]; [|discriminate].
  now apply (IH b c).
Qed.

Lemma image_success_listing h p pdfPath w images w' :
  image_conversion h p pdfPath w = (Fulfilled images, w') ->
  exists listing names,
    fs.readdirSync (files w') (tempDir_of h) = Some listing /\
    images = List.map (path.join (tempDir_of h)) names /\
    names ≡ₚ List.filter (is_image_of (fileName_of p)) listing.
Proof.
  destruct (image_run h p pdfPath w) as (after & -> & _ & _).
  unfold outcome. set (evs := next_child h w 30000).
  destruct (first_loud_cases evs) as [->|[[msg ->]|[code ->]]]; try discriminate.
  cbn [on_close image_reactions]. destruct (code_is_zero code); [|discriminate].
  unfold world_after_child.
  destruct (fs.readdirSync (written (files w) evs) (tempDir_of h)) as [listing|] eqn:Hdir;
    [|discriminate].
  destruct (sort_joined (tempDir_of h) (List.filter (is_image_of (fileName_of p)) listing))
    as (names & Heq & Hperm & _).
  destruct (List.filter (is_image_of (fileName_of p)) listing) as [|m matching] eqn:Hm;
    [discriminate|].
  intros H. injection H as <- <-. cbn [files].
  exists listing, names. rewrite Hm. now repeat split.
Qed.

(** X23. [convertToImages] tells the slides of a document by the start of
    their names only.  So when it succeeds it returns every image in the
    scratch directory whose name starts with the base name of the source and
    ends with [.png], and with them the slides of any other document whose
    base name starts with that of the source. *)
Theorem convertToImages_foreign_slides (h : Host) (pptPath other : string) (w w' : World)
    (images listing : list string) (name : string) :
  convertToImages h pptPath w = (Fulfilled images, w') ->
  fs.readdirSync (files w') (tempDir_of h) = Some listing ->
  In name listing ->
  startsWith (fileName_of other) (fileName_of pptPath) = true ->
  is_image_of (fileName_of other) name = true ->
  In (path.join (tempDir_of h) name) images.
Proof.
  intros Hconv Hdir Hin Hstart Himg.
  unfold convertToImages, bind in Hconv.
  destruct (convertToPDF h pptPath w) as [[|pdfPath|e] w1]; try discriminate.
  apply image_success_listing in Hconv as (listing' & names & Hdir' & -> & Hperm).
  rewrite Hdir in Hdir'. injection Hdir' as <-.
  apply List.in_map. apply list_elem_of_In. rewrite Hperm. apply list_elem_of_In.
  apply List.filter_In. split; [exact Hin|].
  unfold is_image_of, startsWith in *. apply andb_true_iff in Himg as [H1 H2].
  now rewrite (prefix_trans _ _ _ Hstart H1), H2.
Qed.

Lemma convertToImages_foreign_slides_witness :
  In "/tmp/muty-pptviewer/deckhand-1.png"
    (match (convertToImages (linux_host kids_images) deck (world_of disk_two_slides)).1 with
     | Fulfilled images => images
     | _ => []
     end).
Proof.
  set (r := convertToImages (linux_host kids_images) deck (world_of disk_two_slides)).
  assert (Hr : r = (Fulfilled [ "/tmp/muty-pptviewer/deck-1.png";
                                "/tmp/muty-pptviewer/deck-2.png";
                                "/tmp/muty-pptviewer/deck-3.png";
                                "/tmp/muty-pptviewer/deckhand-1.png" ], r.2))
    by (vm_compute; reflexivity).
  rewrite Hr. cbn [fst].
  refine (convertToImages_foreign_slides (linux_host kids_images) deck deckhand
            (world_of disk_two_slides) r.2 _
            (match fs.readdirSync (files r.2) scratch with Some l => l | None => [] end)
            "deckhand-1.png" Hr _ _ _ _).
  - vm_compute. reflexivity.
  - vm_compute. tauto.
  - vm_compute. reflexivity.
  - vm_compute. reflexivity.
Defined.
